(** * LIM timer utilities (limTimerUtils.c) of the prima WLAN driver

    A shallow embedding of the timer registry, the reconfiguration
    switch and the expiry handlers of
    drivers/staging/prima/CORE/MAC/src/pe/lim/limTimerUtils.c, and the
    properties of the timer subsystem stated over it.

    The embedding follows the client (Android) configuration of the
    file: ANI_PRODUCT_TYPE_CLIENT, WLAN_SOFTAP_FEATURE,
    WLAN_FEATURE_VOWIFI_11R and WLAN_FEATURE_P2P are defined;
    ANI_PRODUCT_TYPE_AP, ANI_AP_SDK, ANI_AP_SDK_OPT and
    ANI_OS_TYPE_RTAI_LINUX are not.  Text under [#if 0] is left out. *)

From Stdlib Require Import ZArith Lia Bool.
From stdpp Require Import base decidable numbers functions list strings.

Local Open Scope Z_scope.

(** ** Machine integers *)

(** [tANI_U32] and [tANI_U16] values are integers kept in range by
    reduction modulo the word size, as C unsigned arithmetic does. *)
Definition u32 (z : Z) : Z := z mod 2 ^ 32.
Definition u16 (z : Z) : Z := z mod 2 ^ 16.

(** ** Enumerations of the headers *)

(** Timer identifiers of limUtils.h that the two switches name. *)
Inductive tLimTimerId :=
  | eLIM_ADDTS_RSP_TIMER
  | eLIM_MIN_CHANNEL_TIMER
  | eLIM_MAX_CHANNEL_TIMER
  | eLIM_JOIN_FAIL_TIMER
  | eLIM_AUTH_FAIL_TIMER
  | eLIM_ASSOC_FAIL_TIMER
  | eLIM_REASSOC_FAIL_TIMER
  | eLIM_HEART_BEAT_TIMER
  | eLIM_PROBE_AFTER_HB_TIMER
  | eLIM_KEEPALIVE_TIMER
  | eLIM_BACKGROUND_SCAN_TIMER
  | eLIM_PRE_AUTH_CLEANUP_TIMER
  | eLIM_LEARN_INTERVAL_TIMER
  | eLIM_CHANNEL_SWITCH_TIMER
  | eLIM_LEARN_DURATION_TIMER
  | eLIM_QUIET_BSS_TIMER
  | eLIM_QUIET_TIMER
  | eLIM_FT_PREAUTH_RSP_TIMER
  | eLIM_REMAIN_CHN_TIMER
  | eLIM_CNF_WAIT_TIMER
  | eLIM_AUTH_RSP_TIMER.

(** The singleton timers of [pMac->lim.limTimers]. *)
Inductive tLimTimerField :=
  | gLimMinChannelTimer
  | gLimMaxChannelTimer
  | gLimChannelSwitchTimer
  | gLimQuietTimer
  | gLimQuietBssTimer
  | gLimJoinFailureTimer
  | gLimAssocFailureTimer
  | gLimReassocFailureTimer
  | gLimAddtsRspTimer
  | gLimAuthFailureTimer
  | gLimHeartBeatTimer
  | gLimProbeAfterHBTimer
  | gLimBackgroundScanTimer
  | gLimSendDisassocFrameThresholdTimer
  | gLimKeepaliveTimer
  | gLimUpdateOlbcCacheTimer
  | gLimFTPreAuthRspTimer
  | gLimRemainOnChannelTimer.

#[global] Instance tLimTimerField_eq_dec : EqDecision tLimTimerField.
Proof. solve_decision. Defined.

(** A timer object: a singleton field, a slot of the per-station
    [gpLimCnfWaitTimer] array, or the timer of a pre-auth table node. *)
Inductive TimerRef :=
  | Single (f : tLimTimerField)
  | CnfWait (i : nat)
  | PreAuth (i : nat).

#[global] Instance TimerRef_eq_dec : EqDecision TimerRef.
Proof. solve_decision. Defined.

(** Message types posted by the expiry handlers (sirParams.h). *)
Inductive tSirLimMsg :=
  | SIR_LIM_MIN_CHANNEL_TIMEOUT
  | SIR_LIM_MAX_CHANNEL_TIMEOUT
  | SIR_LIM_QUIET_TIMEOUT
  | SIR_LIM_QUIET_BSS_TIMEOUT
  | SIR_LIM_JOIN_FAIL_TIMEOUT
  | SIR_LIM_ASSOC_FAIL_TIMEOUT
  | SIR_LIM_ADDTS_RSP_TIMEOUT
  | SIR_LIM_AUTH_FAIL_TIMEOUT
  | SIR_LIM_AUTH_RSP_TIMEOUT
  | SIR_LIM_HEART_BEAT_TIMEOUT
  | SIR_LIM_PROBE_HB_FAILURE_TIMEOUT
  | SIR_LIM_CHANNEL_SCAN_TIMEOUT
  | SIR_LIM_HASH_MISS_THRES_TIMEOUT
  | SIR_LIM_KEEPALIVE_TIMEOUT
  | SIR_LIM_CNF_WAIT_TIMEOUT
  | SIR_LIM_CHANNEL_SWITCH_TIMEOUT
  | SIR_LIM_UPDATE_OLBC_CACHEL_TIMEOUT
  | SIR_LIM_FT_PREAUTH_RSP_TIMEOUT
  | SIR_LIM_REMAIN_CHN_TIMEOUT.

(** Configuration keys read by this file (wniCfgSta.h). *)
Inductive tCfgKey :=
  | WNI_CFG_ACTIVE_MINIMUM_CHANNEL_TIME
  | WNI_CFG_ACTIVE_MAXIMUM_CHANNEL_TIME
  | WNI_CFG_JOIN_FAILURE_TIMEOUT
  | WNI_CFG_ASSOCIATION_FAILURE_TIMEOUT
  | WNI_CFG_REASSOCIATION_FAILURE_TIMEOUT
  | WNI_CFG_ADDTS_RSP_TIMEOUT
  | WNI_CFG_AUTHENTICATE_FAILURE_TIMEOUT
  | WNI_CFG_AUTHENTICATE_RSP_TIMEOUT
  | WNI_CFG_BEACON_INTERVAL
  | WNI_CFG_HEART_BEAT_THRESHOLD
  | WNI_CFG_PROBE_AFTER_HB_FAIL_TIMEOUT
  | WNI_CFG_BACKGROUND_SCAN_PERIOD
  | WNI_CFG_KEEPALIVE_TIMEOUT
  | WNI_CFG_WT_CNF_TIMEOUT
  | WNI_CFG_MAX_NUM_PRE_AUTH
  | WNI_CFG_OLBC_DETECT_TIMEOUT.

#[global] Instance tCfgKey_eq_dec : EqDecision tCfgKey.
Proof. solve_decision. Defined.

Inductive tLimSystemRole :=
  | eLIM_UNKNOWN_ROLE
  | eLIM_AP_ROLE
  | eLIM_STA_IN_IBSS_ROLE
  | eLIM_STA_ROLE
  | eLIM_BT_AMP_STA_ROLE
  | eLIM_BT_AMP_AP_ROLE
  | eLIM_P2P_DEVICE_ROLE.

#[global] Instance tLimSystemRole_eq_dec : EqDecision tLimSystemRole.
Proof. solve_decision. Defined.

Inductive tLimQuietStates :=
  | eLIM_QUIET_INIT
  | eLIM_QUIET_BEGIN
  | eLIM_QUIET_CHANGED
  | eLIM_QUIET_RUNNING
  | eLIM_QUIET_END.

#[global] Instance tLimQuietStates_eq_dec : EqDecision tLimQuietStates.
Proof. solve_decision. Defined.

(** Return codes.  [TX_SUCCESS] and [eSIR_SUCCESS] are both zero in the
    headers, which is why the channel-switch case may compare a timer
    status with [eSIR_SUCCESS]. *)
Inductive tTxStatus := TX_SUCCESS | TX_TIMER_ERROR.
Inductive tSirRetStatus := eSIR_SUCCESS | eSIR_FAILURE.
Inductive tHalStatus := eHAL_STATUS_SUCCESS | eHAL_STATUS_FAILURE.

#[global] Instance tTxStatus_eq_dec : EqDecision tTxStatus.
Proof. solve_decision. Defined.
#[global] Instance tSirRetStatus_eq_dec : EqDecision tSirRetStatus.
Proof. solve_decision. Defined.

Inductive tLogLevel := LOGP | LOGE | LOGW | LOG1 | LOG2 | LOG3.

Inductive tTraceCode := TRACE_CODE_TIMER_ACTIVATE | TRACE_CODE_TIMER_DEACTIVATE.

(** The expiry callbacks a timer can be created with. *)
Inductive tExpiryFunc :=
  | cb_limTimerHandler
  | cb_limAddtsResponseTimerHandler
  | cb_limAuthResponseTimerHandler
  | cb_limAssocFailureTimerHandler
  | cb_limUpdateOlbcCacheTimerHandler
  | cb_limSendDisassocFrameThresholdHandler
  | cb_limCnfWaitTmerHandler
  | cb_limKeepaliveTmerHandler
  | cb_limChannelSwitchTimerHandler
  | cb_limQuietTimerHandler
  | cb_limQuietBssTimerHandler.

(** ** Data *)

Record TX_TIMER := mkTimer {
  tmrSignature : Z;
  pExpireFunc : option tExpiryFunc;
  expireInput : Z;
  initScheduleTimeInMsecs : Z;
  rescheduleTimeInMsecs : Z;
  sessionId : Z;
  tmrActive : bool
}.

Record tSirMsgQ := mkMsg {
  msg_type : Z;
  bodyptr : option Z;
  bodyval : Z
}.

Record tLimMlmScanReq := mkScanReq {
  minChannelTime : Z;
  maxChannelTime : Z
}.

Record tLimSpecMgmtInfo := mkSpecMgmt {
  quietState : tLimQuietStates;
  quietDuration : Z;
  quietTimeoutValue : Z
}.

Record tLimPreAuthNode := mkPreAuthNode {
  timer : TX_TIMER;
  authNodeIdx : Z;
  fFree : bool
}.

Record tLimPreAuthTable := mkPreAuthTable {
  numEntry : Z;
  pTable : option (list tLimPreAuthNode)
}.

Record tPESession := mkSession {
  peSessionId : Z;
  beaconInterval : Z;
  LimRxedBeaconCntDuringHB : Z
}.

(** Calls made to the collaborators that are not part of this file: the
    time source (the tx_timer functions), the configuration store, the LIM message
    queue and the allocator.  The call log is instrumentation: it lets a
    property speak of the arguments a call was given. *)
Inductive ExtCall :=
  | TxCreate (t : TimerRef) (name : string) (cb : tExpiryFunc)
             (input initial reschedule : Z) (auto_activate : bool)
             (r : tTxStatus)
  | TxDeactivate (t : TimerRef) (r : tTxStatus)
  | TxChange (t : TimerRef) (initial reschedule : Z) (r : tTxStatus)
  | TxActivate (t : TimerRef) (r : tTxStatus)
  | CfgGetInt (k : tCfgKey) (r : tSirRetStatus)
  | PostMsg (m : tSirMsgQ) (r : tSirRetStatus)
  | PalAllocate (bytes : Z) (r : tHalStatus).

Inductive LogEntry :=
  | LimLog (lvl : tLogLevel) (fmt : string)
  | MacTrace (code : tTraceCode) (session : Z) (data : tLimTimerId).

(** The global MAC structure, reduced to the fields this file reads or
    writes, together with the collaborators reached through it. *)
Record tAniSirGlobal := mkMac {
  (* pMac->lim *)
  gLimSystemRole : tLimSystemRole;
  limTimers : tLimTimerField -> TX_TIMER;
  gpLimCnfWaitTimer : list TX_TIMER;
  maxStation : Z;
  gLimPreAuthTimerTable : tLimPreAuthTable;
  gLimSpecMgmt : tLimSpecMgmtInfo;
  gLimTriggerBackgroundScanDuringQuietBss : bool;
  gpLimMlmScanReq : option tLimMlmScanReq;
  switchTimeoutValue : Z;            (* gLimChannelSwitch.switchTimeoutValue *)
  gLimBackgroundScanDisable : bool;
  gLimAddtsRspTimerCount : Z;
  gLimTimersCreated : Z;
  (* pMac->sch *)
  keepAlive : Z;
  (* collaborators *)
  cfg : tCfgKey -> option Z;         (* configuration store *)
  limMsgQ : list tSirMsgQ;           (* LIM message queue, oldest first *)
  limMsgQRoom : nat;                 (* free slots left in the queue *)
  txCreateOk : TimerRef -> bool;     (* does the time source grant a create *)
  palAllocOk : bool;                 (* does the allocator grant a request *)
  (* instrumentation *)
  extCalls : list ExtCall;           (* most recent call last *)
  logBuf : list LogEntry             (* most recent entry last *)
}.

(** Field updates of the global structure. *)
Definition set_limTimers (v : tLimTimerField -> TX_TIMER) (s : tAniSirGlobal) :=
  mkMac (gLimSystemRole s) v (gpLimCnfWaitTimer s) (maxStation s)
    (gLimPreAuthTimerTable s) (gLimSpecMgmt s)
    (gLimTriggerBackgroundScanDuringQuietBss s) (gpLimMlmScanReq s)
    (switchTimeoutValue s) (gLimBackgroundScanDisable s)
    (gLimAddtsRspTimerCount s) (gLimTimersCreated s) (keepAlive s) (cfg s)
    (limMsgQ s) (limMsgQRoom s) (txCreateOk s) (palAllocOk s) (extCalls s)
    (logBuf s).

Definition set_gpLimCnfWaitTimer (v : list TX_TIMER) (s : tAniSirGlobal) :=
  mkMac (gLimSystemRole s) (limTimers s) v (maxStation s)
    (gLimPreAuthTimerTable s) (gLimSpecMgmt s)
    (gLimTriggerBackgroundScanDuringQuietBss s) (gpLimMlmScanReq s)
    (switchTimeoutValue s) (gLimBackgroundScanDisable s)
    (gLimAddtsRspTimerCount s) (gLimTimersCreated s) (keepAlive s) (cfg s)
    (limMsgQ s) (limMsgQRoom s) (txCreateOk s) (palAllocOk s) (extCalls s)
    (logBuf s).

Definition set_gLimPreAuthTimerTable (v : tLimPreAuthTable) (s : tAniSirGlobal) :=
  mkMac (gLimSystemRole s) (limTimers s) (gpLimCnfWaitTimer s) (maxStation s)
    v (gLimSpecMgmt s)
    (gLimTriggerBackgroundScanDuringQuietBss s) (gpLimMlmScanReq s)
    (switchTimeoutValue s) (gLimBackgroundScanDisable s)
    (gLimAddtsRspTimerCount s) (gLimTimersCreated s) (keepAlive s) (cfg s)
    (limMsgQ s) (limMsgQRoom s) (txCreateOk s) (palAllocOk s) (extCalls s)
    (logBuf s).

Definition set_gLimBackgroundScanDisable (v : bool) (s : tAniSirGlobal) :=
  mkMac (gLimSystemRole s) (limTimers s) (gpLimCnfWaitTimer s) (maxStation s)
    (gLimPreAuthTimerTable s) (gLimSpecMgmt s)
    (gLimTriggerBackgroundScanDuringQuietBss s) (gpLimMlmScanReq s)
    (switchTimeoutValue s) v
    (gLimAddtsRspTimerCount s) (gLimTimersCreated s) (keepAlive s) (cfg s)
    (limMsgQ s) (limMsgQRoom s) (txCreateOk s) (palAllocOk s) (extCalls s)
    (logBuf s).

Definition set_gLimAddtsRspTimerCount (v : Z) (s : tAniSirGlobal) :=
  mkMac (gLimSystemRole s) (limTimers s) (gpLimCnfWaitTimer s) (maxStation s)
    (gLimPreAuthTimerTable s) (gLimSpecMgmt s)
    (gLimTriggerBackgroundScanDuringQuietBss s) (gpLimMlmScanReq s)
    (switchTimeoutValue s) (gLimBackgroundScanDisable s)
    v (gLimTimersCreated s) (keepAlive s) (cfg s)
    (limMsgQ s) (limMsgQRoom s) (txCreateOk s) (palAllocOk s) (extCalls s)
    (logBuf s).

Definition set_gLimTimersCreated (v : Z) (s : tAniSirGlobal) :=
  mkMac (gLimSystemRole s) (limTimers s) (gpLimCnfWaitTimer s) (maxStation s)
    (gLimPreAuthTimerTable s) (gLimSpecMgmt s)
    (gLimTriggerBackgroundScanDuringQuietBss s) (gpLimMlmScanReq s)
    (switchTimeoutValue s) (gLimBackgroundScanDisable s)
    (gLimAddtsRspTimerCount s) v (keepAlive s) (cfg s)
    (limMsgQ s) (limMsgQRoom s) (txCreateOk s) (palAllocOk s) (extCalls s)
    (logBuf s).

Definition set_keepAlive (v : Z) (s : tAniSirGlobal) :=
  mkMac (gLimSystemRole s) (limTimers s) (gpLimCnfWaitTimer s) (maxStation s)
    (gLimPreAuthTimerTable s) (gLimSpecMgmt s)
    (gLimTriggerBackgroundScanDuringQuietBss s) (gpLimMlmScanReq s)
    (switchTimeoutValue s) (gLimBackgroundScanDisable s)
    (gLimAddtsRspTimerCount s) (gLimTimersCreated s) v (cfg s)
    (limMsgQ s) (limMsgQRoom s) (txCreateOk s) (palAllocOk s) (extCalls s)
    (logBuf s).

Definition set_limMsgQ (q : list tSirMsgQ) (room : nat) (s : tAniSirGlobal) :=
  mkMac (gLimSystemRole s) (limTimers s) (gpLimCnfWaitTimer s) (maxStation s)
    (gLimPreAuthTimerTable s) (gLimSpecMgmt s)
    (gLimTriggerBackgroundScanDuringQuietBss s) (gpLimMlmScanReq s)
    (switchTimeoutValue s) (gLimBackgroundScanDisable s)
    (gLimAddtsRspTimerCount s) (gLimTimersCreated s) (keepAlive s) (cfg s)
    q room (txCreateOk s) (palAllocOk s) (extCalls s)
    (logBuf s).

Definition set_extCalls (v : list ExtCall) (s : tAniSirGlobal) :=
  mkMac (gLimSystemRole s) (limTimers s) (gpLimCnfWaitTimer s) (maxStation s)
    (gLimPreAuthTimerTable s) (gLimSpecMgmt s)
    (gLimTriggerBackgroundScanDuringQuietBss s) (gpLimMlmScanReq s)
    (switchTimeoutValue s) (gLimBackgroundScanDisable s)
    (gLimAddtsRspTimerCount s) (gLimTimersCreated s) (keepAlive s) (cfg s)
    (limMsgQ s) (limMsgQRoom s) (txCreateOk s) (palAllocOk s) v
    (logBuf s).

Definition set_logBuf (v : list LogEntry) (s : tAniSirGlobal) :=
  mkMac (gLimSystemRole s) (limTimers s) (gpLimCnfWaitTimer s) (maxStation s)
    (gLimPreAuthTimerTable s) (gLimSpecMgmt s)
    (gLimTriggerBackgroundScanDuringQuietBss s) (gpLimMlmScanReq s)
    (switchTimeoutValue s) (gLimBackgroundScanDisable s)
    (gLimAddtsRspTimerCount s) (gLimTimersCreated s) (keepAlive s) (cfg s)
    (limMsgQ s) (limMsgQRoom s) (txCreateOk s) (palAllocOk s) (extCalls s)
    v.

(** ** Control flow

    A C function body either runs to its end, leaves through [return],
    or runs into undefined behaviour (an access outside an array, a
    null table).  The last has no state to continue from. *)
Inductive Fault :=
  | OutOfBounds (t : TimerRef)
  | NullTable.

Inductive result (A : Type) :=
  | Ok (a : A) (pMac : tAniSirGlobal)
  | Returned (pMac : tAniSirGlobal)
  | Crash (f : Fault).
Arguments Ok {A} a pMac.
Arguments Returned {A} pMac.
Arguments Crash {A} f.

Definition M (A : Type) : Type := tAniSirGlobal -> result A.

Definition ret {A} (a : A) : M A := fun s => Ok a s.

Definition bind {A B} (m : M A) (f : A -> M B) : M B := fun s =>
  match m s with
  | Ok a s' => f a s'
  | Returned s' => Returned s'
  | Crash e => Crash e
  end.

Declare Scope lim_scope.
Delimit Scope lim_scope with lim.
Bind Scope lim_scope with M.
Notation "x ← y ; z" := (bind y (fun x => z))
  (at level 20, y at level 100, z at level 200, only parsing) : lim_scope.
Notation "' x ← y ; z" := (bind y (fun x => z))
  (at level 20, x pattern, y at level 100, z at level 200, only parsing)
  : lim_scope.
Notation "x ;; z" := (bind x (fun _ => z))
  (at level 100, z at level 200, only parsing, right associativity)
  : lim_scope.
Local Open Scope lim_scope.

(** [return;] of a void function. *)
Definition c_return {A} : M A := fun s => Returned s.

(** Calling a void function: its [return] ends the callee only. *)
Definition call (m : M unit) : M unit := fun s =>
  match m s with
  | Ok _ s' => Ok tt s'
  | Returned s' => Ok tt s'
  | Crash e => Crash e
  end.

(** The state a void function leaves behind, if it has one. *)
Definition final {A} (r : result A) : option tAniSirGlobal :=
  match r with
  | Ok _ s => Some s
  | Returned s => Some s
  | Crash _ => None
  end.

Definition gets {A} (f : tAniSirGlobal -> A) : M A := fun s => Ok (f s) s.
Definition modify (f : tAniSirGlobal -> tAniSirGlobal) : M unit :=
  fun s => Ok tt (f s).
Definition when (b : bool) (m : M unit) : M unit := if b then m else ret tt.

Definition record (c : ExtCall) : M unit :=
  modify (fun s => set_extCalls (extCalls s ++ [c]) s).

Definition limLog (lvl : tLogLevel) (fmt : string) : M unit :=
  modify (fun s => set_logBuf (logBuf s ++ [LimLog lvl fmt]) s).

Definition macTrace (code : tTraceCode) (session : Z) (data : tLimTimerId)
  : M unit :=
  modify (fun s => set_logBuf (logBuf s ++ [MacTrace code session data]) s).

(** Reading and writing the timer object a reference designates.  The
    per-station array and the pre-auth table are indexed without a
    check, as the C expressions are. *)
Definition read_timer (t : TimerRef) : M TX_TIMER := fun s =>
  match t with
  | Single f => Ok (limTimers s f) s
  | CnfWait i =>
      match gpLimCnfWaitTimer s !! i with
      | Some x => Ok x s
      | None => Crash (OutOfBounds t)
      end
  | PreAuth i =>
      match pTable (gLimPreAuthTimerTable s) with
      | None => Crash NullTable
      | Some l =>
          match l !! i with
          | Some n => Ok (timer n) s
          | None => Crash (OutOfBounds t)
          end
      end
  end.

Definition write_timer (t : TimerRef) (x : TX_TIMER) : M unit := fun s =>
  match t with
  | Single f => Ok tt (set_limTimers (<[f := x]> (limTimers s)) s)
  | CnfWait i =>
      match gpLimCnfWaitTimer s !! i with
      | Some _ => Ok tt (set_gpLimCnfWaitTimer (<[i := x]> (gpLimCnfWaitTimer s)) s)
      | None => Crash (OutOfBounds t)
      end
  | PreAuth i =>
      match pTable (gLimPreAuthTimerTable s) with
      | None => Crash NullTable
      | Some l =>
          match l !! i with
          | Some n =>
              Ok tt (set_gLimPreAuthTimerTable
                       (mkPreAuthTable (numEntry (gLimPreAuthTimerTable s))
                          (Some (<[i := mkPreAuthNode x (authNodeIdx n) (fFree n)]> l)))
                       s)
          | None => Crash (OutOfBounds t)
          end
      end
  end.

(** ** Constants *)

(** Constants defined at the head of limTimerUtils.c. *)
Definition LIM_BACKGROUND_SCAN_PERIOD_DEFAULT_MS : Z := 5000.
Definition LIM_CHANNEL_SWITCH_TIMER_TICKS : Z := 1.
Definition LIM_QUIET_TIMER_TICKS : Z := 100.
Definition LIM_QUIET_BSS_TIMER_TICK : Z := 100.
Definition LIM_KEEPALIVE_TIMER_MS : Z := 3000.

Definition TX_NO_ACTIVATE : bool := false.
Definition TX_AUTO_ACTIVATE : bool := true.

(** Constants and helpers that limTimerUtils.c takes from headers and
    files outside it: the tick length, the hash-miss period, the timer
    signature, the assoc/reassoc tags, the numbers of the message types
    and the heartbeat packet-count reset.  They are parameters of the
    development. *)
Class Platform := mkPlatform {
  SYS_TICK_DUR_MS : Z;
  LIM_HASH_MISS_TIMER_MS : Z;
  TX_AIRGO_TMR_SIGNATURE : Z;
  LIM_ASSOC : Z;
  LIM_REASSOC : Z;
  sirMsgCode : tSirLimMsg -> Z;
  limResetHBPktCount : tPESession -> tPESession
}.

Section Lim.
Context {platform : Platform}.

(** Modelled from the spec: the macro [SYS_MS_TO_TICKS] of sysDef.h is
    not in this file.  The spec (4.1) converts milliseconds to ticks
    through the system tick duration, rounding down; callers that want a
    ceiling add [SYS_TICK_DUR_MS - 1] first. *)
Definition SYS_MS_TO_TICKS (x : Z) : Z := x / SYS_TICK_DUR_MS.

(** *** The time source

    Modelled from the spec: the tx_timer functions are not in this file.
    Spec 3, 4.2 and 6: a timer is created with a duration, a reload
    interval and an activation policy; deactivating an inactive timer is
    reported as an error; a change is only legal on a deactivated timer
    and is refused otherwise.  The fields are those this file reads
    ([tmrSignature], [initScheduleTimeInMsecs], [sessionId]); schedule
    times are kept in milliseconds, one tick being [SYS_TICK_DUR_MS]. *)
Definition timer_create (cb : tExpiryFunc) (input initial reschedule : Z)
    (auto_activate : bool) (x : TX_TIMER) : TX_TIMER :=
  mkTimer TX_AIRGO_TMR_SIGNATURE (Some cb) input
    (initial * SYS_TICK_DUR_MS) (reschedule * SYS_TICK_DUR_MS)
    (sessionId x) auto_activate.

Definition timer_deactivate (x : TX_TIMER) : TX_TIMER * tTxStatus :=
  if bool_decide (tmrSignature x = TX_AIRGO_TMR_SIGNATURE) then
    if tmrActive x then
      (mkTimer (tmrSignature x) (pExpireFunc x) (expireInput x)
         (initScheduleTimeInMsecs x) (rescheduleTimeInMsecs x)
         (sessionId x) false, TX_SUCCESS)
    else (x, TX_TIMER_ERROR)
  else (x, TX_TIMER_ERROR).

Definition timer_change (initial reschedule : Z) (x : TX_TIMER)
  : TX_TIMER * tTxStatus :=
  if bool_decide (tmrSignature x = TX_AIRGO_TMR_SIGNATURE) then
    if tmrActive x then (x, TX_TIMER_ERROR)
    else
      (mkTimer (tmrSignature x) (pExpireFunc x) (expireInput x)
         (initial * SYS_TICK_DUR_MS) (reschedule * SYS_TICK_DUR_MS)
         (sessionId x) false, TX_SUCCESS)
  else (x, TX_TIMER_ERROR).

Definition timer_activate (x : TX_TIMER) : TX_TIMER * tTxStatus :=
  if bool_decide (tmrSignature x = TX_AIRGO_TMR_SIGNATURE) then
    (mkTimer (tmrSignature x) (pExpireFunc x) (expireInput x)
       (initScheduleTimeInMsecs x) (rescheduleTimeInMsecs x)
       (sessionId x) true, TX_SUCCESS)
  else (x, TX_TIMER_ERROR).

Definition tx_timer_create (t : TimerRef) (name : string) (cb : tExpiryFunc)
    (input initial reschedule : Z) (auto_activate : bool) : M tTxStatus :=
  x ← read_timer t;
  ok ← gets (fun s => txCreateOk s t);
  if ok then
    write_timer t (timer_create cb input initial reschedule auto_activate x);;
    record (TxCreate t name cb input initial reschedule auto_activate TX_SUCCESS);;
    ret TX_SUCCESS
  else
    record (TxCreate t name cb input initial reschedule auto_activate TX_TIMER_ERROR);;
    ret TX_TIMER_ERROR.

Definition tx_timer_deactivate (t : TimerRef) : M tTxStatus :=
  x ← read_timer t;
  write_timer t (timer_deactivate x).1;;
  record (TxDeactivate t (timer_deactivate x).2);;
  ret (timer_deactivate x).2.

Definition tx_timer_change (t : TimerRef) (initial reschedule : Z)
  : M tTxStatus :=
  x ← read_timer t;
  write_timer t (timer_change initial reschedule x).1;;
  record (TxChange t initial reschedule (timer_change initial reschedule x).2);;
  ret (timer_change initial reschedule x).2.

Definition tx_timer_activate (t : TimerRef) : M tTxStatus :=
  x ← read_timer t;
  write_timer t (timer_activate x).1;;
  record (TxActivate t (timer_activate x).2);;
  ret (timer_activate x).2.

(** *** The configuration store

    Modelled from the spec: [wlan_cfgGetInt] is not in this file.  Spec
    6: [get_int(key)] yields the stored 32-bit value or a failure; on
    failure the caller's variable keeps the value it had. *)
Definition wlan_cfgGetInt (k : tCfgKey) (cur : Z) : M (tSirRetStatus * Z) :=
  c ← gets cfg;
  match c k with
  | Some v => record (CfgGetInt k eSIR_SUCCESS);; ret (eSIR_SUCCESS, v)
  | None => record (CfgGetInt k eSIR_FAILURE);; ret (eSIR_FAILURE, cur)
  end.

(** *** The LIM message queue

    Modelled from the spec: [limPostMsgApi] is not in this file.  Spec 6:
    [enqueue(Event)] appends the event to the single ordered queue, or
    fails when the sink is full or unavailable. *)
Definition limPostMsgApi (msg : tSirMsgQ) : M tSirRetStatus :=
  room ← gets limMsgQRoom;
  match room with
  | O => record (PostMsg msg eSIR_FAILURE);; ret eSIR_FAILURE
  | S n =>
      modify (fun s => set_limMsgQ (limMsgQ s ++ [msg]) n s);;
      record (PostMsg msg eSIR_SUCCESS);;
      ret eSIR_SUCCESS
  end.

(** *** The pre-auth timer table

    Modelled from the spec: [palAllocateMemory], [limInitPreAuthTimerTable]
    and [limGetPreAuthNodeFromIndex] are not in this file.  Spec 3 and
    4.2: the AuthResponse pool is a fixed-capacity array of timers, one
    per slot, sized when the timers are created and never resized; a
    lookup is bounds-checked and an index at or past the capacity finds
    no slot. *)
Definition blank_timer : TX_TIMER := mkTimer 0 None 0 0 0 0 false.

Definition palAllocateMemory_pTable (n : Z) : M tHalStatus :=
  ok ← gets palAllocOk;
  if ok then
    modify (fun s => set_gLimPreAuthTimerTable
                       (mkPreAuthTable (numEntry (gLimPreAuthTimerTable s))
                          (Some (replicate (Z.to_nat n)
                                   (mkPreAuthNode blank_timer 0 false)))) s);;
    record (PalAllocate n eHAL_STATUS_SUCCESS);;
    ret eHAL_STATUS_SUCCESS
  else
    record (PalAllocate n eHAL_STATUS_FAILURE);;
    ret eHAL_STATUS_FAILURE.

Fixpoint for_loop (n : nat) (i : nat) (body : nat -> M unit) : M unit :=
  match n with
  | O => ret tt
  | S n' => body i;; for_loop n' (S i) body
  end.

Definition set_node_free (i : nat) : M unit :=
  modify (fun s =>
    match pTable (gLimPreAuthTimerTable s) with
    | Some l =>
        match l !! i with
        | Some n =>
            set_gLimPreAuthTimerTable
              (mkPreAuthTable (numEntry (gLimPreAuthTimerTable s))
                 (Some (<[i := mkPreAuthNode (timer n) (Z.of_nat i) true]> l))) s
        | None => s
        end
    | None => s
    end).

Definition limInitPreAuthTimerTable_node (cfgValue : Z) (i : nat) : M unit :=
  r ← tx_timer_create (PreAuth i) "AUTH RESPONSE TIMEOUT"
        cb_limAuthResponseTimerHandler (Z.of_nat i)
        (SYS_MS_TO_TICKS cfgValue) 0 TX_NO_ACTIVATE;
  when (bool_decide (r ≠ TX_SUCCESS))
    (limLog LOGP "Cannot create Auth Rsp timer\n");;
  set_node_free i.

Definition limInitPreAuthTimerTable : M unit :=
  '(rc, cfgValue) ← wlan_cfgGetInt WNI_CFG_AUTHENTICATE_RSP_TIMEOUT 0;
  if bool_decide (rc ≠ eSIR_SUCCESS) then
    limLog LOGP "could not retrieve AuthRsp timeout value\n";; c_return
  else
  n ← gets (fun s => numEntry (gLimPreAuthTimerTable s));
  for_loop (Z.to_nat n) 0 (limInitPreAuthTimerTable_node cfgValue).

Definition limGetPreAuthNodeFromIndex (tbl : tLimPreAuthTable) (authNodeIdx : Z)
  : option nat :=
  match pTable tbl with
  | None => None
  | Some _ =>
      if bool_decide (numEntry tbl ≤ authNodeIdx) then None
      else Some (Z.to_nat authNodeIdx)
  end.

(** ** limTimerUtils.c *)

(** The recurring pattern
    [if (wlan_cfgGetInt(pMac, k, &v) != eSIR_SUCCESS) limLog(pMac, LOGP, msg);]
    with [cur] the value the variable holds before the call. *)
Definition cfgGetInt_or_log (k : tCfgKey) (cur : Z) (msg : string) : M Z :=
  '(rc, v) ← wlan_cfgGetInt k cur;
  when (bool_decide (rc ≠ eSIR_SUCCESS)) (limLog LOGP msg);;
  ret v.

(** The part of [limCreateTimers] under
    [if (pMac->lim.gLimSystemRole != eLIM_AP_ROLE)]. *)
Definition limCreateTimers_nonAp (cfgValue : Z) : M unit :=
  (* Create Channel Switch Timer *)
  r ← tx_timer_create (Single gLimChannelSwitchTimer) "CHANNEL SWITCH TIMER"
        cb_limChannelSwitchTimerHandler 0 LIM_CHANNEL_SWITCH_TIMER_TICKS 0
        TX_NO_ACTIVATE;
  if bool_decide (r ≠ TX_SUCCESS) then
    limLog LOGP "failed to create Channel Switch timer\n";; c_return
  else
  (* Create Quiet Timer *)
  r ← tx_timer_create (Single gLimQuietTimer) "QUIET TIMER"
        cb_limQuietTimerHandler (sirMsgCode SIR_LIM_QUIET_TIMEOUT)
        LIM_QUIET_TIMER_TICKS 0 TX_NO_ACTIVATE;
  if bool_decide (r ≠ TX_SUCCESS) then
    limLog LOGP "failed to create Quiet Begin Timer\n";; c_return
  else
  (* Create Quiet BSS Timer *)
  r ← tx_timer_create (Single gLimQuietBssTimer) "QUIET BSS TIMER"
        cb_limQuietBssTimerHandler (sirMsgCode SIR_LIM_QUIET_BSS_TIMEOUT)
        LIM_QUIET_BSS_TIMER_TICK 0 TX_NO_ACTIVATE;
  if bool_decide (r ≠ TX_SUCCESS) then
    limLog LOGP "failed to create Quiet Begin Timer\n";; c_return
  else
  cfgValue ← cfgGetInt_or_log WNI_CFG_JOIN_FAILURE_TIMEOUT cfgValue
                "could not retrieve JoinFailureTimeout value\n";
  let cfgValue := SYS_MS_TO_TICKS cfgValue in
  (* Create Join failure timer and activate it later *)
  r ← tx_timer_create (Single gLimJoinFailureTimer) "JOIN FAILURE TIMEOUT"
        cb_limTimerHandler (sirMsgCode SIR_LIM_JOIN_FAIL_TIMEOUT)
        cfgValue 0 TX_NO_ACTIVATE;
  if bool_decide (r ≠ TX_SUCCESS) then
    limLog LOGP "could not create Join failure timer\n";; c_return
  else
  cfgValue ← cfgGetInt_or_log WNI_CFG_ASSOCIATION_FAILURE_TIMEOUT cfgValue
                "could not retrieve AssocFailureTimeout value\n";
  let cfgValue := SYS_MS_TO_TICKS cfgValue in
  (* Create Association failure timer and activate it later *)
  r ← tx_timer_create (Single gLimAssocFailureTimer) "ASSOC FAILURE TIMEOUT"
        cb_limAssocFailureTimerHandler LIM_ASSOC cfgValue 0 TX_NO_ACTIVATE;
  if bool_decide (r ≠ TX_SUCCESS) then
    limLog LOGP "could not create Association failure timer\n";; c_return
  else
  cfgValue ← cfgGetInt_or_log WNI_CFG_REASSOCIATION_FAILURE_TIMEOUT cfgValue
                "could not retrieve ReassocFailureTimeout value\n";
  let cfgValue := SYS_MS_TO_TICKS cfgValue in
  r ← tx_timer_create (Single gLimReassocFailureTimer) "REASSOC FAILURE TIMEOUT"
        cb_limAssocFailureTimerHandler LIM_REASSOC cfgValue 0 TX_NO_ACTIVATE;
  if bool_decide (r ≠ TX_SUCCESS) then
    limLog LOGP "could not create Reassociation failure timer\n";; c_return
  else
  cfgValue ← cfgGetInt_or_log WNI_CFG_ADDTS_RSP_TIMEOUT cfgValue
                "Fail to get WNI_CFG_ADDTS_RSP_TIMEOUT \n";
  let cfgValue := SYS_MS_TO_TICKS cfgValue in
  (* Create Addts response timer and activate it later *)
  r ← tx_timer_create (Single gLimAddtsRspTimer) "ADDTS RSP TIMEOUT"
        cb_limAddtsResponseTimerHandler (sirMsgCode SIR_LIM_ADDTS_RSP_TIMEOUT)
        cfgValue 0 TX_NO_ACTIVATE;
  if bool_decide (r ≠ TX_SUCCESS) then
    limLog LOGP "could not create Addts response timer\n";; c_return
  else
  cfgValue ← cfgGetInt_or_log WNI_CFG_AUTHENTICATE_FAILURE_TIMEOUT cfgValue
                "could not retrieve AuthFailureTimeout value\n";
  let cfgValue := SYS_MS_TO_TICKS cfgValue in
  (* Create Auth failure timer and activate it later *)
  r ← tx_timer_create (Single gLimAuthFailureTimer) "AUTH FAILURE TIMEOUT"
        cb_limTimerHandler (sirMsgCode SIR_LIM_AUTH_FAIL_TIMEOUT)
        cfgValue 0 TX_NO_ACTIVATE;
  if bool_decide (r ≠ TX_SUCCESS) then
    limLog LOGP "could not create Auth failure timer\n";; c_return
  else
  cfgValue ← cfgGetInt_or_log WNI_CFG_BEACON_INTERVAL cfgValue
                "could not retrieve BEACON_INTERVAL value\n";
  let cfgValue := SYS_MS_TO_TICKS cfgValue in
  r ← tx_timer_create (Single gLimHeartBeatTimer) "Heartbeat TIMEOUT"
        cb_limTimerHandler (sirMsgCode SIR_LIM_HEART_BEAT_TIMEOUT)
        cfgValue 0 TX_NO_ACTIVATE;
  when (bool_decide (r ≠ TX_SUCCESS))
    (limLog LOGP "call to create heartbeat timer failed\n");;
  cfgValue ← cfgGetInt_or_log WNI_CFG_PROBE_AFTER_HB_FAIL_TIMEOUT cfgValue
                "could not retrieve PROBE_AFTER_HB_FAIL_TIMEOUT value\n";
  (* Change timer to reactivate it in future *)
  let cfgValue := SYS_MS_TO_TICKS cfgValue in
  r ← tx_timer_create (Single gLimProbeAfterHBTimer)
        "Probe after Heartbeat TIMEOUT"
        cb_limTimerHandler (sirMsgCode SIR_LIM_PROBE_HB_FAILURE_TIMEOUT)
        cfgValue 0 TX_NO_ACTIVATE;
  when (bool_decide (r ≠ TX_SUCCESS))
    (limLog LOGP "unable to create ProbeAfterHBTimer\n");;
  cfgValue ← cfgGetInt_or_log WNI_CFG_BACKGROUND_SCAN_PERIOD cfgValue
                "could not retrieve Background scan period value\n";
  (* setting period to zero means disabling background scans when
     associated: a flag is set and the timer keeps running *)
  cfgValue ←
    (if bool_decide (cfgValue = 0) then
       modify (set_gLimBackgroundScanDisable true);;
       ret LIM_BACKGROUND_SCAN_PERIOD_DEFAULT_MS
     else
       modify (set_gLimBackgroundScanDisable false);;
       ret cfgValue);
  let cfgValue := SYS_MS_TO_TICKS cfgValue in
  r ← tx_timer_create (Single gLimBackgroundScanTimer)
        "Background scan TIMEOUT"
        cb_limTimerHandler (sirMsgCode SIR_LIM_CHANNEL_SCAN_TIMEOUT)
        cfgValue cfgValue TX_NO_ACTIVATE;
  when (bool_decide (r ≠ TX_SUCCESS))
    (limLog LOGP "call to create background scan timer failed\n").

(** The body and the loop that create all CNF_WAIT timers upfront. *)
Definition limCreateTimers_cnfWait_body (cfgValue : Z) (i : nat) : M unit :=
  r ← tx_timer_create (CnfWait i) "CNF_MISS_TIMEOUT"
        cb_limCnfWaitTmerHandler (u32 (Z.of_nat i)) cfgValue 0
        TX_NO_ACTIVATE;
  when (bool_decide (r ≠ TX_SUCCESS))
    (limLog LOGP "Cannot create CNF wait timer.\n").

Definition limCreateTimers_cnfWait (cfgValue : Z) : M unit :=
  n ← gets maxStation;
  for_loop (Z.to_nat n) 0 (limCreateTimers_cnfWait_body cfgValue).

(** The part of [limCreateTimers] that follows the
    [if (pMac->lim.gLimSystemRole != eLIM_AP_ROLE)] block. *)
Definition limCreateTimers_rest : M unit :=
  let cfgValue := SYS_MS_TO_TICKS LIM_HASH_MISS_TIMER_MS in
  r ← tx_timer_create (Single gLimSendDisassocFrameThresholdTimer)
        "Disassoc throttle TIMEOUT"
        cb_limSendDisassocFrameThresholdHandler
        (sirMsgCode SIR_LIM_HASH_MISS_THRES_TIMEOUT)
        cfgValue cfgValue TX_AUTO_ACTIVATE;
  when (bool_decide (r ≠ TX_SUCCESS))
    (limLog LOGP "create Disassociate throttle timer failed\n");;
  limLog LOG1 "Created Disassociate throttle timer \n";;
  (* Create keepalive timer and activate it right away for AP role *)
  cfgValue ← cfgGetInt_or_log WNI_CFG_KEEPALIVE_TIMEOUT cfgValue
                "could not retrieve keepalive timeout value\n";
  (* A value of zero implies keep alive should be disabled *)
  cfgValue ←
    (if bool_decide (cfgValue = 0) then
       modify (set_keepAlive 0);; ret LIM_KEEPALIVE_TIMER_MS
     else
       modify (set_keepAlive 1);; ret cfgValue);
  let cfgValue := SYS_MS_TO_TICKS (u32 (cfgValue + SYS_TICK_DUR_MS - 1)) in
  role ← gets gLimSystemRole;
  r ← tx_timer_create (Single gLimKeepaliveTimer) "KEEPALIVE_TIMEOUT"
        cb_limKeepaliveTmerHandler 0 cfgValue cfgValue
        (if bool_decide (role = eLIM_AP_ROLE)
         then TX_AUTO_ACTIVATE else TX_NO_ACTIVATE);
  when (bool_decide (r ≠ TX_SUCCESS))
    (limLog LOGP "Cannot create keepalive timer.\n");;
  (* Create all CNF_WAIT Timers upfront *)
  cfgValue ← cfgGetInt_or_log WNI_CFG_WT_CNF_TIMEOUT cfgValue
                "could not retrieve CNF timeout value\n";
  let cfgValue := SYS_MS_TO_TICKS cfgValue in
  limCreateTimers_cnfWait cfgValue;;
  (* Alloc and init table for the preAuth timer list *)
  cfgValue ← cfgGetInt_or_log WNI_CFG_MAX_NUM_PRE_AUTH cfgValue
                "could not retrieve mac preauth value\n";
  modify (fun s => set_gLimPreAuthTimerTable
                     (mkPreAuthTable cfgValue
                        (pTable (gLimPreAuthTimerTable s))) s);;
  h ← palAllocateMemory_pTable cfgValue;
  match h with
  | eHAL_STATUS_FAILURE => limLog LOGP "palAllocateMemory failed!\n";; c_return
  | eHAL_STATUS_SUCCESS =>
  call limInitPreAuthTimerTable;;
  limLog LOG1 "alloc and init table for preAuth timers\n";;
  (* Create OLBC cache aging timer *)
  cfgValue ← cfgGetInt_or_log WNI_CFG_OLBC_DETECT_TIMEOUT cfgValue
                "could not retrieve OLBD detect timeout value\n";
  let cfgValue := SYS_MS_TO_TICKS cfgValue in
  r ← tx_timer_create (Single gLimUpdateOlbcCacheTimer)
        "OLBC UPDATE CACHE TIMEOUT"
        cb_limUpdateOlbcCacheTimerHandler
        (sirMsgCode SIR_LIM_UPDATE_OLBC_CACHEL_TIMEOUT)
        cfgValue cfgValue TX_AUTO_ACTIVATE;
  when (bool_decide (r ≠ TX_SUCCESS))
    (limLog LOGP "Cannot create update OLBC cache timer\n");;
  let cfgValue := SYS_MS_TO_TICKS 1000 in
  r ← tx_timer_create (Single gLimFTPreAuthRspTimer) "FT PREAUTH RSP TIMEOUT"
        cb_limTimerHandler (sirMsgCode SIR_LIM_FT_PREAUTH_RSP_TIMEOUT)
        cfgValue 0 TX_NO_ACTIVATE;
  if bool_decide (r ≠ TX_SUCCESS) then
    limLog LOGP "could not create Join failure timer\n";; c_return
  else
  let cfgValue := SYS_MS_TO_TICKS 1000 in
  r ← tx_timer_create (Single gLimRemainOnChannelTimer) "FT PREAUTH RSP TIMEOUT"
        cb_limTimerHandler (sirMsgCode SIR_LIM_REMAIN_CHN_TIMEOUT)
        cfgValue 0 TX_NO_ACTIVATE;
  if bool_decide (r ≠ TX_SUCCESS) then
    limLog LOGP "could not create Join failure timer\n";; c_return
  else
  modify (set_gLimTimersCreated 1)
  end.

(** [limCreateTimers].  [cfgValue0] is what the uninitialised local
    [cfgValue] holds on entry. *)
Definition limCreateTimers (cfgValue0 : Z) : M unit :=
  limLog LOG1 "Creating Timers used by LIM module in Role %d\n";;
  cfgValue ← cfgGetInt_or_log WNI_CFG_ACTIVE_MINIMUM_CHANNEL_TIME cfgValue0
                "could not retrieve MinChannelTimeout value\n";
  let cfgValue := SYS_MS_TO_TICKS cfgValue in
  (* Create MIN/MAX channel timers and activate them later *)
  r ← tx_timer_create (Single gLimMinChannelTimer) "MIN CHANNEL TIMEOUT"
        cb_limTimerHandler (sirMsgCode SIR_LIM_MIN_CHANNEL_TIMEOUT)
        cfgValue 0 TX_NO_ACTIVATE;
  if bool_decide (r ≠ TX_SUCCESS) then
    limLog LOGP "could not create MIN channel timer\n";; c_return
  else
  limLog LOG2 "Created MinChannelTimer\n";;
  cfgValue ← cfgGetInt_or_log WNI_CFG_ACTIVE_MAXIMUM_CHANNEL_TIME cfgValue
                "could not retrieve MAXChannelTimeout value\n";
  let cfgValue := SYS_MS_TO_TICKS cfgValue in
  r ← tx_timer_create (Single gLimMaxChannelTimer) "MAX CHANNEL TIMEOUT"
        cb_limTimerHandler (sirMsgCode SIR_LIM_MAX_CHANNEL_TIMEOUT)
        cfgValue 0 TX_NO_ACTIVATE;
  if bool_decide (r ≠ TX_SUCCESS) then
    limLog LOGP "could not create MAX channel timer\n";; c_return
  else
  limLog LOG2 "Created MaxChannelTimer\n";;
  role ← gets gLimSystemRole;
  (if bool_decide (role ≠ eLIM_AP_ROLE) then limCreateTimers_nonAp cfgValue
   else ret tt);;
  limCreateTimers_rest.

(** *** Expiry handlers *)

Definition limTimerHandler (param : Z) : M unit :=
  (* Prepare and post message to LIM Message Queue *)
  let msg := mkMsg (u16 param) None 0 in
  statusCode ← limPostMsgApi msg;
  when (bool_decide (statusCode ≠ eSIR_SUCCESS))
    (limLog LOGE "posting message %X to LIM failed, reason=%d\n").

Definition limAddtsResponseTimerHandler (param : Z) : M unit :=
  let msg := mkMsg (sirMsgCode SIR_LIM_ADDTS_RSP_TIMEOUT) None param in
  _ ← limPostMsgApi msg; ret tt.

Definition limAuthResponseTimerHandler (param : Z) : M unit :=
  let msg := mkMsg (sirMsgCode SIR_LIM_AUTH_RSP_TIMEOUT) None param in
  _ ← limPostMsgApi msg; ret tt.

Definition limAssocFailureTimerHandler (param : Z) : M unit :=
  let msg := mkMsg (sirMsgCode SIR_LIM_ASSOC_FAIL_TIMEOUT) None param in
  _ ← limPostMsgApi msg; ret tt.

Definition limUpdateOlbcCacheTimerHandler (param : Z) : M unit :=
  let msg := mkMsg (sirMsgCode SIR_LIM_UPDATE_OLBC_CACHEL_TIMEOUT) None 0 in
  _ ← limPostMsgApi msg; ret tt.

Definition limSendDisassocFrameThresholdHandler (param : Z) : M unit :=
  let msg := mkMsg (sirMsgCode SIR_LIM_HASH_MISS_THRES_TIMEOUT) None 0 in
  statusCode ← limPostMsgApi msg;
  when (bool_decide (statusCode ≠ eSIR_SUCCESS))
    (limLog LOGE "posting to LIM failed, reason=%d\n").

Definition limCnfWaitTmerHandler (param : Z) : M unit :=
  let msg := mkMsg (sirMsgCode SIR_LIM_CNF_WAIT_TIMEOUT) None param in
  statusCode ← limPostMsgApi msg;
  when (bool_decide (statusCode ≠ eSIR_SUCCESS))
    (limLog LOGE "posting to LIM failed, reason=%d\n").

Definition limKeepaliveTmerHandler (param : Z) : M unit :=
  let msg := mkMsg (sirMsgCode SIR_LIM_KEEPALIVE_TIMEOUT) None param in
  statusCode ← limPostMsgApi msg;
  when (bool_decide (statusCode ≠ eSIR_SUCCESS))
    (limLog LOGE "posting to LIM failed, reason=%d\n").

Definition limChannelSwitchTimerHandler (param : Z) : M unit :=
  limLog LOG1 "ChannelSwitch Timer expired.  Posting msg to LIM \n";;
  let msg := mkMsg (sirMsgCode SIR_LIM_CHANNEL_SWITCH_TIMEOUT) None param in
  _ ← limPostMsgApi msg; ret tt.

Definition limQuietTimerHandler (param : Z) : M unit :=
  let msg := mkMsg (sirMsgCode SIR_LIM_QUIET_TIMEOUT) None param in
  limLog LOG1 "Post SIR_LIM_QUIET_TIMEOUT msg. \n";;
  _ ← limPostMsgApi msg; ret tt.

Definition limQuietBssTimerHandler (param : Z) : M unit :=
  let msg := mkMsg (sirMsgCode SIR_LIM_QUIET_BSS_TIMEOUT) None param in
  limLog LOG1 "Post SIR_LIM_QUIET_BSS_TIMEOUT msg. \n";;
  _ ← limPostMsgApi msg; ret tt.

(** The callback a timer was created with, as a function. *)
Definition expiry_handler (cb : tExpiryFunc) : Z -> M unit :=
  match cb with
  | cb_limTimerHandler => limTimerHandler
  | cb_limAddtsResponseTimerHandler => limAddtsResponseTimerHandler
  | cb_limAuthResponseTimerHandler => limAuthResponseTimerHandler
  | cb_limAssocFailureTimerHandler => limAssocFailureTimerHandler
  | cb_limUpdateOlbcCacheTimerHandler => limUpdateOlbcCacheTimerHandler
  | cb_limSendDisassocFrameThresholdHandler =>
      limSendDisassocFrameThresholdHandler
  | cb_limCnfWaitTmerHandler => limCnfWaitTmerHandler
  | cb_limKeepaliveTmerHandler => limKeepaliveTmerHandler
  | cb_limChannelSwitchTimerHandler => limChannelSwitchTimerHandler
  | cb_limQuietTimerHandler => limQuietTimerHandler
  | cb_limQuietBssTimerHandler => limQuietBssTimerHandler
  end.

(** *** Deactivate and change *)

(** The recurring pair: deactivate a timer, logging a failure at [LOGP]. *)
Definition deactivate_or_log (t : TimerRef) (msg : string) : M unit :=
  r ← tx_timer_deactivate t;
  when (bool_decide (r ≠ TX_SUCCESS)) (limLog LOGP msg).

(** The recurring pair: change a timer, logging a failure at [LOGP]. *)
Definition change_or_log (t : TimerRef) (initial reschedule : Z)
    (msg : string) : M unit :=
  r ← tx_timer_change t initial reschedule;
  when (bool_decide (r ≠ TX_SUCCESS)) (limLog LOGP msg).

Definition limDeactivateAndChangeTimer (timerId : tLimTimerId) : M unit :=
  let val := 0 in
  let val1 := 0 in
  macTrace TRACE_CODE_TIMER_DEACTIVATE 0 timerId;;
  match timerId with
  | eLIM_ADDTS_RSP_TIMER =>
      modify (fun s =>
        set_gLimAddtsRspTimerCount (u32 (gLimAddtsRspTimerCount s + 1)) s);;
      deactivate_or_log (Single gLimAddtsRspTimer)
        "Unable to deactivate AddtsRsp timer\n"

  | eLIM_MIN_CHANNEL_TIMER =>
      deactivate_or_log (Single gLimMinChannelTimer)
        "Unable to deactivate min channel timer\n";;
      (* If a background was triggered via Quiet BSS, the MIN and MAX
         channel timers follow the Quiet duration that was specified *)
      s ← gets id;
      val ←
        (if bool_decide (eLIM_QUIET_RUNNING = quietState (gLimSpecMgmt s))
            && gLimTriggerBackgroundScanDuringQuietBss s
         then
           (* already cached in units of system ticks *)
           ret (Some (quietDuration (gLimSpecMgmt s)))
         else
           match gpLimMlmScanReq s with
           | Some req => ret (Some (SYS_MS_TO_TICKS (minChannelTime req)))
           | None =>
               limLog LOGE " gpLimMlmScanReq is NULL ";;
               (* No need to change min timer. This is not a scan *)
               ret None
           end);
      match val with
      | None => ret tt (* break *)
      | Some val =>
          change_or_log (Single gLimMinChannelTimer) val 0
            "Unable to change min channel timer\n"
      end

  | eLIM_MAX_CHANNEL_TIMER =>
      deactivate_or_log (Single gLimMaxChannelTimer)
        "Unable to deactivate max channel timer\n";;
      s ← gets id;
      val ←
        (if bool_decide (gLimSystemRole s ≠ eLIM_AP_ROLE) then
           if bool_decide (eLIM_QUIET_RUNNING = quietState (gLimSpecMgmt s))
              && gLimTriggerBackgroundScanDuringQuietBss s
           then
             ret (Some (quietDuration (gLimSpecMgmt s)))
           else
             match gpLimMlmScanReq s with
             | Some req => ret (Some (SYS_MS_TO_TICKS (maxChannelTime req)))
             | None =>
                 limLog LOGE " gpLimMlmScanReq is NULL ";;
                 (* No need to change max timer. This is not a scan *)
                 ret None
             end
         else ret (Some val));
      match val with
      | None => ret tt (* break *)
      | Some val =>
          change_or_log (Single gLimMaxChannelTimer) val 0
            "Unable to change max channel timer\n"
      end

  | eLIM_JOIN_FAIL_TIMER =>
      deactivate_or_log (Single gLimJoinFailureTimer)
        "Unable to deactivate Join Failure timer\n";;
      val ← cfgGetInt_or_log WNI_CFG_JOIN_FAILURE_TIMEOUT val
               "could not retrieve JoinFailureTimeout value\n";
      let val := SYS_MS_TO_TICKS val in
      change_or_log (Single gLimJoinFailureTimer) val 0
        "Unable to change Join Failure timer\n"

  | eLIM_AUTH_FAIL_TIMER =>
      deactivate_or_log (Single gLimAuthFailureTimer)
        "Unable to deactivate auth failure timer\n";;
      (* Change timer to reactivate it in future *)
      val ← cfgGetInt_or_log WNI_CFG_AUTHENTICATE_FAILURE_TIMEOUT val
               "could not retrieve AuthFailureTimeout value\n";
      let val := SYS_MS_TO_TICKS val in
      change_or_log (Single gLimAuthFailureTimer) val 0
        "unable to change Auth failure timer\n"

  | eLIM_ASSOC_FAIL_TIMER =>
      deactivate_or_log (Single gLimAssocFailureTimer)
        "unable to deactivate Association failure timer\n";;
      val ← cfgGetInt_or_log WNI_CFG_ASSOCIATION_FAILURE_TIMEOUT val
               "could not retrieve AssocFailureTimeout value\n";
      let val := SYS_MS_TO_TICKS val in
      change_or_log (Single gLimAssocFailureTimer) val 0
        "unable to change Assoc failure timer\n"

  | eLIM_REASSOC_FAIL_TIMER =>
      deactivate_or_log (Single gLimReassocFailureTimer)
        "unable to deactivate Reassoc failure timer\n";;
      val ← cfgGetInt_or_log WNI_CFG_REASSOCIATION_FAILURE_TIMEOUT val
               "could not retrieve ReassocFailureTimeout value\n";
      let val := SYS_MS_TO_TICKS val in
      change_or_log (Single gLimReassocFailureTimer) val 0
        "unable to change Reassociation failure timer\n"

  | eLIM_HEART_BEAT_TIMER =>
      deactivate_or_log (Single gLimHeartBeatTimer)
        "unable to deactivate Heartbeat timer\n";;
      val ← cfgGetInt_or_log WNI_CFG_BEACON_INTERVAL val
               "could not retrieve BEACON_INTERVAL value\n";
      val1 ← cfgGetInt_or_log WNI_CFG_HEART_BEAT_THRESHOLD val1
                "could not retrieve heartbeat failure value\n";
      (* Change timer to reactivate it in future *)
      let val := SYS_MS_TO_TICKS (u32 (val * val1)) in
      change_or_log (Single gLimHeartBeatTimer) val 0
        "unable to change HeartBeat timer\n"

  | eLIM_PROBE_AFTER_HB_TIMER =>
      deactivate_or_log (Single gLimProbeAfterHBTimer)
        "unable to deactivate probeAfterHBTimer\n";;
      val ← cfgGetInt_or_log WNI_CFG_PROBE_AFTER_HB_FAIL_TIMEOUT val
               "could not retrieve PROBE_AFTER_HB_FAIL_TIMEOUT value\n";
      let val := SYS_MS_TO_TICKS val in
      change_or_log (Single gLimProbeAfterHBTimer) val 0
        "unable to change ProbeAfterHBTimer\n"

  | eLIM_KEEPALIVE_TIMER =>
      deactivate_or_log (Single gLimKeepaliveTimer)
        "unable to deactivate KeepaliveTimer timer\n";;
      (* Change timer to reactivate it in future *)
      val ← cfgGetInt_or_log WNI_CFG_KEEPALIVE_TIMEOUT val
               "could not retrieve keepalive timeout value\n";
      val ←
        (if bool_decide (val = 0) then
           modify (set_keepAlive 0);; ret 3000
         else
           modify (set_keepAlive 1);; ret val);
      let val := SYS_MS_TO_TICKS (u32 (val + SYS_TICK_DUR_MS - 1)) in
      change_or_log (Single gLimKeepaliveTimer) val val
        "unable to change KeepaliveTimer timer\n"

  | eLIM_BACKGROUND_SCAN_TIMER =>
      deactivate_or_log (Single gLimBackgroundScanTimer)
        "unable to deactivate BackgroundScanTimer timer\n";;
      (* Change timer to reactivate it in future *)
      val ← cfgGetInt_or_log WNI_CFG_BACKGROUND_SCAN_PERIOD val
               "could not retrieve Background scan period value\n";
      val ←
        (if bool_decide (val = 0) then
           modify (set_gLimBackgroundScanDisable true);;
           ret LIM_BACKGROUND_SCAN_PERIOD_DEFAULT_MS
         else
           modify (set_gLimBackgroundScanDisable false);;
           ret val);
      let val := SYS_MS_TO_TICKS val in
      change_or_log (Single gLimBackgroundScanTimer) val val
        "unable to change BackgroundScanTimer timer\n"

  | eLIM_CHANNEL_SWITCH_TIMER =>
      r ← tx_timer_deactivate (Single gLimChannelSwitchTimer);
      if bool_decide (r ≠ TX_SUCCESS) then
        limLog LOGP "tx_timer_deactivate failed!\n";; c_return
      else
      sw ← gets switchTimeoutValue;
      r ← tx_timer_change (Single gLimChannelSwitchTimer) sw 0;
      if bool_decide (r ≠ TX_SUCCESS) then
        limLog LOGP "tx_timer_change failed \n";; c_return
      else ret tt

  | eLIM_LEARN_DURATION_TIMER => ret tt

  | eLIM_QUIET_BSS_TIMER =>
      r ← tx_timer_deactivate (Single gLimQuietBssTimer);
      when (bool_decide (TX_SUCCESS ≠ r))
        (limLog LOGE
           "Unable to de-activate gLimQuietBssTimer! Will attempt to activate anyway...\n");;
      (* gLimQuietDuration appears to be in units of ticks. Use it as is *)
      qd ← gets (fun s => quietDuration (gLimSpecMgmt s));
      r ← tx_timer_change (Single gLimQuietBssTimer) qd 0;
      when (bool_decide (TX_SUCCESS ≠ r))
        (limLog LOGE
           "Unable to change gLimQuietBssTimer! Will still attempt to activate anyway...\n")

  | eLIM_QUIET_TIMER =>
      r ← tx_timer_deactivate (Single gLimQuietTimer);
      when (bool_decide (TX_SUCCESS ≠ r))
        (limLog LOGE
           "Unable to deactivate gLimQuietTimer! Will still attempt to re-activate anyway...\n");;
      (* Set the NEW timeout value, in ticks *)
      qt ← gets (fun s => quietTimeoutValue (gLimSpecMgmt s));
      r ← tx_timer_change (Single gLimQuietTimer) (SYS_MS_TO_TICKS qt) 0;
      when (bool_decide (TX_SUCCESS ≠ r))
        (limLog LOGE
           "Unable to change gLimQuietTimer! Will still attempt to re-activate anyway...\n")

  | eLIM_FT_PREAUTH_RSP_TIMER =>
      deactivate_or_log (Single gLimFTPreAuthRspTimer)
        "Unable to deactivate Preauth response Failure timer\n";;
      let val := SYS_MS_TO_TICKS 1000 in
      change_or_log (Single gLimFTPreAuthRspTimer) val 0
        "Unable to change Join Failure timer\n"

  | eLIM_REMAIN_CHN_TIMER =>
      deactivate_or_log (Single gLimRemainOnChannelTimer)
        "Unable to deactivate Remain on Chn timer\n";;
      let val := SYS_MS_TO_TICKS 1000 in
      change_or_log (Single gLimRemainOnChannelTimer) val 0
        "Unable to change timer\n"

  | _ => ret tt (* Invalid timerId *)
  end.

(** [limHeartBeatDeactivateAndChangeTimer].  [val1_0] is what the
    uninitialised local [val1] holds on entry. *)
Definition limHeartBeatDeactivateAndChangeTimer (psessionEntry : tPESession)
    (val1_0 : Z) : M unit :=
  macTrace TRACE_CODE_TIMER_DEACTIVATE 0 eLIM_HEART_BEAT_TIMER;;
  deactivate_or_log (Single gLimHeartBeatTimer)
    "Fail to deactivate HeartBeatTimer \n";;
  let val := beaconInterval psessionEntry in
  limLog LOGW "session beaconInterval = %d\n";;
  val1 ← cfgGetInt_or_log WNI_CFG_HEART_BEAT_THRESHOLD val1_0
            "Fail to get WNI_CFG_HEART_BEAT_THRESHOLD \n";
  (* Change timer to reactivate it in future *)
  let val := SYS_MS_TO_TICKS (u32 (val * val1)) in
  change_or_log (Single gLimHeartBeatTimer) val 0
    "Fail to change HeartBeatTimer\n".

(** [limReactivateHeartBeatTimer]; the session it may have reset is
    the result. *)
Definition limReactivateHeartBeatTimer (psessionEntry : tPESession)
    (val1_0 : Z) : M tPESession :=
  limLog LOG3 "Rxed Heartbeat. Count=%d\n";;
  call (limHeartBeatDeactivateAndChangeTimer psessionEntry val1_0);;
  macTrace TRACE_CODE_TIMER_ACTIVATE 0 eLIM_HEART_BEAT_TIMER;;
  (* only start the hearbeat-timer if the timeout value is non-zero *)
  hb ← gets (fun s => limTimers s gLimHeartBeatTimer);
  if bool_decide (initScheduleTimeInMsecs hb > 0) then
    r ← tx_timer_activate (Single gLimHeartBeatTimer);
    when (bool_decide (r ≠ TX_SUCCESS))
      (limLog LOGP "could not activate Heartbeat timer\n");;
    ret (limResetHBPktCount psessionEntry)
  else ret psessionEntry.

Definition limActivateHearBeatTimer : M tTxStatus :=
  let status := TX_TIMER_ERROR in
  hb ← gets (fun s => limTimers s gLimHeartBeatTimer);
  if bool_decide (TX_AIRGO_TMR_SIGNATURE = tmrSignature hb) then
    (* consider 0 interval a ok case *)
    if bool_decide (initScheduleTimeInMsecs hb ≠ 0) then
      status ← tx_timer_activate (Single gLimHeartBeatTimer);
      when (bool_decide (TX_SUCCESS ≠ status))
        (limLog LOGE "could not activate Heartbeat timer status(%d)\n");;
      ret status
    else ret TX_SUCCESS
  else ret status.

(** [limDeactivateAndChangePerStaIdTimer].  [staId] is a [tANI_U16];
    [val0] is what the uninitialised local [val] holds on entry. *)
Definition limDeactivateAndChangePerStaIdTimer (timerId : tLimTimerId)
    (staId : Z) (val0 : Z) : M unit :=
  macTrace TRACE_CODE_TIMER_DEACTIVATE 0 timerId;;
  match timerId with
  | eLIM_CNF_WAIT_TIMER =>
      deactivate_or_log (CnfWait (Z.to_nat staId))
        "unable to deactivate CNF wait timer\n";;
      (* Change timer to reactivate it in future *)
      val ← cfgGetInt_or_log WNI_CFG_WT_CNF_TIMEOUT val0
               "could not retrieve cnf timeout value\n";
      let val := SYS_MS_TO_TICKS val in
      change_or_log (CnfWait (Z.to_nat staId)) val val
        "unable to change cnf wait timer\n"

  | eLIM_AUTH_RSP_TIMER =>
      tbl ← gets gLimPreAuthTimerTable;
      match limGetPreAuthNodeFromIndex tbl staId with
      | None => limLog LOGP "Invalid Pre Auth Index passed :%d\n" (* break *)
      | Some pAuthNode =>
          deactivate_or_log (PreAuth pAuthNode)
            "unable to deactivate auth response timer\n";;
          (* Change timer to reactivate it in future *)
          val ← cfgGetInt_or_log WNI_CFG_AUTHENTICATE_RSP_TIMEOUT val0
                   "could not retrieve auth response timeout value\n";
          let val := SYS_MS_TO_TICKS val in
          change_or_log (PreAuth pAuthNode) val 0
            "unable to change auth rsp timer\n"
      end

  | _ => ret tt (* Invalid timerId *)
  end.

Definition limActivateCnfTimer (staId : Z) (psessionEntry : tPESession)
  : M unit :=
  macTrace TRACE_CODE_TIMER_ACTIVATE 0 eLIM_CNF_WAIT_TIMER;;
  x ← read_timer (CnfWait (Z.to_nat staId));
  write_timer (CnfWait (Z.to_nat staId))
    (mkTimer (tmrSignature x) (pExpireFunc x) (expireInput x)
       (initScheduleTimeInMsecs x) (rescheduleTimeInMsecs x)
       (peSessionId psessionEntry) (tmrActive x));;
  r ← tx_timer_activate (CnfWait (Z.to_nat staId));
  when (bool_decide (r ≠ TX_SUCCESS))
    (limLog LOGP "could not activate cnf wait timer\n").

(** ** Observations on a run *)

(** The calls logged between two states of one run. *)
Definition calls_between (s s' : tAniSirGlobal) : list ExtCall :=
  drop (length (extCalls s)) (extCalls s').

(** The collaborator calls a run added to the call log. *)
Definition calls_made {A} (m : M A) (s : tAniSirGlobal) : list ExtCall :=
  match final (m s) with
  | Some s' => calls_between s s'
  | None => []
  end.

(** The log entries a run added. *)
Definition entries_logged {A} (m : M A) (s : tAniSirGlobal) : list LogEntry :=
  match final (m s) with
  | Some s' => drop (length (logBuf s)) (logBuf s')
  | None => []
  end.

(** The [(timer, initial, reschedule)] arguments of the [tx_timer_change]
    calls in a call list, oldest first. *)
Fixpoint tx_changes (l : list ExtCall) : list (TimerRef * Z * Z) :=
  match l with
  | [] => []
  | TxChange t i r _ :: l' => (t, i, r) :: tx_changes l'
  | _ :: l' => tx_changes l'
  end.

(** The arguments of the [tx_timer_create] calls in a call list. *)
Fixpoint tx_creates (l : list ExtCall)
  : list (TimerRef * Z * Z * bool * tTxStatus) :=
  match l with
  | [] => []
  | TxCreate t _ _ _ i r a st :: l' => (t, i, r, a, st) :: tx_creates l'
  | _ :: l' => tx_creates l'
  end.

(** The timers a call list activates. *)
Fixpoint tx_activations (l : list ExtCall) : list TimerRef :=
  match l with
  | [] => []
  | TxActivate t _ :: l' => t :: tx_activations l'
  | _ :: l' => tx_activations l'
  end.

(** The singleton timers a call list creates (or tries to), in order. *)
Definition created_single (c : ExtCall) : option tLimTimerField :=
  match c with
  | TxCreate (Single f) _ _ _ _ _ _ _ => Some f
  | _ => None
  end.

Definition created_singles (l : list ExtCall) : list tLimTimerField :=
  omap created_single l.

(** The [(initial, reschedule)] arguments a call list creates the
    keep-alive timer with. *)
Definition keepalive_create (c : ExtCall) : option (Z * Z) :=
  match c with
  | TxCreate (Single gLimKeepaliveTimer) _ _ _ i r _ _ => Some (i, r)
  | _ => None
  end.

Definition keepalive_creates (l : list ExtCall) : list (Z * Z) :=
  omap keepalive_create l.

(** The [(initial, reschedule)] arguments a call list creates the
    background scan timer with. *)
Definition bgscan_create (c : ExtCall) : option (Z * Z) :=
  match c with
  | TxCreate (Single gLimBackgroundScanTimer) _ _ _ i r _ _ => Some (i, r)
  | _ => None
  end.

Definition bgscan_creates (l : list ExtCall) : list (Z * Z) :=
  omap bgscan_create l.

(** Calls made on behalf of the two pools: creation of a pool timer and
    the lookup of the auth-response timeout. *)
Definition is_pool_call (c : ExtCall) : bool :=
  match c with
  | TxCreate (CnfWait _) _ _ _ _ _ _ _ => true
  | TxCreate (PreAuth _) _ _ _ _ _ _ _ => true
  | CfgGetInt WNI_CFG_AUTHENTICATE_RSP_TIMEOUT _ => true
  | _ => false
  end.

Definition is_tx_call (c : ExtCall) : bool :=
  match c with
  | TxCreate _ _ _ _ _ _ _ _ | TxDeactivate _ _ | TxChange _ _ _ _
  | TxActivate _ _ => true
  | _ => false
  end.

Definition is_cfg_call (c : ExtCall) : bool :=
  match c with CfgGetInt _ _ => true | _ => false end.

Definition is_post (c : ExtCall) : bool :=
  match c with PostMsg _ _ => true | _ => false end.

End Lim.

(** ** A concrete platform and concrete states, for examples *)

Definition sample_msg_code (m : tSirLimMsg) : Z :=
  match m with
  | SIR_LIM_MIN_CHANNEL_TIMEOUT => 5121
  | SIR_LIM_MAX_CHANNEL_TIMEOUT => 5122
  | SIR_LIM_QUIET_TIMEOUT => 5123
  | SIR_LIM_QUIET_BSS_TIMEOUT => 5124
  | SIR_LIM_JOIN_FAIL_TIMEOUT => 5125
  | SIR_LIM_ASSOC_FAIL_TIMEOUT => 5126
  | SIR_LIM_ADDTS_RSP_TIMEOUT => 5127
  | SIR_LIM_AUTH_FAIL_TIMEOUT => 5128
  | SIR_LIM_AUTH_RSP_TIMEOUT => 5129
  | SIR_LIM_HEART_BEAT_TIMEOUT => 5130
  | SIR_LIM_PROBE_HB_FAILURE_TIMEOUT => 5131
  | SIR_LIM_CHANNEL_SCAN_TIMEOUT => 5132
  | SIR_LIM_HASH_MISS_THRES_TIMEOUT => 5133
  | SIR_LIM_KEEPALIVE_TIMEOUT => 5134
  | SIR_LIM_CNF_WAIT_TIMEOUT => 5135
  | SIR_LIM_CHANNEL_SWITCH_TIMEOUT => 5136
  | SIR_LIM_UPDATE_OLBC_CACHEL_TIMEOUT => 5137
  | SIR_LIM_FT_PREAUTH_RSP_TIMEOUT => 5138
  | SIR_LIM_REMAIN_CHN_TIMEOUT => 5139
  end.

(** A platform with the 10 ms tick of the spec's scenario (section 8). *)
Definition sample_platform : Platform :=
  mkPlatform 10 10000 3735928559 0 1 sample_msg_code
    (fun p => mkSession (peSessionId p) (beaconInterval p) 0).

(** A created, inactive timer of [sample_platform] scheduled for 500 ms. *)
Definition sample_timer : TX_TIMER :=
  mkTimer 3735928559 (Some cb_limTimerHandler) 0 500 0 0 false.

(** A station with all singleton timers created and inactive, a
    four-slot CNF_WAIT array, a four-entry pre-auth table, no scan
    request, no quiet period, and room for eight messages. *)
Definition sample_mac : tAniSirGlobal :=
  mkMac eLIM_STA_ROLE (fun _ => sample_timer)
    (replicate 4 sample_timer) 4
    (mkPreAuthTable 4 (Some (replicate 4 (mkPreAuthNode sample_timer 0 true))))
    (mkSpecMgmt eLIM_QUIET_INIT 0 0) false None 0 false 0 0 0
    (fun _ => None) [] 8 (fun _ => true) true [] [].

Definition with_role (r : tLimSystemRole) (s : tAniSirGlobal) :=
  mkMac r (limTimers s) (gpLimCnfWaitTimer s) (maxStation s)
    (gLimPreAuthTimerTable s) (gLimSpecMgmt s)
    (gLimTriggerBackgroundScanDuringQuietBss s) (gpLimMlmScanReq s)
    (switchTimeoutValue s) (gLimBackgroundScanDisable s)
    (gLimAddtsRspTimerCount s) (gLimTimersCreated s) (keepAlive s) (cfg s)
    (limMsgQ s) (limMsgQRoom s) (txCreateOk s) (palAllocOk s) (extCalls s)
    (logBuf s).

Definition with_quiet (q : tLimSpecMgmtInfo) (bgScan : bool)
    (s : tAniSirGlobal) :=
  mkMac (gLimSystemRole s) (limTimers s) (gpLimCnfWaitTimer s) (maxStation s)
    (gLimPreAuthTimerTable s) q bgScan (gpLimMlmScanReq s)
    (switchTimeoutValue s) (gLimBackgroundScanDisable s)
    (gLimAddtsRspTimerCount s) (gLimTimersCreated s) (keepAlive s) (cfg s)
    (limMsgQ s) (limMsgQRoom s) (txCreateOk s) (palAllocOk s) (extCalls s)
    (logBuf s).

Definition with_scanReq (r : option tLimMlmScanReq) (s : tAniSirGlobal) :=
  mkMac (gLimSystemRole s) (limTimers s) (gpLimCnfWaitTimer s) (maxStation s)
    (gLimPreAuthTimerTable s) (gLimSpecMgmt s)
    (gLimTriggerBackgroundScanDuringQuietBss s) r
    (switchTimeoutValue s) (gLimBackgroundScanDisable s)
    (gLimAddtsRspTimerCount s) (gLimTimersCreated s) (keepAlive s) (cfg s)
    (limMsgQ s) (limMsgQRoom s) (txCreateOk s) (palAllocOk s) (extCalls s)
    (logBuf s).

Definition with_cfg (c : tCfgKey -> option Z) (s : tAniSirGlobal) :=
  mkMac (gLimSystemRole s) (limTimers s) (gpLimCnfWaitTimer s) (maxStation s)
    (gLimPreAuthTimerTable s) (gLimSpecMgmt s)
    (gLimTriggerBackgroundScanDuringQuietBss s) (gpLimMlmScanReq s)
    (switchTimeoutValue s) (gLimBackgroundScanDisable s)
    (gLimAddtsRspTimerCount s) (gLimTimersCreated s) (keepAlive s) c
    (limMsgQ s) (limMsgQRoom s) (txCreateOk s) (palAllocOk s) (extCalls s)
    (logBuf s).

Definition with_oracles (room : nat) (createOk : TimerRef -> bool)
    (allocOk : bool) (s : tAniSirGlobal) :=
  mkMac (gLimSystemRole s) (limTimers s) (gpLimCnfWaitTimer s) (maxStation s)
    (gLimPreAuthTimerTable s) (gLimSpecMgmt s)
    (gLimTriggerBackgroundScanDuringQuietBss s) (gpLimMlmScanReq s)
    (switchTimeoutValue s) (gLimBackgroundScanDisable s)
    (gLimAddtsRspTimerCount s) (gLimTimersCreated s) (keepAlive s) (cfg s)
    (limMsgQ s) room createOk allocOk (extCalls s)
    (logBuf s).

(** A configuration store holding the given keys. *)
Fixpoint cfg_of (l : list (tCfgKey * Z)) (k : tCfgKey) : option Z :=
  match l with
  | [] => None
  | (k', v) :: l' => if bool_decide (k = k') then Some v else cfg_of l' k
  end.

(** * Properties *)

Section Runs.
Context {platform : Platform}.

(** ** Equations for the recurring steps *)

Definition cfg_status (o : option Z) : tSirRetStatus :=
  match o with Some _ => eSIR_SUCCESS | None => eSIR_FAILURE end.

Definition cfg_miss_log (o : option Z) (msg : string) : list LogEntry :=
  match o with Some _ => [] | None => [LimLog LOGP msg] end.

Lemma when_limLog b lvl msg s :
  when b (limLog lvl msg) s =
  Ok tt (set_logBuf (logBuf s ++ if b then [LimLog lvl msg] else []) s).
Proof.
  destruct b; cbn; [done|]. rewrite app_nil_r. by destruct s.
Qed.

Lemma cfgGetInt_or_log_eq k cur msg s :
  cfgGetInt_or_log k cur msg s =
  Ok (default cur (cfg s k))
     (set_logBuf (logBuf s ++ cfg_miss_log (cfg s k) msg)
        (set_extCalls (extCalls s ++ [CfgGetInt k (cfg_status (cfg s k))]) s)).
Proof.
  unfold cfgGetInt_or_log, wlan_cfgGetInt, bind, gets.
  destruct (cfg s k) eqn:E; destruct s; cbn in *; rewrite ?E; cbn; [|done].
  by rewrite app_nil_r.
Qed.

Lemma bind_assoc {A B C} (m : M A) (f : A -> M B) (g : B -> M C) s :
  bind (bind m f) g s = bind m (fun a => bind (f a) g) s.
Proof. unfold bind. by destruct (m s). Qed.

Lemma bind_when_limLog {B} b lvl msg (f : unit -> M B) s :
  bind (when b (limLog lvl msg)) f s =
  f tt (set_logBuf (logBuf s ++ if b then [LimLog lvl msg] else []) s).
Proof. unfold bind. by rewrite when_limLog. Qed.

Lemma bind_cfgGetInt_or_log {B} k cur msg (f : Z -> M B) s :
  bind (cfgGetInt_or_log k cur msg) f s =
  f (default cur (cfg s k))
    (set_logBuf (logBuf s ++ cfg_miss_log (cfg s k) msg)
       (set_extCalls (extCalls s ++ [CfgGetInt k (cfg_status (cfg s k))]) s)).
Proof. unfold bind. by rewrite cfgGetInt_or_log_eq. Qed.

Lemma bind_call {B} (m : M unit) (f : unit -> M B) s :
  bind (call m) f s =
  match m s with
  | Ok _ s' => f tt s'
  | Returned s' => f tt s'
  | Crash e => Crash e
  end.
Proof. unfold bind, call. by destruct (m s). Qed.

Lemma drop_own_length {A} (l l' : list A) : drop (length l) (l ++ l') = l'.
Proof. by rewrite drop_app_length. Qed.

Lemma drop_whole {A} (l : list A) : drop (length l) l = [].
Proof. apply drop_all. Qed.

End Runs.

#[local] Arguments when : simpl never.
#[local] Arguments cfgGetInt_or_log : simpl never.
#[local] Arguments call : simpl never.

(** Symbolic execution of a run: unfold the control flow, replace the
    recurring steps by their equations. *)
Ltac run :=
  repeat (progress (cbn;
    rewrite ?bind_assoc, ?bind_when_limLog, ?bind_cfgGetInt_or_log,
            ?bind_call, ?when_limLog, ?cfgGetInt_or_log_eq)).

(** The calls a finished run made, once its call log is a chain of
    appends to the initial one. *)
Ltac calls :=
  unfold calls_between; cbn; rewrite <- ?app_assoc;
  rewrite ?drop_own_length, ?drop_whole; cbn.

Section QuietTimers.
Context {platform : Platform}.

(** C1 (as amended).  Reconfiguring the QuietBssEnforce timer passes the
    stored [quietDuration] to [tx_timer_change] as it is, with reload 0;
    reconfiguring the QuietBegin timer passes [quietTimeoutValue]
    through [SYS_MS_TO_TICKS], that is divided by the tick length, with
    reload 0.  Each run issues exactly that one change. *)
Theorem quiet_timers_change_args (s : tAniSirGlobal) :
  tx_changes (calls_made (limDeactivateAndChangeTimer eLIM_QUIET_BSS_TIMER) s)
    = [(Single gLimQuietBssTimer, quietDuration (gLimSpecMgmt s), 0)]
  ∧ tx_changes (calls_made (limDeactivateAndChangeTimer eLIM_QUIET_TIMER) s)
    = [(Single gLimQuietTimer,
        quietTimeoutValue (gLimSpecMgmt s) / SYS_TICK_DUR_MS, 0)].
Proof.
  split; unfold calls_made, limDeactivateAndChangeTimer; run; calls; done.
Qed.

End QuietTimers.

(** C1, counterexample.  With a 10 ms tick and a stored
    [quietTimeoutValue] of 100, the QuietBegin timer is changed to 10,
    not to the stored value. *)
Lemma quiet_timer_not_passed_through :
  let s := with_quiet (mkSpecMgmt eLIM_QUIET_BEGIN 30 100) false sample_mac in
  tx_changes
    (calls_made
       (@limDeactivateAndChangeTimer sample_platform eLIM_QUIET_TIMER) s)
    = [(Single gLimQuietTimer, 10, 0)]
  ∧ tx_changes
      (calls_made
         (@limDeactivateAndChangeTimer sample_platform eLIM_QUIET_TIMER) s)
    ≠ [(Single gLimQuietTimer, quietTimeoutValue (gLimSpecMgmt s), 0)].
Proof. split; [by vm_compute | by vm_compute]. Qed.

(** ** Channel dwell timers *)

Section ChannelDwell.
Context {platform : Platform}.

(** The dwell duration in the words of the spec (4.4): the quiet
    window's tick count when a quiet window is running and background
    scanning during quiet is permitted, otherwise the channel time of the
    active scan request in ticks, and nothing when no scan is active. *)
Definition dwell_ticks (s : tAniSirGlobal) (chan_time : tLimMlmScanReq -> Z)
  : option Z :=
  if bool_decide (quietState (gLimSpecMgmt s) = eLIM_QUIET_RUNNING)
     && gLimTriggerBackgroundScanDuringQuietBss s
  then Some (quietDuration (gLimSpecMgmt s))
  else
    match gpLimMlmScanReq s with
    | Some req => Some (chan_time req / SYS_TICK_DUR_MS)
    | None => None
    end.

Definition dwell_change (t : tLimTimerField) (d : option Z)
  : list (TimerRef * Z * Z) :=
  match d with
  | Some v => [(Single t, v, 0)]
  | None => []
  end.

(** What a reconfiguration that finds no scan request leaves behind: the
    run ends normally, the only call to the time source is the
    deactivation, and the timer is the deactivated one, schedule and
    reload untouched. *)
Definition change_skipped (id : tLimTimerId) (t : tLimTimerField)
    (s : tAniSirGlobal) : Prop :=
  ∃ s', limDeactivateAndChangeTimer id s = Ok tt s'
    ∧ filter is_tx_call (calls_made (limDeactivateAndChangeTimer id) s)
      = [TxDeactivate (Single t) (timer_deactivate (limTimers s t)).2]
    ∧ limTimers s' t = (timer_deactivate (limTimers s t)).1
    ∧ initScheduleTimeInMsecs (limTimers s' t)
      = initScheduleTimeInMsecs (limTimers s t)
    ∧ rescheduleTimeInMsecs (limTimers s' t)
      = rescheduleTimeInMsecs (limTimers s t).

Lemma timer_deactivate_schedule x :
  initScheduleTimeInMsecs (timer_deactivate x).1 = initScheduleTimeInMsecs x
  ∧ rescheduleTimeInMsecs (timer_deactivate x).1 = rescheduleTimeInMsecs x.
Proof.
  unfold timer_deactivate. case_bool_decide; [|done]. by destruct (tmrActive x).
Qed.

Lemma quiet_test_sym (s : tAniSirGlobal) :
  bool_decide (eLIM_QUIET_RUNNING = quietState (gLimSpecMgmt s))
  = bool_decide (quietState (gLimSpecMgmt s) = eLIM_QUIET_RUNNING).
Proof. apply bool_decide_ext. split; congruence. Qed.

(** C3 (as amended).  Reconfiguring MinChannelDwell, and reconfiguring
    MaxChannelDwell when the system role is not AP, first deactivates
    the timer and then: changes it to the quiet window's tick count
    (unconverted) if the quiet state is running and background scanning
    during quiet is permitted; otherwise changes it to the scan
    request's min/max channel time divided by the tick length if a scan
    request is active; otherwise issues no change at all, leaving the
    deactivated timer with its schedule and reload as they were. *)
Theorem channel_dwell_reconfigure (s : tAniSirGlobal) :
  tx_changes (calls_made (limDeactivateAndChangeTimer eLIM_MIN_CHANNEL_TIMER) s)
    = dwell_change gLimMinChannelTimer (dwell_ticks s minChannelTime)
  ∧ (dwell_ticks s minChannelTime = None →
     change_skipped eLIM_MIN_CHANNEL_TIMER gLimMinChannelTimer s)
  ∧ (gLimSystemRole s ≠ eLIM_AP_ROLE →
     tx_changes
       (calls_made (limDeactivateAndChangeTimer eLIM_MAX_CHANNEL_TIMER) s)
     = dwell_change gLimMaxChannelTimer (dwell_ticks s maxChannelTime)
     ∧ (dwell_ticks s maxChannelTime = None →
        change_skipped eLIM_MAX_CHANNEL_TIMER gLimMaxChannelTimer s)).
Proof.
  pose proof (quiet_test_sym s) as Hq.
  split; [|split].
  - unfold calls_made, dwell_ticks, limDeactivateAndChangeTimer,
      deactivate_or_log, change_or_log.
    run. rewrite Hq.
    destruct (_ && _); [run; calls; done|].
    destruct (gpLimMlmScanReq s); run; calls; done.
  - unfold dwell_ticks, change_skipped, calls_made,
      limDeactivateAndChangeTimer, deactivate_or_log, change_or_log.
    intros Hnone. run. rewrite Hq.
    destruct (_ && _); [done|].
    destruct (gpLimMlmScanReq s); [done|]. run.
    eexists; split; [done|]. calls.
    pose proof (timer_deactivate_schedule
                  (limTimers s gLimMinChannelTimer)) as [? ?].
    by rewrite fn_lookup_insert.
  - intros Hrole. split.
    + unfold calls_made, dwell_ticks, limDeactivateAndChangeTimer,
        deactivate_or_log, change_or_log.
      run. rewrite Hq, (bool_decide_eq_true_2 _ Hrole).
      destruct (_ && _); [run; calls; done|].
      destruct (gpLimMlmScanReq s); run; calls; done.
    + unfold dwell_ticks, change_skipped, calls_made,
        limDeactivateAndChangeTimer, deactivate_or_log, change_or_log.
      intros Hnone. run. rewrite Hq, (bool_decide_eq_true_2 _ Hrole).
      destruct (_ && _); [done|].
      destruct (gpLimMlmScanReq s); [done|]. run.
      eexists; split; [done|]. calls.
      pose proof (timer_deactivate_schedule
                    (limTimers s gLimMaxChannelTimer)) as [? ?].
      by rewrite fn_lookup_insert.
Qed.

End ChannelDwell.

(** C3, counterexample.  (a) With no scan request and no quiet window,
    reconfiguring an active MinChannelDwell timer does not leave its
    state unchanged: the timer ends up inactive.  (b) In the AP role,
    with a quiet window running, background scanning during quiet
    permitted and a quiet duration of 30 ticks, the MaxChannelDwell
    timer is changed to 0 ticks, not to 30. *)
Lemma channel_dwell_claim_fails :
  (let s := set_limTimers
              (fun _ => mkTimer 3735928559 (Some cb_limTimerHandler) 0 500 0 0 true)
              sample_mac in
   gpLimMlmScanReq s = None
   ∧ tmrActive (limTimers s gLimMinChannelTimer) = true
   ∧ (tmrActive ∘ (fun s' => limTimers s' gLimMinChannelTimer)) <$>
       final (@limDeactivateAndChangeTimer sample_platform
                eLIM_MIN_CHANNEL_TIMER s)
     = Some false)
  ∧ (let s := with_role eLIM_AP_ROLE
                (with_quiet (mkSpecMgmt eLIM_QUIET_RUNNING 30 0) true
                   sample_mac) in
     tx_changes
       (calls_made
          (@limDeactivateAndChangeTimer sample_platform
             eLIM_MAX_CHANNEL_TIMER) s)
     = [(Single gLimMaxChannelTimer, 0, 0)]
     ∧ quietDuration (gLimSpecMgmt s) = 30).
Proof. by vm_compute. Qed.

(** C3, witness: a station scanning with a max channel time of 120 ms
    on a 10 ms tick. *)
Lemma channel_dwell_reconfigure_witness :
  let s := with_scanReq (Some (mkScanReq 40 120)) sample_mac in
  gLimSystemRole s ≠ eLIM_AP_ROLE
  ∧ tx_changes
      (calls_made
         (@limDeactivateAndChangeTimer sample_platform
            eLIM_MAX_CHANNEL_TIMER) s)
    = [(Single gLimMaxChannelTimer, 12, 0)].
Proof.
  intros s.
  assert (Hrole : gLimSystemRole s ≠ eLIM_AP_ROLE) by (vm_compute; congruence).
  split; [exact Hrole|].
  exact (proj1 (proj2 (proj2 (@channel_dwell_reconfigure sample_platform s))
                  Hrole)).
Defined.

(** ** Heartbeat, keep-alive and background scan durations *)

Section Durations.
Context {platform : Platform}.

(** The keep-alive period in milliseconds: the configured value, or the
    3000 ms default when the configured value is zero. *)
Definition keepalive_ms (v : Z) : Z :=
  if bool_decide (v = 0) then LIM_KEEPALIVE_TIMER_MS else v.

(** Rounding up to a full tick the way the code computes it: add
    [SYS_TICK_DUR_MS - 1] in 32-bit arithmetic, then convert. *)
Definition ceil_to_tick (ms : Z) : Z :=
  SYS_MS_TO_TICKS (u32 (ms + SYS_TICK_DUR_MS - 1)).

(** The background scan period in milliseconds: the configured value,
    or the 5000 ms default when the configured value is zero. *)
Definition bgscan_ms (v : Z) : Z :=
  if bool_decide (v = 0) then LIM_BACKGROUND_SCAN_PERIOD_DEFAULT_MS else v.

Lemma u32_small z : 0 ≤ z < 2 ^ 32 → u32 z = z.
Proof. intros. unfold u32. by apply Z.mod_small. Qed.

(** X23.  Without wrap-around, [ceil_to_tick] is the least number of
    ticks that covers the period: rounding up never falls short of the
    period and never adds a whole tick. *)
Lemma ceil_to_tick_least ms :
  0 < SYS_TICK_DUR_MS → 0 ≤ ms → ms + SYS_TICK_DUR_MS - 1 < 2 ^ 32 →
  ms ≤ ceil_to_tick ms * SYS_TICK_DUR_MS
  ∧ (ceil_to_tick ms - 1) * SYS_TICK_DUR_MS < ms.
Proof.
  intros HT Hms Hno. unfold ceil_to_tick, SYS_MS_TO_TICKS.
  rewrite u32_small by lia.
  assert (HT0 : SYS_TICK_DUR_MS ≠ 0) by (intros E; rewrite E in HT; lia).
  pose proof (Z.div_mod (ms + SYS_TICK_DUR_MS - 1) SYS_TICK_DUR_MS HT0).
  pose proof (Z.mod_pos_bound (ms + SYS_TICK_DUR_MS - 1) SYS_TICK_DUR_MS HT).
  split; lia.
Qed.

Lemma keepalive_reconfigure s v :
  cfg s WNI_CFG_KEEPALIVE_TIMEOUT = Some v →
  ∃ s', limDeactivateAndChangeTimer eLIM_KEEPALIVE_TIMER s = Ok tt s'
    ∧ tx_changes (calls_made (limDeactivateAndChangeTimer eLIM_KEEPALIVE_TIMER) s)
      = [(Single gLimKeepaliveTimer,
          ceil_to_tick (keepalive_ms v), ceil_to_tick (keepalive_ms v))]
    ∧ keepAlive s' = (if bool_decide (v = 0) then 0 else 1).
Proof.
  intros Hv.
  unfold calls_made, limDeactivateAndChangeTimer, deactivate_or_log,
    change_or_log, keepalive_ms.
  run. rewrite Hv. cbn.
  case_bool_decide; run; (eexists; split; [done|]); calls; done.
Qed.

Lemma bgscan_reconfigure s v :
  cfg s WNI_CFG_BACKGROUND_SCAN_PERIOD = Some v →
  ∃ s', limDeactivateAndChangeTimer eLIM_BACKGROUND_SCAN_TIMER s = Ok tt s'
    ∧ tx_changes
        (calls_made (limDeactivateAndChangeTimer eLIM_BACKGROUND_SCAN_TIMER) s)
      = [(Single gLimBackgroundScanTimer,
          bgscan_ms v / SYS_TICK_DUR_MS, bgscan_ms v / SYS_TICK_DUR_MS)]
    ∧ gLimBackgroundScanDisable s' = bool_decide (v = 0).
Proof.
  intros Hv.
  unfold calls_made, limDeactivateAndChangeTimer, deactivate_or_log,
    change_or_log, bgscan_ms.
  run. rewrite Hv. cbn.
  case_bool_decide; run; (eexists; split; [done|]); calls; done.
Qed.

(** C6.  Every reconfiguration of the Heartbeat timer changes it to the
    beacon interval times the heartbeat threshold (a 32-bit product),
    converted to ticks, with reload 0.  Both factors are read in that
    very call: by [limDeactivateAndChangeTimer] from the configuration
    store, by [limHeartBeatDeactivateAndChangeTimer] from the session
    and the configuration store.  The state is arbitrary, so the value
    the timer was created or last changed with plays no part. *)
Theorem heartbeat_reconfigure (s : tAniSirGlobal) (t : Z) :
  cfg s WNI_CFG_HEART_BEAT_THRESHOLD = Some t →
  (∀ b, cfg s WNI_CFG_BEACON_INTERVAL = Some b →
     tx_changes
       (calls_made (limDeactivateAndChangeTimer eLIM_HEART_BEAT_TIMER) s)
     = [(Single gLimHeartBeatTimer, SYS_MS_TO_TICKS (u32 (b * t)), 0)])
  ∧ (∀ psessionEntry val1_0,
       tx_changes
         (calls_made
            (limHeartBeatDeactivateAndChangeTimer psessionEntry val1_0) s)
       = [(Single gLimHeartBeatTimer,
           SYS_MS_TO_TICKS (u32 (beaconInterval psessionEntry * t)), 0)]).
Proof.
  intros Ht. split.
  - intros b Hb.
    unfold calls_made, limDeactivateAndChangeTimer, deactivate_or_log,
      change_or_log.
    run. rewrite Hb, Ht. calls. done.
  - intros sess v0.
    unfold calls_made, limHeartBeatDeactivateAndChangeTimer,
      deactivate_or_log, change_or_log.
    run. rewrite Ht. calls. done.
Qed.

End Durations.

(** C6, witness: beacon interval 100 ms, threshold 40, 10 ms tick: 400
    ticks, from the store and from a session alike. *)
Lemma heartbeat_reconfigure_witness :
  let s := with_cfg (cfg_of [(WNI_CFG_BEACON_INTERVAL, 100);
                             (WNI_CFG_HEART_BEAT_THRESHOLD, 40)]) sample_mac in
  tx_changes
    (calls_made
       (@limDeactivateAndChangeTimer sample_platform eLIM_HEART_BEAT_TIMER) s)
  = [(Single gLimHeartBeatTimer, 400, 0)]
  ∧ tx_changes
      (calls_made
         (@limHeartBeatDeactivateAndChangeTimer sample_platform
            (mkSession 0 100 0) 7) s)
    = [(Single gLimHeartBeatTimer, 400, 0)].
Proof.
  intros s.
  pose proof (@heartbeat_reconfigure sample_platform s 40 eq_refl) as [H1 H2].
  split; [exact (H1 100 eq_refl) | exact (H2 (mkSession 0 100 0) 7)].
Defined.

(** ** Expiry dispatch *)

Section Expiry.
Context {platform : Platform}.

(** The message an expiry handler builds from its parameter. *)
Definition expiry_msg (cb : tExpiryFunc) (param : Z) : tSirMsgQ :=
  match cb with
  | cb_limTimerHandler => mkMsg (u16 param) None 0
  | cb_limAddtsResponseTimerHandler =>
      mkMsg (sirMsgCode SIR_LIM_ADDTS_RSP_TIMEOUT) None param
  | cb_limAuthResponseTimerHandler =>
      mkMsg (sirMsgCode SIR_LIM_AUTH_RSP_TIMEOUT) None param
  | cb_limAssocFailureTimerHandler =>
      mkMsg (sirMsgCode SIR_LIM_ASSOC_FAIL_TIMEOUT) None param
  | cb_limUpdateOlbcCacheTimerHandler =>
      mkMsg (sirMsgCode SIR_LIM_UPDATE_OLBC_CACHEL_TIMEOUT) None 0
  | cb_limSendDisassocFrameThresholdHandler =>
      mkMsg (sirMsgCode SIR_LIM_HASH_MISS_THRES_TIMEOUT) None 0
  | cb_limCnfWaitTmerHandler =>
      mkMsg (sirMsgCode SIR_LIM_CNF_WAIT_TIMEOUT) None param
  | cb_limKeepaliveTmerHandler =>
      mkMsg (sirMsgCode SIR_LIM_KEEPALIVE_TIMEOUT) None param
  | cb_limChannelSwitchTimerHandler =>
      mkMsg (sirMsgCode SIR_LIM_CHANNEL_SWITCH_TIMEOUT) None param
  | cb_limQuietTimerHandler =>
      mkMsg (sirMsgCode SIR_LIM_QUIET_TIMEOUT) None param
  | cb_limQuietBssTimerHandler =>
      mkMsg (sirMsgCode SIR_LIM_QUIET_BSS_TIMEOUT) None param
  end.

(** The handlers that test the status of [limPostMsgApi]. *)
Definition checks_post_status (cb : tExpiryFunc) : bool :=
  match cb with
  | cb_limTimerHandler | cb_limSendDisassocFrameThresholdHandler
  | cb_limCnfWaitTmerHandler | cb_limKeepaliveTmerHandler => true
  | _ => false
  end.

Definition is_LOGE (e : LogEntry) : bool :=
  match e with LimLog LOGE _ => true | _ => false end.

(** Everything of the global structure but the message queue, the call
    log and the log buffer is the same in both states. *)
Definition only_queue_and_logs_differ (s s' : tAniSirGlobal) : Prop :=
  s' = set_logBuf (logBuf s')
         (set_extCalls (extCalls s')
            (set_limMsgQ (limMsgQ s') (limMsgQRoom s') s)).

(** C8 (as amended).  Every expiry handler ends normally after exactly
    one call to a collaborator, a [limPostMsgApi] of the one message it
    built: no configuration lookup, no call to the time source, no
    second post.  Nothing but the queue, the call log and the log buffer
    changes, so no timer is touched.  When the queue has room the
    message is appended; when it has none the queue is left as it was
    (the event is dropped), and a failure is logged at [LOGE], once, by
    [limTimerHandler], [limSendDisassocFrameThresholdHandler],
    [limCnfWaitTmerHandler] and [limKeepaliveTmerHandler] only; the
    other handlers ignore the status and log nothing about it. *)
Theorem expiry_handler_posts_once (cb : tExpiryFunc) (param : Z)
    (s : tAniSirGlobal) :
  ∃ s', expiry_handler cb param s = Ok tt s'
    ∧ only_queue_and_logs_differ s s'
    ∧ match limMsgQRoom s with
      | S n =>
          calls_made (expiry_handler cb param) s
            = [PostMsg (expiry_msg cb param) eSIR_SUCCESS]
          ∧ limMsgQ s' = limMsgQ s ++ [expiry_msg cb param]
          ∧ filter is_LOGE (entries_logged (expiry_handler cb param) s) = []
      | O =>
          calls_made (expiry_handler cb param) s
            = [PostMsg (expiry_msg cb param) eSIR_FAILURE]
          ∧ limMsgQ s' = limMsgQ s
          ∧ length (filter is_LOGE
                      (entries_logged (expiry_handler cb param) s))
            = (if checks_post_status cb then 1%nat else 0%nat)
      end.
Proof.
  unfold only_queue_and_logs_differ, calls_made, calls_between,
    entries_logged.
  destruct (limMsgQRoom s) eqn:Hroom;
    destruct cb; cbn [expiry_handler expiry_msg checks_post_status];
    unfold limTimerHandler, limAddtsResponseTimerHandler,
      limAuthResponseTimerHandler, limAssocFailureTimerHandler,
      limUpdateOlbcCacheTimerHandler, limSendDisassocFrameThresholdHandler,
      limCnfWaitTmerHandler, limKeepaliveTmerHandler,
      limChannelSwitchTimerHandler, limQuietTimerHandler,
      limQuietBssTimerHandler, bind, gets, limPostMsgApi; cbn;
    rewrite ?Hroom; cbn; rewrite ?when_limLog; cbn;
    (eexists; split; [done|]);
    cbn; rewrite <- ?app_assoc, ?drop_own_length, ?drop_whole, ?Hroom;
    destruct s; cbn in *; rewrite ?Hroom; done.
Qed.

End Expiry.

(** C8, counterexample.  With a full queue the ADDTS response handler
    drops its event without logging anything. *)
Lemma addts_handler_drops_silently :
  let s := with_oracles 0 (fun _ => true) true sample_mac in
  calls_made (@limAddtsResponseTimerHandler sample_platform 3) s
    = [PostMsg (mkMsg 5127 None 3) eSIR_FAILURE]
  ∧ entries_logged (@limAddtsResponseTimerHandler sample_platform 3) s = [].
Proof. by vm_compute. Qed.

(** ** Heartbeat activation *)

Section HeartBeat.
Context {platform : Platform}.

(** C9.  [limActivateHearBeatTimer] calls [tx_timer_activate] on the
    heartbeat timer, and returns its status, exactly when the timer's
    signature is valid and its initial schedule time is nonzero.  With a
    valid signature and a zero schedule time it returns [TX_SUCCESS] and
    with an invalid signature [TX_TIMER_ERROR], in both cases leaving
    the whole state as it was.  In [limReactivateHeartBeatTimer], when
    the schedule time left by the deactivate-and-change step is zero no
    activation is issued and the session is returned unreset. *)
Theorem heartbeat_activation_guard (s : tAniSirGlobal) :
  let hb := limTimers s gLimHeartBeatTimer in
  (tmrSignature hb = TX_AIRGO_TMR_SIGNATURE →
   initScheduleTimeInMsecs hb ≠ 0 →
   ∃ s', limActivateHearBeatTimer s = Ok (timer_activate hb).2 s'
     ∧ filter is_tx_call (calls_made limActivateHearBeatTimer s)
       = [TxActivate (Single gLimHeartBeatTimer) (timer_activate hb).2]
     ∧ limTimers s' gLimHeartBeatTimer = (timer_activate hb).1)
  ∧ (tmrSignature hb = TX_AIRGO_TMR_SIGNATURE →
     initScheduleTimeInMsecs hb = 0 →
     limActivateHearBeatTimer s = Ok TX_SUCCESS s)
  ∧ (tmrSignature hb ≠ TX_AIRGO_TMR_SIGNATURE →
     limActivateHearBeatTimer s = Ok TX_TIMER_ERROR s)
  ∧ (∀ psessionEntry val1_0 s1,
       final (limHeartBeatDeactivateAndChangeTimer psessionEntry val1_0 s)
         = Some s1 →
       initScheduleTimeInMsecs (limTimers s1 gLimHeartBeatTimer) = 0 →
       ∃ s', limReactivateHeartBeatTimer psessionEntry val1_0 s
               = Ok psessionEntry s'
         ∧ tx_activations
             (calls_made (limReactivateHeartBeatTimer psessionEntry val1_0) s)
           = []
         ∧ limTimers s' = limTimers s1).
Proof.
  intros hb. repeat split.
  - intros Hsig Hinit. unfold calls_made, limActivateHearBeatTimer.
    cbn. fold hb.
    rewrite (bool_decide_eq_true_2 _ (eq_sym Hsig)).
    rewrite (bool_decide_eq_true_2 _ Hinit).
    run. eexists; split; [done|]. calls.
    by rewrite fn_lookup_insert.
  - intros Hsig Hinit. unfold limActivateHearBeatTimer. cbn. fold hb.
    rewrite (bool_decide_eq_true_2 _ (eq_sym Hsig)).
    rewrite bool_decide_eq_false_2 by (intros E; by apply E). done.
  - intros Hsig. unfold limActivateHearBeatTimer. cbn. fold hb.
    rewrite bool_decide_eq_false_2 by (intros E; by apply Hsig). done.
  - intros sess v0 s1 Hfin Hzero.
    unfold calls_made, limReactivateHeartBeatTimer.
    revert Hfin.
    unfold limHeartBeatDeactivateAndChangeTimer, deactivate_or_log,
      change_or_log.
    run. intros [= <-].
    match goal with
    | |- context [bool_decide (?x > 0)] =>
        replace x with 0 by (symmetry; exact Hzero)
    end.
    rewrite (bool_decide_eq_false_2 (0 > 0)) by lia.
    cbn. eexists; split; [done|]. calls. done.
Qed.

End HeartBeat.

(** C9, witness: a created heartbeat timer scheduled for 500 ms is
    activated; one scheduled for 0 ms is not, with [TX_SUCCESS]; one
    never created is not, with [TX_TIMER_ERROR]; and after a
    reconfiguration to zero (threshold 0) nothing is activated. *)
Lemma heartbeat_activation_guard_witness :
  (∃ s', @limActivateHearBeatTimer sample_platform sample_mac
           = Ok TX_SUCCESS s'
     ∧ tmrActive (limTimers s' gLimHeartBeatTimer) = true)
  ∧ (let s := set_limTimers
                (fun _ => mkTimer 3735928559 (Some cb_limTimerHandler)
                            0 0 0 0 false) sample_mac in
     @limActivateHearBeatTimer sample_platform s = Ok TX_SUCCESS s)
  ∧ (let s := set_limTimers (fun _ => blank_timer) sample_mac in
     @limActivateHearBeatTimer sample_platform s = Ok TX_TIMER_ERROR s)
  ∧ (let s := with_cfg (cfg_of [(WNI_CFG_HEART_BEAT_THRESHOLD, 0)])
                sample_mac in
     tx_activations
       (calls_made
          (@limReactivateHeartBeatTimer sample_platform
             (mkSession 0 100 5) 0) s) = []).
Proof.
  split; [|split; [|split]].
  - destruct (@heartbeat_activation_guard sample_platform sample_mac)
      as (H & _).
    destruct (H eq_refl ltac:(by vm_compute)) as (s' & Hrun & _ & Htm).
    exists s'. split; [exact Hrun|]. rewrite Htm. reflexivity.
  - intros s.
    destruct (@heartbeat_activation_guard sample_platform s)
      as (_ & H & _).
    exact (H eq_refl eq_refl).
  - intros s.
    destruct (@heartbeat_activation_guard sample_platform s)
      as (_ & _ & H & _).
    apply H. by vm_compute.
  - intros s.
    destruct (@heartbeat_activation_guard sample_platform s)
      as (_ & _ & _ & H).
    destruct (H (mkSession 0 100 5) 0 _ eq_refl eq_refl) as (s' & _ & Hact & _).
    exact Hact.
Defined.

(** ** Per-station timers *)

Section PerStation.
Context {platform : Platform}.

(** C10.  When the pre-auth table lookup finds no node for [staId],
    [limDeactivateAndChangePerStaIdTimer] with [eLIM_AUTH_RSP_TIMER]
    reports the invalid index at [LOGP] and ends: it calls no
    collaborator at all, and the state it leaves differs from the
    initial one in the log buffer only, so every timer is as it was. *)
Theorem auth_rsp_invalid_index_noop (s : tAniSirGlobal) (staId val0 : Z) :
  limGetPreAuthNodeFromIndex (gLimPreAuthTimerTable s) staId = None →
  limDeactivateAndChangePerStaIdTimer eLIM_AUTH_RSP_TIMER staId val0 s
  = Ok tt
      (set_logBuf
         (logBuf s ++
          [MacTrace TRACE_CODE_TIMER_DEACTIVATE 0 eLIM_AUTH_RSP_TIMER;
           LimLog LOGP "Invalid Pre Auth Index passed :%d\n"]) s)
  ∧ calls_made
      (limDeactivateAndChangePerStaIdTimer eLIM_AUTH_RSP_TIMER staId val0) s
    = []
  ∧ ∀ s',
      final (limDeactivateAndChangePerStaIdTimer eLIM_AUTH_RSP_TIMER
               staId val0 s) = Some s' →
      limTimers s' = limTimers s
      ∧ gpLimCnfWaitTimer s' = gpLimCnfWaitTimer s
      ∧ gLimPreAuthTimerTable s' = gLimPreAuthTimerTable s.
Proof.
  intros Hnone.
  unfold calls_made, calls_between, limDeactivateAndChangePerStaIdTimer.
  cbn. rewrite Hnone. unfold limLog, modify. cbn. rewrite <- app_assoc. cbn.
  split; [reflexivity|]. split; [by rewrite drop_whole|].
  by intros s' [= <-].
Qed.

End PerStation.

(** C10, witness: index 4 of a four-entry pre-auth table. *)
Lemma auth_rsp_invalid_index_noop_witness :
  limTimers <$>
    final (@limDeactivateAndChangePerStaIdTimer sample_platform
             eLIM_AUTH_RSP_TIMER 4 0 sample_mac)
  = Some (limTimers sample_mac).
Proof.
  destruct (@auth_rsp_invalid_index_noop sample_platform sample_mac 4 0
              eq_refl) as (Hrun & _ & _).
  rewrite Hrun. reflexivity.
Defined.

(** C2, at the failing input.  With a four-slot CNF_WAIT array, station
    index 4 is used unchecked: both per-station operations on the
    ConfirmationWait pool access the array outside its bounds.  The
    AuthResponse lookup of the same index is refused. *)
Lemma cnf_wait_index_unchecked :
  @limActivateCnfTimer sample_platform 4 (mkSession 1 100 0) sample_mac
    = Crash (OutOfBounds (CnfWait 4))
  ∧ @limDeactivateAndChangePerStaIdTimer sample_platform
      eLIM_CNF_WAIT_TIMER 4 0 sample_mac
    = Crash (OutOfBounds (CnfWait 4))
  ∧ limGetPreAuthNodeFromIndex (gLimPreAuthTimerTable sample_mac) 4 = None.
Proof. by vm_compute. Qed.

(** * Further properties

    Properties of the functions above that the statements so far leave
    out: what every case of the reconfiguration switch has in common, the
    cases no statement above speaks of, the per-station functions on
    indices in range, the heartbeat cycle, and the whole of
    [limCreateTimers].  Definitions first, then the proofs. *)

(** ** Definitions *)

Section FurtherDefinitions.
Context {platform : Platform}.

(** The singleton timer a timer identifier stands for in
    [limDeactivateAndChangeTimer]; the identifiers without a case of
    their own in the client build have none. *)
Definition timer_of (id : tLimTimerId) : option tLimTimerField :=
  match id with
  | eLIM_ADDTS_RSP_TIMER => Some gLimAddtsRspTimer
  | eLIM_MIN_CHANNEL_TIMER => Some gLimMinChannelTimer
  | eLIM_MAX_CHANNEL_TIMER => Some gLimMaxChannelTimer
  | eLIM_JOIN_FAIL_TIMER => Some gLimJoinFailureTimer
  | eLIM_AUTH_FAIL_TIMER => Some gLimAuthFailureTimer
  | eLIM_ASSOC_FAIL_TIMER => Some gLimAssocFailureTimer
  | eLIM_REASSOC_FAIL_TIMER => Some gLimReassocFailureTimer
  | eLIM_HEART_BEAT_TIMER => Some gLimHeartBeatTimer
  | eLIM_PROBE_AFTER_HB_TIMER => Some gLimProbeAfterHBTimer
  | eLIM_KEEPALIVE_TIMER => Some gLimKeepaliveTimer
  | eLIM_BACKGROUND_SCAN_TIMER => Some gLimBackgroundScanTimer
  | eLIM_CHANNEL_SWITCH_TIMER => Some gLimChannelSwitchTimer
  | eLIM_QUIET_BSS_TIMER => Some gLimQuietBssTimer
  | eLIM_QUIET_TIMER => Some gLimQuietTimer
  | eLIM_FT_PREAUTH_RSP_TIMER => Some gLimFTPreAuthRspTimer
  | eLIM_REMAIN_CHN_TIMER => Some gLimRemainOnChannelTimer
  | eLIM_PRE_AUTH_CLEANUP_TIMER | eLIM_LEARN_INTERVAL_TIMER
  | eLIM_LEARN_DURATION_TIMER | eLIM_CNF_WAIT_TIMER
  | eLIM_AUTH_RSP_TIMER => None
  end.

(** The calls to the time source in a call list, in order. *)
Definition tx_calls (l : list ExtCall) : list ExtCall :=
  omap (fun c => if is_tx_call c then Some c else None) l.

(** The calls to the time source a reconfiguration of timer [f] may
    make: its deactivation, alone or followed by one change of [f]. *)
Definition deactivate_then_change (f : tLimTimerField) (x : TX_TIMER)
    (l : list ExtCall) : Prop :=
  l = [TxDeactivate (Single f) (timer_deactivate x).2]
  ∨ ∃ i r st,
      l = [TxDeactivate (Single f) (timer_deactivate x).2;
           TxChange (Single f) i r st].

(** What every run of [limDeactivateAndChangeTimer] has in common. *)
Definition reconfigure_post (id : tLimTimerId) (s s' : tAniSirGlobal)
  : Prop :=
  match timer_of id with
  | None => calls_between s s' = []
  | Some f =>
      deactivate_then_change f (limTimers s f)
        (tx_calls (calls_between s s'))
      ∧ (tmrSignature (limTimers s f) = TX_AIRGO_TMR_SIGNATURE →
         tmrActive (limTimers s' f) = false
         ∧ tmrSignature (limTimers s' f) = TX_AIRGO_TMR_SIGNATURE)
  end
  ∧ (∀ f, timer_of id ≠ Some f → limTimers s' f = limTimers s f)
  ∧ gpLimCnfWaitTimer s' = gpLimCnfWaitTimer s
  ∧ gLimPreAuthTimerTable s' = gLimPreAuthTimerTable s
  ∧ limMsgQ s' = limMsgQ s
  ∧ cfg s' = cfg s.

(** The cases that take the new duration from one configuration key. *)
Definition cfg_timeout (id : tLimTimerId)
  : option (tCfgKey * tLimTimerField) :=
  match id with
  | eLIM_JOIN_FAIL_TIMER =>
      Some (WNI_CFG_JOIN_FAILURE_TIMEOUT, gLimJoinFailureTimer)
  | eLIM_AUTH_FAIL_TIMER =>
      Some (WNI_CFG_AUTHENTICATE_FAILURE_TIMEOUT, gLimAuthFailureTimer)
  | eLIM_ASSOC_FAIL_TIMER =>
      Some (WNI_CFG_ASSOCIATION_FAILURE_TIMEOUT, gLimAssocFailureTimer)
  | eLIM_REASSOC_FAIL_TIMER =>
      Some (WNI_CFG_REASSOCIATION_FAILURE_TIMEOUT, gLimReassocFailureTimer)
  | eLIM_PROBE_AFTER_HB_TIMER =>
      Some (WNI_CFG_PROBE_AFTER_HB_FAIL_TIMEOUT, gLimProbeAfterHBTimer)
  | _ => None
  end.

(** The messages of the [LOGP] entries of a log, in order. *)
Definition logp_entries (l : list LogEntry) : list string :=
  omap (fun e => match e with LimLog LOGP m => Some m | _ => None end) l.

(** Whether a status of the time source reports a failure, as a count. *)
Definition tx_failed (st : tTxStatus) : nat :=
  match st with TX_SUCCESS => 0 | TX_TIMER_ERROR => 1 end.

(** Whether a status of the configuration store reports a failure, as a
    count. *)
Definition cfg_failed (st : tSirRetStatus) : nat :=
  match st with eSIR_SUCCESS => 0 | eSIR_FAILURE => 1 end.

(** The state [limHeartBeatDeactivateAndChangeTimer] leaves when the
    heartbeat timer has been created and the threshold [t] is configured:
    the timer deactivated, then changed to the session's beacon interval
    times [t], in ticks. *)
Definition hb_changed (sess : tPESession) (t : Z) (s : tAniSirGlobal)
  : tAniSirGlobal :=
  let hb := limTimers s gLimHeartBeatTimer in
  let ticks := SYS_MS_TO_TICKS (u32 (beaconInterval sess * t)) in
  set_logBuf
    (logBuf s
     ++ [MacTrace TRACE_CODE_TIMER_DEACTIVATE 0 eLIM_HEART_BEAT_TIMER]
     ++ (if bool_decide ((timer_deactivate hb).2 ≠ TX_SUCCESS)
         then [LimLog LOGP "Fail to deactivate HeartBeatTimer \n"] else [])
     ++ [LimLog LOGW "session beaconInterval = %d\n"])
    (set_extCalls
       (extCalls s
        ++ [TxDeactivate (Single gLimHeartBeatTimer) (timer_deactivate hb).2;
            CfgGetInt WNI_CFG_HEART_BEAT_THRESHOLD eSIR_SUCCESS;
            TxChange (Single gLimHeartBeatTimer) ticks 0 TX_SUCCESS])
       (set_limTimers
          (<[gLimHeartBeatTimer :=
               mkTimer TX_AIRGO_TMR_SIGNATURE (pExpireFunc hb) (expireInput hb)
                 (ticks * SYS_TICK_DUR_MS) (0 * SYS_TICK_DUR_MS)
                 (sessionId hb) false]>
             (<[gLimHeartBeatTimer := (timer_deactivate hb).1]>
                (limTimers s))) s)).

(** The state a CNF_WAIT reconfiguration of slot [i] holding [x] leaves. *)
Definition cnf_changed (i : nat) (x : TX_TIMER) (val0 : Z)
    (s : tAniSirGlobal) : tAniSirGlobal :=
  let v := SYS_MS_TO_TICKS (default val0 (cfg s WNI_CFG_WT_CNF_TIMEOUT)) in
  let x' := timer_change v v (timer_deactivate x).1 in
  set_logBuf
    (logBuf s
     ++ [MacTrace TRACE_CODE_TIMER_DEACTIVATE 0 eLIM_CNF_WAIT_TIMER]
     ++ (if bool_decide ((timer_deactivate x).2 ≠ TX_SUCCESS)
         then [LimLog LOGP "unable to deactivate CNF wait timer\n"] else [])
     ++ cfg_miss_log (cfg s WNI_CFG_WT_CNF_TIMEOUT)
          "could not retrieve cnf timeout value\n"
     ++ (if bool_decide (x'.2 ≠ TX_SUCCESS)
         then [LimLog LOGP "unable to change cnf wait timer\n"] else []))
    (set_extCalls
       (extCalls s
        ++ [TxDeactivate (CnfWait i) (timer_deactivate x).2;
            CfgGetInt WNI_CFG_WT_CNF_TIMEOUT
              (cfg_status (cfg s WNI_CFG_WT_CNF_TIMEOUT));
            TxChange (CnfWait i) v v x'.2])
       (set_gpLimCnfWaitTimer (<[i := x'.1]> (gpLimCnfWaitTimer s)) s)).

(** The state an AUTH_RSP reconfiguration of node [i] leaves. *)
Definition auth_changed (i : nat) (l : list tLimPreAuthNode)
    (n : tLimPreAuthNode) (val0 : Z) (s : tAniSirGlobal) : tAniSirGlobal :=
  let v :=
    SYS_MS_TO_TICKS (default val0 (cfg s WNI_CFG_AUTHENTICATE_RSP_TIMEOUT)) in
  let x' := timer_change v 0 (timer_deactivate (timer n)).1 in
  set_logBuf
    (logBuf s
     ++ [MacTrace TRACE_CODE_TIMER_DEACTIVATE 0 eLIM_AUTH_RSP_TIMER]
     ++ (if bool_decide ((timer_deactivate (timer n)).2 ≠ TX_SUCCESS)
         then [LimLog LOGP "unable to deactivate auth response timer\n"]
         else [])
     ++ cfg_miss_log (cfg s WNI_CFG_AUTHENTICATE_RSP_TIMEOUT)
          "could not retrieve auth response timeout value\n"
     ++ (if bool_decide (x'.2 ≠ TX_SUCCESS)
         then [LimLog LOGP "unable to change auth rsp timer\n"] else []))
    (set_extCalls
       (extCalls s
        ++ [TxDeactivate (PreAuth i) (timer_deactivate (timer n)).2;
            CfgGetInt WNI_CFG_AUTHENTICATE_RSP_TIMEOUT
              (cfg_status (cfg s WNI_CFG_AUTHENTICATE_RSP_TIMEOUT));
            TxChange (PreAuth i) v 0 x'.2])
       (set_gLimPreAuthTimerTable
          (mkPreAuthTable (numEntry (gLimPreAuthTimerTable s))
             (Some (<[i := mkPreAuthNode x'.1 (authNodeIdx n) (fFree n)]> l)))
          s)).

(** The timer [limActivateCnfTimer] hands to the time source: the slot's
    timer with the session id stored in it. *)
Definition with_session (x : TX_TIMER) (sess : tPESession) : TX_TIMER :=
  mkTimer (tmrSignature x) (pExpireFunc x) (expireInput x)
    (initScheduleTimeInMsecs x) (rescheduleTimeInMsecs x)
    (peSessionId sess) (tmrActive x).

(** The state [limActivateCnfTimer] leaves for slot [i] holding [x]. *)
Definition cnf_activated (i : nat) (x : TX_TIMER) (sess : tPESession)
    (s : tAniSirGlobal) : tAniSirGlobal :=
  let x1 := with_session x sess in
  set_logBuf
    (logBuf s
     ++ [MacTrace TRACE_CODE_TIMER_ACTIVATE 0 eLIM_CNF_WAIT_TIMER]
     ++ (if bool_decide ((timer_activate x1).2 ≠ TX_SUCCESS)
         then [LimLog LOGP "could not activate cnf wait timer\n"] else []))
    (set_extCalls
       (extCalls s ++ [TxActivate (CnfWait i) (timer_activate x1).2])
       (set_gpLimCnfWaitTimer
          (<[i := (timer_activate x1).1]> (gpLimCnfWaitTimer s)) s)).

(** The status [tx_timer_create] returns when the time source grants
    ([true]) or refuses ([false]) the creation. *)
Definition create_status (ok : bool) : tTxStatus :=
  if ok then TX_SUCCESS else TX_TIMER_ERROR.

(** What a creation of a singleton timer fixes for good: the field, the
    expiry callback, its parameter and the activation policy. *)
Definition single_create (c : ExtCall)
  : option (tLimTimerField * tExpiryFunc * Z * bool) :=
  match c with
  | TxCreate (Single f) _ cb input _ _ a _ => Some (f, cb, input, a)
  | _ => None
  end.

(** The creations of singleton timers in a call list, in order. *)
Definition single_creates (l : list ExtCall)
  : list (tLimTimerField * tExpiryFunc * Z * bool) :=
  omap single_create l.

(** The creations of CNF_WAIT timers in a call list: slot, callback,
    parameter, initial and reschedule ticks, activation policy. *)
Definition cnf_create (c : ExtCall)
  : option (nat * tExpiryFunc * Z * Z * Z * bool) :=
  match c with
  | TxCreate (CnfWait i) _ cb input initial r a _ =>
      Some (i, cb, input, initial, r, a)
  | _ => None
  end.

(** The creations of CNF_WAIT timers in a call list, in order. *)
Definition cnf_creates (l : list ExtCall)
  : list (nat * tExpiryFunc * Z * Z * Z * bool) :=
  omap cnf_create l.

(** One CNF_WAIT timer per station index below [n], from slot [i] on:
    the callback is [limCnfWaitTmerHandler], the parameter the slot's
    own index, the schedule [ticks], one shot, not activated. *)
Definition cnf_plan (ticks : Z) (i n : nat)
  : list (nat * tExpiryFunc * Z * Z * Z * bool) :=
  (fun j => (j, cb_limCnfWaitTmerHandler, u32 (Z.of_nat j), ticks, 0,
             TX_NO_ACTIVATE)) <$> seq i n.

(** The entries logged between two states of one run. *)
Definition log_between (s s' : tAniSirGlobal) : list LogEntry :=
  drop (length (logBuf s)) (logBuf s').

(** What [limCreateTimers] creates first, in every role: the two channel
    dwell timers. *)
Definition head_plan : list (tLimTimerField * tExpiryFunc * Z * bool) :=
  [(gLimMinChannelTimer, cb_limTimerHandler,
    sirMsgCode SIR_LIM_MIN_CHANNEL_TIMEOUT, TX_NO_ACTIVATE);
   (gLimMaxChannelTimer, cb_limTimerHandler,
    sirMsgCode SIR_LIM_MAX_CHANNEL_TIMEOUT, TX_NO_ACTIVATE)].

(** What [limCreateTimers] creates under
    [if (pMac->lim.gLimSystemRole != eLIM_AP_ROLE)], in order. *)
Definition nonAp_plan : list (tLimTimerField * tExpiryFunc * Z * bool) :=
  [(gLimChannelSwitchTimer, cb_limChannelSwitchTimerHandler, 0,
    TX_NO_ACTIVATE);
   (gLimQuietTimer, cb_limQuietTimerHandler,
    sirMsgCode SIR_LIM_QUIET_TIMEOUT, TX_NO_ACTIVATE);
   (gLimQuietBssTimer, cb_limQuietBssTimerHandler,
    sirMsgCode SIR_LIM_QUIET_BSS_TIMEOUT, TX_NO_ACTIVATE);
   (gLimJoinFailureTimer, cb_limTimerHandler,
    sirMsgCode SIR_LIM_JOIN_FAIL_TIMEOUT, TX_NO_ACTIVATE);
   (gLimAssocFailureTimer, cb_limAssocFailureTimerHandler, LIM_ASSOC,
    TX_NO_ACTIVATE);
   (gLimReassocFailureTimer, cb_limAssocFailureTimerHandler, LIM_REASSOC,
    TX_NO_ACTIVATE);
   (gLimAddtsRspTimer, cb_limAddtsResponseTimerHandler,
    sirMsgCode SIR_LIM_ADDTS_RSP_TIMEOUT, TX_NO_ACTIVATE);
   (gLimAuthFailureTimer, cb_limTimerHandler,
    sirMsgCode SIR_LIM_AUTH_FAIL_TIMEOUT, TX_NO_ACTIVATE);
   (gLimHeartBeatTimer, cb_limTimerHandler,
    sirMsgCode SIR_LIM_HEART_BEAT_TIMEOUT, TX_NO_ACTIVATE);
   (gLimProbeAfterHBTimer, cb_limTimerHandler,
    sirMsgCode SIR_LIM_PROBE_HB_FAILURE_TIMEOUT, TX_NO_ACTIVATE);
   (gLimBackgroundScanTimer, cb_limTimerHandler,
    sirMsgCode SIR_LIM_CHANNEL_SCAN_TIMEOUT, TX_NO_ACTIVATE)].

(** What [limCreateTimers] creates after that block, in every role; the
    keep-alive timer is activated at once in the AP role only. *)
Definition rest_plan (role : tLimSystemRole)
  : list (tLimTimerField * tExpiryFunc * Z * bool) :=
  [(gLimSendDisassocFrameThresholdTimer,
    cb_limSendDisassocFrameThresholdHandler,
    sirMsgCode SIR_LIM_HASH_MISS_THRES_TIMEOUT, TX_AUTO_ACTIVATE);
   (gLimKeepaliveTimer, cb_limKeepaliveTmerHandler, 0,
    if bool_decide (role = eLIM_AP_ROLE)
    then TX_AUTO_ACTIVATE else TX_NO_ACTIVATE);
   (gLimUpdateOlbcCacheTimer, cb_limUpdateOlbcCacheTimerHandler,
    sirMsgCode SIR_LIM_UPDATE_OLBC_CACHEL_TIMEOUT, TX_AUTO_ACTIVATE);
   (gLimFTPreAuthRspTimer, cb_limTimerHandler,
    sirMsgCode SIR_LIM_FT_PREAUTH_RSP_TIMEOUT, TX_NO_ACTIVATE);
   (gLimRemainOnChannelTimer, cb_limTimerHandler,
    sirMsgCode SIR_LIM_REMAIN_CHN_TIMEOUT, TX_NO_ACTIVATE)].

(** The singleton timers of a complete run of [limCreateTimers]. *)
Definition creation_plan (role : tLimSystemRole)
  : list (tLimTimerField * tExpiryFunc * Z * bool) :=
  head_plan
  ++ (if bool_decide (role = eLIM_AP_ROLE) then [] else nonAp_plan)
  ++ rest_plan role.

(** What a loop over one of the two pools leaves alone: it appends to the
    log and to the call log, all its calls are pool calls, the CNF_WAIT
    creations among them are [cnfs], and the sizes of the pools and the
    fields the rest of [limCreateTimers] reads are unchanged. *)
Record pool_frame (cnfs : list (nat * tExpiryFunc * Z * Z * Z * bool))
    (s s' : tAniSirGlobal) : Prop := mkPoolFrame {
  pf_role : gLimSystemRole s' = gLimSystemRole s;
  pf_maxStation : maxStation s' = maxStation s;
  pf_cfg : cfg s' = cfg s;
  pf_txCreateOk : txCreateOk s' = txCreateOk s;
  pf_palAllocOk : palAllocOk s' = palAllocOk s;
  pf_keepAlive : keepAlive s' = keepAlive s;
  pf_bgscan : gLimBackgroundScanDisable s' = gLimBackgroundScanDisable s;
  pf_created : gLimTimersCreated s' = gLimTimersCreated s;
  pf_cnf : length (gpLimCnfWaitTimer s') = length (gpLimCnfWaitTimer s);
  pf_numEntry : numEntry (gLimPreAuthTimerTable s')
                = numEntry (gLimPreAuthTimerTable s);
  pf_table : length <$> pTable (gLimPreAuthTimerTable s')
             = length <$> pTable (gLimPreAuthTimerTable s);
  pf_log : ∃ l, logBuf s' = logBuf s ++ l;
  pf_calls : ∃ l, extCalls s' = extCalls s ++ l
                  ∧ forallb is_pool_call l = true
                  ∧ cnf_creates l = cnfs
}.

(** What a block of [limCreateTimers] leaves alone: it appends to the
    log and to the call log and changes none of the fields that decide
    the control flow of the blocks after it. *)
Record block_frame (s s' : tAniSirGlobal) : Prop := mkBlockFrame {
  bf_role : gLimSystemRole s' = gLimSystemRole s;
  bf_maxStation : maxStation s' = maxStation s;
  bf_cfg : cfg s' = cfg s;
  bf_txCreateOk : txCreateOk s' = txCreateOk s;
  bf_palAllocOk : palAllocOk s' = palAllocOk s;
  bf_cnf : length (gpLimCnfWaitTimer s') = length (gpLimCnfWaitTimer s);
  bf_calls : extCalls s' = extCalls s ++ calls_between s s';
  bf_log : logBuf s' = logBuf s ++ log_between s s'
}.

(** The creations of the non-AP block whose failure ends
    [limCreateTimers] with [return]. *)
Definition nonAp_guarded : list tLimTimerField :=
  [gLimChannelSwitchTimer; gLimQuietTimer; gLimQuietBssTimer;
   gLimJoinFailureTimer; gLimAssocFailureTimer; gLimReassocFailureTimer;
   gLimAddtsRspTimer; gLimAuthFailureTimer].

(** The time source grants the creation of every timer of [l]. *)
Definition guards_ok (s : tAniSirGlobal) (l : list tLimTimerField) : bool :=
  forallb (fun f => txCreateOk s (Single f)) l.

(** What a run [r] of the non-AP block from [s] satisfies; [g] tells
    whether the block runs to its end. *)
Definition nonAp_post (s : tAniSirGlobal) (g : bool) (r : result unit)
  : Prop :=
  ∃ s', r = (if g then Ok tt s' else Returned s')
    ∧ block_frame s s'
    ∧ keepAlive s' = keepAlive s
    ∧ gLimTimersCreated s' = gLimTimersCreated s
    ∧ keepalive_creates (calls_between s s') = []
    ∧ cnf_creates (calls_between s s') = []
    ∧ (∀ v, cfg s WNI_CFG_BACKGROUND_SCAN_PERIOD = Some v →
         if g
         then bgscan_creates (calls_between s s')
              = [(bgscan_ms v / SYS_TICK_DUR_MS, bgscan_ms v / SYS_TICK_DUR_MS)]
              ∧ gLimBackgroundScanDisable s' = bool_decide (v = 0)
         else bgscan_creates (calls_between s s') = []
              ∧ gLimBackgroundScanDisable s' = gLimBackgroundScanDisable s)
    ∧ (if g
       then single_creates (calls_between s s') = nonAp_plan
       else single_creates (calls_between s s') `prefix_of` nonAp_plan
            ∧ ∃ msg, last (log_between s s') = Some (LimLog LOGP msg)).

(** What a run [r] of the part after the non-AP block satisfies; [g]
    tells whether it runs to its end. *)
Definition rest_post (s : tAniSirGlobal) (g : bool) (r : result unit)
  : Prop :=
  ∃ s', r = (if g then Ok tt s' else Returned s')
    ∧ block_frame s s'
    ∧ gLimBackgroundScanDisable s' = gLimBackgroundScanDisable s
    ∧ bgscan_creates (calls_between s s') = []
    ∧ (∀ v, cfg s WNI_CFG_KEEPALIVE_TIMEOUT = Some v →
         keepalive_creates (calls_between s s')
         = [(ceil_to_tick (keepalive_ms v), ceil_to_tick (keepalive_ms v))]
         ∧ keepAlive s' = (if bool_decide (v = 0) then 0 else 1))
    ∧ (∀ v, cfg s WNI_CFG_WT_CNF_TIMEOUT = Some v →
         cnf_creates (calls_between s s')
         = cnf_plan (SYS_MS_TO_TICKS v) 0 (Z.to_nat (maxStation s)))
    ∧ (if g
       then gLimTimersCreated s' = 1
            ∧ single_creates (calls_between s s')
              = rest_plan (gLimSystemRole s)
       else gLimTimersCreated s' = gLimTimersCreated s
            ∧ single_creates (calls_between s s')
              `prefix_of` rest_plan (gLimSystemRole s)
            ∧ ∃ msg, last (log_between s s') = Some (LimLog LOGP msg)).

(** The part after the non-AP block runs to its end: the pre-auth table
    is allocated and the last two creations are granted. *)
Definition rest_guards_ok (s : tAniSirGlobal) : bool :=
  palAllocOk s && txCreateOk s (Single gLimFTPreAuthRspTimer)
  && txCreateOk s (Single gLimRemainOnChannelTimer).

(** The run gets past the non-AP block: the role is AP, or every guarded
    creation of the block is granted. *)
Definition nonAp_guards_ok (s : tAniSirGlobal) : bool :=
  bool_decide (gLimSystemRole s = eLIM_AP_ROLE) || guards_ok s nonAp_guarded.

(** Everything after the two channel dwell timers runs to its end. *)
Definition tail_guards_ok (s : tAniSirGlobal) : bool :=
  nonAp_guards_ok s && rest_guards_ok s.

(** The non-AP block is entered and runs to its end, where the background
    scan timer is created. *)
Definition tail_bgscan_reached (s : tAniSirGlobal) : bool :=
  negb (bool_decide (gLimSystemRole s = eLIM_AP_ROLE))
  && guards_ok s nonAp_guarded.

(** [limCreateTimers] runs to its end: every creation followed by a
    [return] on failure is granted, and so is the allocation of the
    pre-auth table.  The creations of the non-AP block do not count in
    the AP role, and the creations that are only logged on failure
    (heartbeat, probe-after-heartbeat, background scan, disassociation
    throttle, keep-alive, CNF_WAIT, OLBC cache) never count. *)
Definition all_guards_ok (s : tAniSirGlobal) : bool :=
  txCreateOk s (Single gLimMinChannelTimer)
  && (txCreateOk s (Single gLimMaxChannelTimer) && tail_guards_ok s).

(** [limCreateTimers] reaches the part after the non-AP block, where the
    disassociation throttle, keep-alive and CNF_WAIT timers are created. *)
Definition common_reached (s : tAniSirGlobal) : bool :=
  txCreateOk s (Single gLimMinChannelTimer)
  && (txCreateOk s (Single gLimMaxChannelTimer) && nonAp_guards_ok s).

(** [limCreateTimers] reaches the creation of the background scan timer. *)
Definition bgscan_reached (s : tAniSirGlobal) : bool :=
  txCreateOk s (Single gLimMinChannelTimer)
  && (txCreateOk s (Single gLimMaxChannelTimer) && tail_bgscan_reached s).

(** What a run [r] of [limCreateTimers] from [s] satisfies; [g], [gk] and
    [gb] tell whether it runs to its end, reaches the part after the
    non-AP block, and reaches the background scan timer. *)
Definition create_post (s : tAniSirGlobal) (g gk gb : bool) (r : result unit)
  : Prop :=
  ∃ s', r = (if g then Ok tt s' else Returned s')
    ∧ (if g
       then gLimTimersCreated s' = 1
            ∧ single_creates (calls_between s s')
              = creation_plan (gLimSystemRole s)
       else gLimTimersCreated s' = gLimTimersCreated s
            ∧ single_creates (calls_between s s')
              `prefix_of` creation_plan (gLimSystemRole s)
            ∧ ∃ msg, last (log_between s s') = Some (LimLog LOGP msg))
    ∧ (∀ v, cfg s WNI_CFG_KEEPALIVE_TIMEOUT = Some v →
         keepalive_creates (calls_between s s')
         = (if gk
            then [(ceil_to_tick (keepalive_ms v), ceil_to_tick (keepalive_ms v))]
            else [])
         ∧ (gk = true →
            keepAlive s' = (if bool_decide (v = 0) then 0 else 1)))
    ∧ (∀ v, cfg s WNI_CFG_BACKGROUND_SCAN_PERIOD = Some v →
         bgscan_creates (calls_between s s')
         = (if gb
            then [(bgscan_ms v / SYS_TICK_DUR_MS, bgscan_ms v / SYS_TICK_DUR_MS)]
            else [])
         ∧ (gb = true → gLimBackgroundScanDisable s' = bool_decide (v = 0)))
    ∧ (∀ v, cfg s WNI_CFG_WT_CNF_TIMEOUT = Some v →
         cnf_creates (calls_between s s')
         = (if gk
            then cnf_plan (SYS_MS_TO_TICKS v) 0 (Z.to_nat (maxStation s))
            else [])).

(** The timers created with [TX_AUTO_ACTIVATE]. *)
Definition auto_activated (role : tLimSystemRole) (f : tLimTimerField)
  : bool :=
  match f with
  | gLimSendDisassocFrameThresholdTimer | gLimUpdateOlbcCacheTimer => true
  | gLimKeepaliveTimer => bool_decide (role = eLIM_AP_ROLE)
  | _ => false
  end.

(** The message type each singleton timer is there to raise. *)
Definition timeout_of (f : tLimTimerField) : tSirLimMsg :=
  match f with
  | gLimMinChannelTimer => SIR_LIM_MIN_CHANNEL_TIMEOUT
  | gLimMaxChannelTimer => SIR_LIM_MAX_CHANNEL_TIMEOUT
  | gLimChannelSwitchTimer => SIR_LIM_CHANNEL_SWITCH_TIMEOUT
  | gLimQuietTimer => SIR_LIM_QUIET_TIMEOUT
  | gLimQuietBssTimer => SIR_LIM_QUIET_BSS_TIMEOUT
  | gLimJoinFailureTimer => SIR_LIM_JOIN_FAIL_TIMEOUT
  | gLimAssocFailureTimer => SIR_LIM_ASSOC_FAIL_TIMEOUT
  | gLimReassocFailureTimer => SIR_LIM_ASSOC_FAIL_TIMEOUT
  | gLimAddtsRspTimer => SIR_LIM_ADDTS_RSP_TIMEOUT
  | gLimAuthFailureTimer => SIR_LIM_AUTH_FAIL_TIMEOUT
  | gLimHeartBeatTimer => SIR_LIM_HEART_BEAT_TIMEOUT
  | gLimProbeAfterHBTimer => SIR_LIM_PROBE_HB_FAILURE_TIMEOUT
  | gLimBackgroundScanTimer => SIR_LIM_CHANNEL_SCAN_TIMEOUT
  | gLimSendDisassocFrameThresholdTimer => SIR_LIM_HASH_MISS_THRES_TIMEOUT
  | gLimKeepaliveTimer => SIR_LIM_KEEPALIVE_TIMEOUT
  | gLimUpdateOlbcCacheTimer => SIR_LIM_UPDATE_OLBC_CACHEL_TIMEOUT
  | gLimFTPreAuthRspTimer => SIR_LIM_FT_PREAUTH_RSP_TIMEOUT
  | gLimRemainOnChannelTimer => SIR_LIM_REMAIN_CHN_TIMEOUT
  end.

End FurtherDefinitions.


(** States for the examples. *)

(** A created timer that is running. *)
Definition armed_timer : TX_TIMER :=
  mkTimer 3735928559 (Some cb_limTimerHandler) 0 500 0 0 true.

(** [sample_mac] with every singleton timer running. *)
Definition armed_mac : tAniSirGlobal :=
  set_limTimers (fun _ => armed_timer) sample_mac.

(** [sample_mac] on a time source that refuses to create the heartbeat
    timer and grants every other creation. *)
Definition heartbeat_fails_mac : tAniSirGlobal :=
  with_oracles 8 (fun t => bool_decide (t ≠ Single gLimHeartBeatTimer)) true
    sample_mac.

(** [sample_mac] with a CNF_WAIT array of three slots for its four
    stations. *)
Definition short_array_mac : tAniSirGlobal :=
  set_gpLimCnfWaitTimer (replicate 3 sample_timer) sample_mac.


(** ** Reconfiguration of the singleton timers *)

Section Reconfigure.
Context {platform : Platform}.

Lemma timer_deactivate_inactive x :
  tmrSignature x = TX_AIRGO_TMR_SIGNATURE →
  tmrActive (timer_deactivate x).1 = false
  ∧ tmrSignature (timer_deactivate x).1 = TX_AIRGO_TMR_SIGNATURE.
Proof.
  intros Hs. unfold timer_deactivate.
  rewrite (bool_decide_eq_true_2 _ Hs). by destruct (tmrActive x) eqn:E.
Qed.

Lemma timer_change_inactive i r x :
  tmrActive x = false →
  tmrSignature x = TX_AIRGO_TMR_SIGNATURE →
  tmrActive (timer_change i r x).1 = false
  ∧ tmrSignature (timer_change i r x).1 = TX_AIRGO_TMR_SIGNATURE.
Proof.
  intros Ha Hs. unfold timer_change.
  rewrite (bool_decide_eq_true_2 _ Hs), Ha. done.
Qed.

Lemma deactivate_change_inactive i r x :
  tmrSignature x = TX_AIRGO_TMR_SIGNATURE →
  tmrActive (timer_change i r (timer_deactivate x).1).1 = false
  ∧ tmrSignature (timer_change i r (timer_deactivate x).1).1
    = TX_AIRGO_TMR_SIGNATURE.
Proof.
  intros Hs. destruct (timer_deactivate_inactive x Hs).
  by apply timer_change_inactive.
Qed.

Ltac branch :=
  match goal with
  | |- context [bool_decide (eLIM_QUIET_RUNNING = ?q) && ?b] =>
      destruct (bool_decide (eLIM_QUIET_RUNNING = q) && b)
  | |- context [match gpLimMlmScanReq ?s with _ => _ end] =>
      destruct (gpLimMlmScanReq s)
  | |- context [bool_decide (gLimSystemRole ?s ≠ eLIM_AP_ROLE)] =>
      destruct (bool_decide (gLimSystemRole s ≠ eLIM_AP_ROLE))
  | |- context [bool_decide (default 0 ?o = 0)] =>
      destruct (bool_decide (default 0 o = 0))
  | |- context [(if bool_decide (?r ≠ TX_SUCCESS) then bind _ _ else _) _] =>
      destruct (bool_decide (r ≠ TX_SUCCESS))
  end.

(** Every case of [limDeactivateAndChangeTimer] at once. *)
Lemma reconfigure_run id s :
  ∃ s', final (limDeactivateAndChangeTimer id s) = Some s'
    ∧ reconfigure_post id s s'.
Proof.
  unfold reconfigure_post.
  destruct id; cbn [timer_of];
    unfold limDeactivateAndChangeTimer, deactivate_or_log, change_or_log;
    run.
  all: repeat (branch; run).
  all: (eexists; split; [reflexivity|]).
  all: calls; rewrite ?fn_lookup_insert.
  all: repeat match goal with |- _ ∧ _ => split end; try done.
  all: try (intros f Hf; rewrite ?fn_lookup_insert_ne by congruence; done).
  all: try (by left).
  all: try (right; by eauto).
  all: try (apply deactivate_change_inactive).
  all: try (apply timer_deactivate_inactive).
Qed.

(** ** Reconfiguration: what every case has in common *)

(** X1.  Every run of [limDeactivateAndChangeTimer] ends without a fault.
    For an identifier with a case of its own, the calls it makes to the
    time source are the deactivation of that identifier's timer, alone or
    followed by one change of the same timer: it never activates or
    creates a timer, never touches another timer through the time source,
    and never changes before deactivating.  For the other identifiers it
    makes no call at all. *)
Theorem reconfigure_call_shape (id : tLimTimerId) (s : tAniSirGlobal) :
  ∃ s', final (limDeactivateAndChangeTimer id s) = Some s'
    ∧ match timer_of id with
      | None => calls_made (limDeactivateAndChangeTimer id) s = []
      | Some f =>
          deactivate_then_change f (limTimers s f)
            (tx_calls (calls_made (limDeactivateAndChangeTimer id) s))
      end.
Proof.
  destruct (reconfigure_run id s) as (s' & E & H & _).
  exists s'. split; [done|]. unfold calls_made. rewrite E.
  destruct (timer_of id); [by destruct H|done].
Qed.

(** X2.  A run of [limDeactivateAndChangeTimer] leaves every singleton timer
    but the one of its identifier as it was, and leaves the CNF_WAIT
    array, the pre-auth table, the message queue and the configuration
    store untouched. *)
Theorem reconfigure_frame (id : tLimTimerId) (s : tAniSirGlobal) :
  ∃ s', final (limDeactivateAndChangeTimer id s) = Some s'
    ∧ (∀ f, timer_of id ≠ Some f → limTimers s' f = limTimers s f)
    ∧ gpLimCnfWaitTimer s' = gpLimCnfWaitTimer s
    ∧ gLimPreAuthTimerTable s' = gLimPreAuthTimerTable s
    ∧ limMsgQ s' = limMsgQ s
    ∧ cfg s' = cfg s.
Proof.
  destruct (reconfigure_run id s) as (s' & E & _ & H).
  by exists s'.
Qed.

(** X3.  When the timer of the identifier has been created (its signature is
    valid), it is inactive, and still created, after
    [limDeactivateAndChangeTimer], whichever case ran and whatever it
    changed: the timer does not fire again before it is activated. *)
Theorem reconfigure_leaves_inactive (id : tLimTimerId) (f : tLimTimerField)
    (s : tAniSirGlobal) :
  timer_of id = Some f →
  tmrSignature (limTimers s f) = TX_AIRGO_TMR_SIGNATURE →
  ∃ s', final (limDeactivateAndChangeTimer id s) = Some s'
    ∧ tmrActive (limTimers s' f) = false
    ∧ tmrSignature (limTimers s' f) = TX_AIRGO_TMR_SIGNATURE.
Proof.
  intros Hid Hsig.
  destruct (reconfigure_run id s) as (s' & E & H & _).
  exists s'. split; [done|]. rewrite Hid in H. destruct H as [_ H].
  by apply H.
Qed.

(** X4.  For the join, authentication, association and reassociation failure
    timers and the probe-after-heartbeat timer,
    [limDeactivateAndChangeTimer] makes exactly three calls: it
    deactivates the timer, reads the timer's configuration key, and
    changes the timer to that value in ticks with reload 0.  When the key
    cannot be read the value is the 0 the local started with, so the
    timer is changed to 0 ticks.  Each of the three calls that fails is
    logged at [LOGP], once, and nothing else is. *)
Theorem reconfigure_from_configuration (id : tLimTimerId) (k : tCfgKey)
    (f : tLimTimerField) (s : tAniSirGlobal) :
  cfg_timeout id = Some (k, f) →
  ∃ st1 st2,
    calls_made (limDeactivateAndChangeTimer id) s
    = [TxDeactivate (Single f) st1;
       CfgGetInt k (cfg_status (cfg s k));
       TxChange (Single f) (SYS_MS_TO_TICKS (default 0 (cfg s k))) 0 st2]
    ∧ length (logp_entries (entries_logged (limDeactivateAndChangeTimer id) s))
      = (tx_failed st1 + cfg_failed (cfg_status (cfg s k)) + tx_failed st2)%nat.
Proof.
  intros Hid.
  destruct id; try discriminate; injection Hid as <- <-;
    unfold calls_made, entries_logged, limDeactivateAndChangeTimer,
      deactivate_or_log, change_or_log;
    run; (do 2 eexists); (split; [calls; reflexivity|]);
    cbn; rewrite <- ?app_assoc, ?drop_own_length;
    rewrite ?fn_lookup_insert;
    match goal with
    | |- context [timer_change ?i ?r ?x] =>
        destruct (timer_change i r x).2
    end;
    match goal with
    | |- context [timer_deactivate ?x] => destruct (timer_deactivate x).2
    end;
    match goal with
    | |- context [cfg s ?k] => destruct (cfg s k)
    end; done.
Qed.


(** X6.  The ADDTS response case only deactivates: it increments
    [gLimAddtsRspTimerCount] (modulo 2^32) and calls [tx_timer_deactivate]
    on the ADDTS response timer, with no configuration lookup and no
    change of the timer. *)
Theorem addts_rsp_reconfigure (s : tAniSirGlobal) :
  ∃ s', limDeactivateAndChangeTimer eLIM_ADDTS_RSP_TIMER s = Ok tt s'
    ∧ gLimAddtsRspTimerCount s' = u32 (gLimAddtsRspTimerCount s + 1)
    ∧ calls_made (limDeactivateAndChangeTimer eLIM_ADDTS_RSP_TIMER) s
      = [TxDeactivate (Single gLimAddtsRspTimer)
           (timer_deactivate (limTimers s gLimAddtsRspTimer)).2].
Proof.
  unfold calls_made, limDeactivateAndChangeTimer, deactivate_or_log.
  run. eexists; split; [done|]. calls. done.
Qed.

(** X7.  The channel switch case is the one that stops on a failed
    deactivation.  When the deactivation succeeds the timer is changed to
    [gLimChannelSwitch.switchTimeoutValue] as it is, reload 0; when it
    fails the function logs at [LOGP] and returns, having made no other
    call. *)
Theorem channel_switch_reconfigure (s : tAniSirGlobal) :
  let st := (timer_deactivate (limTimers s gLimChannelSwitchTimer)).2 in
  (st = TX_SUCCESS →
   tx_changes
     (calls_made (limDeactivateAndChangeTimer eLIM_CHANNEL_SWITCH_TIMER) s)
   = [(Single gLimChannelSwitchTimer, switchTimeoutValue s, 0)])
  ∧ (st ≠ TX_SUCCESS →
     ∃ s', limDeactivateAndChangeTimer eLIM_CHANNEL_SWITCH_TIMER s
           = Returned s'
       ∧ calls_made (limDeactivateAndChangeTimer eLIM_CHANNEL_SWITCH_TIMER) s
         = [TxDeactivate (Single gLimChannelSwitchTimer) st]
       ∧ last (entries_logged
                 (limDeactivateAndChangeTimer eLIM_CHANNEL_SWITCH_TIMER) s)
         = Some (LimLog LOGP "tx_timer_deactivate failed!\n")).
Proof.
  intros st. subst st. split; intros Hst;
    unfold calls_made, entries_logged, limDeactivateAndChangeTimer; run.
  - rewrite bool_decide_eq_false_2 by (intros E; by apply E). run.
    match goal with
    | |- context [bool_decide (?r ≠ TX_SUCCESS)] =>
        destruct (bool_decide (r ≠ TX_SUCCESS))
    end; run; calls; done.
  - rewrite (bool_decide_eq_true_2 _ Hst). run.
    eexists; split; [done|]. calls.
    rewrite <- ?app_assoc, ?drop_own_length. done.
Qed.

(** X8.  The FT pre-auth response and the remain-on-channel timers are
    reconfigured to a fixed 1000 ms, in ticks, reload 0, with no
    configuration lookup. *)
Theorem fixed_second_reconfigure (s : tAniSirGlobal) :
  (∃ st1 st2,
     calls_made (limDeactivateAndChangeTimer eLIM_FT_PREAUTH_RSP_TIMER) s
     = [TxDeactivate (Single gLimFTPreAuthRspTimer) st1;
        TxChange (Single gLimFTPreAuthRspTimer) (SYS_MS_TO_TICKS 1000) 0 st2])
  ∧ (∃ st1 st2,
       calls_made (limDeactivateAndChangeTimer eLIM_REMAIN_CHN_TIMER) s
       = [TxDeactivate (Single gLimRemainOnChannelTimer) st1;
          TxChange (Single gLimRemainOnChannelTimer) (SYS_MS_TO_TICKS 1000) 0
            st2]).
Proof.
  split; unfold calls_made, limDeactivateAndChangeTimer, deactivate_or_log,
    change_or_log; run; calls; by do 2 eexists.
Qed.

(** X9.  In the AP role the max channel case takes neither the quiet duration
    nor the scan request: the timer is changed to the 0 ticks the local
    started with. *)
Theorem max_channel_in_ap_role (s : tAniSirGlobal) :
  gLimSystemRole s = eLIM_AP_ROLE →
  tx_changes
    (calls_made (limDeactivateAndChangeTimer eLIM_MAX_CHANNEL_TIMER) s)
  = [(Single gLimMaxChannelTimer, 0, 0)].
Proof.
  intros Hrole.
  unfold calls_made, limDeactivateAndChangeTimer, deactivate_or_log,
    change_or_log.
  run. rewrite Hrole.
  change (bool_decide (eLIM_AP_ROLE ≠ eLIM_AP_ROLE)) with false.
  run. calls. done.
Qed.

End Reconfigure.


(** X3, witness: a running join failure timer. *)
Lemma reconfigure_leaves_inactive_witness :
  tmrActive (limTimers armed_mac gLimJoinFailureTimer) = true
  ∧ ∃ s', final (@limDeactivateAndChangeTimer sample_platform
                   eLIM_JOIN_FAIL_TIMER armed_mac) = Some s'
      ∧ tmrActive (limTimers s' gLimJoinFailureTimer) = false.
Proof.
  split; [reflexivity|].
  destruct (@reconfigure_leaves_inactive sample_platform eLIM_JOIN_FAIL_TIMER
              gLimJoinFailureTimer armed_mac eq_refl eq_refl)
    as (s' & E & Ha & _).
  exists s'. split; assumption.
Defined.

(** X4, witness: an authentication failure timeout of 250 ms on a 10 ms
    tick. *)
Lemma reconfigure_from_configuration_witness :
  tx_changes
    (calls_made
       (@limDeactivateAndChangeTimer sample_platform eLIM_AUTH_FAIL_TIMER)
       (with_cfg (cfg_of [(WNI_CFG_AUTHENTICATE_FAILURE_TIMEOUT, 250)])
          sample_mac))
  = [(Single gLimAuthFailureTimer, 25, 0)].
Proof.
  destruct (@reconfigure_from_configuration sample_platform
              eLIM_AUTH_FAIL_TIMER _ _
              (with_cfg (cfg_of [(WNI_CFG_AUTHENTICATE_FAILURE_TIMEOUT, 250)])
                 sample_mac) eq_refl)
    as (st1 & st2 & Ec & _).
  rewrite Ec. reflexivity.
Defined.

(** X7, witness: a running channel switch timer is changed; an inactive
    one makes the function return. *)
Lemma channel_switch_reconfigure_witness :
  tx_changes
    (calls_made
       (@limDeactivateAndChangeTimer sample_platform eLIM_CHANNEL_SWITCH_TIMER)
       armed_mac)
  = [(Single gLimChannelSwitchTimer, 0, 0)]
  ∧ ∃ s', @limDeactivateAndChangeTimer sample_platform
            eLIM_CHANNEL_SWITCH_TIMER sample_mac = Returned s'.
Proof.
  split.
  - exact (proj1 (@channel_switch_reconfigure sample_platform armed_mac)
             eq_refl).
  - destruct (proj2 (@channel_switch_reconfigure sample_platform sample_mac))
      as (s' & E & _).
    + vm_compute. discriminate.
    + by exists s'.
Defined.

(** X9, witness: an access point with a scan request of 120 ms. *)
Lemma max_channel_in_ap_role_witness :
  tx_changes
    (calls_made
       (@limDeactivateAndChangeTimer sample_platform eLIM_MAX_CHANNEL_TIMER)
       (with_role eLIM_AP_ROLE
          (with_scanReq (Some (mkScanReq 40 120)) sample_mac)))
  = [(Single gLimMaxChannelTimer, 0, 0)].
Proof.
  exact (@max_channel_in_ap_role sample_platform
           (with_role eLIM_AP_ROLE
              (with_scanReq (Some (mkScanReq 40 120)) sample_mac)) eq_refl).
Defined.


(** ** The heartbeat cycle *)

Section HeartBeatCycle.
Context {platform : Platform}.

Lemma timer_change_after_deactivate i r x :
  tmrSignature x = TX_AIRGO_TMR_SIGNATURE →
  timer_change i r (timer_deactivate x).1
  = (mkTimer TX_AIRGO_TMR_SIGNATURE (pExpireFunc x) (expireInput x)
       (i * SYS_TICK_DUR_MS) (r * SYS_TICK_DUR_MS) (sessionId x) false,
     TX_SUCCESS).
Proof.
  intros Hs. unfold timer_change, timer_deactivate.
  rewrite (bool_decide_eq_true_2 _ Hs).
  destruct (tmrActive x) eqn:Ha; cbn; rewrite (bool_decide_eq_true_2 _ Hs);
    cbn; rewrite ?Ha, Hs; done.
Qed.

Lemma hb_change_eq sess val1_0 t s :
  cfg s WNI_CFG_HEART_BEAT_THRESHOLD = Some t →
  tmrSignature (limTimers s gLimHeartBeatTimer) = TX_AIRGO_TMR_SIGNATURE →
  limHeartBeatDeactivateAndChangeTimer sess val1_0 s
  = Ok tt (hb_changed sess t s).
Proof.
  intros Ht Hsig.
  unfold limHeartBeatDeactivateAndChangeTimer, deactivate_or_log,
    change_or_log, hb_changed.
  run. rewrite Ht. cbn [default cfg_miss_log cfg_status].
  rewrite !fn_lookup_insert.
  rewrite (timer_change_after_deactivate _ _ _ Hsig).
  cbn.
  rewrite <- !app_assoc. cbn.
  change (bool_decide (TX_SUCCESS ≠ TX_SUCCESS)) with false. cbn.
  done.
Qed.

Lemma hb_changed_timer sess t s :
  limTimers (hb_changed sess t s) gLimHeartBeatTimer
  = mkTimer TX_AIRGO_TMR_SIGNATURE
      (pExpireFunc (limTimers s gLimHeartBeatTimer))
      (expireInput (limTimers s gLimHeartBeatTimer))
      (SYS_MS_TO_TICKS (u32 (beaconInterval sess * t)) * SYS_TICK_DUR_MS)
      (0 * SYS_TICK_DUR_MS)
      (sessionId (limTimers s gLimHeartBeatTimer)) false.
Proof. unfold hb_changed. cbn. by rewrite fn_lookup_insert. Qed.

Lemma reactivate_eq sess val1_0 t s :
  cfg s WNI_CFG_HEART_BEAT_THRESHOLD = Some t →
  tmrSignature (limTimers s gLimHeartBeatTimer) = TX_AIRGO_TMR_SIGNATURE →
  limReactivateHeartBeatTimer sess val1_0 s
  = (let s1 :=
       set_logBuf
         (logBuf
            (hb_changed sess t
               (set_logBuf
                  (logBuf s ++ [LimLog LOG3 "Rxed Heartbeat. Count=%d\n"]) s))
          ++ [MacTrace TRACE_CODE_TIMER_ACTIVATE 0 eLIM_HEART_BEAT_TIMER])
         (hb_changed sess t
            (set_logBuf
               (logBuf s ++ [LimLog LOG3 "Rxed Heartbeat. Count=%d\n"]) s)) in
     if bool_decide
          (SYS_MS_TO_TICKS (u32 (beaconInterval sess * t)) * SYS_TICK_DUR_MS
           > 0)
     then
       bind (tx_timer_activate (Single gLimHeartBeatTimer))
         (fun r =>
            bind (when (bool_decide (r ≠ TX_SUCCESS))
                    (limLog LOGP "could not activate Heartbeat timer\n"))
              (fun _ => ret (limResetHBPktCount sess))) s1
     else Ok sess s1).
Proof.
  intros Ht Hsig. unfold limReactivateHeartBeatTimer.
  change (bind (limLog ?l ?m) ?k s)
    with (k tt (set_logBuf (logBuf s ++ [LimLog l m]) s)).
  cbv beta. rewrite bind_call.
  rewrite (hb_change_eq sess val1_0 t
             (set_logBuf
                (logBuf s ++ [LimLog LOG3 "Rxed Heartbeat. Count=%d\n"]) s)
             Ht Hsig).
  unfold bind at 1, macTrace at 1, modify at 1. unfold bind at 1, gets at 1.
  cbv zeta. cbn [logBuf limTimers set_logBuf].
  rewrite hb_changed_timer. cbn [initScheduleTimeInMsecs].
  by destruct (bool_decide _).
Qed.

Lemma bind_tx_timer_activate_single {B} f (k : tTxStatus → M B) s :
  bind (tx_timer_activate (Single f)) k s
  = k (timer_activate (limTimers s f)).2
      (set_extCalls
         (extCalls s ++ [TxActivate (Single f) (timer_activate (limTimers s f)).2])
         (set_limTimers (<[f := (timer_activate (limTimers s f)).1]> (limTimers s))
            s)).
Proof. reflexivity. Qed.

(** X10.  [limReactivateHeartBeatTimer] on a created heartbeat timer with the
    threshold configured: the timer is deactivated and changed to the
    session's beacon interval times the threshold, in ticks.  When that
    schedule is positive the timer is activated and the session's
    heartbeat packet count is reset; when it is not (a product of less
    than one tick) the timer is left inactive and the session is returned
    as it came. *)
Theorem heartbeat_reactivation (s : tAniSirGlobal) (sess : tPESession)
    (val1_0 t : Z) :
  let hb := limTimers s gLimHeartBeatTimer in
  let ticks := SYS_MS_TO_TICKS (u32 (beaconInterval sess * t)) in
  let armed := bool_decide (ticks * SYS_TICK_DUR_MS > 0) in
  cfg s WNI_CFG_HEART_BEAT_THRESHOLD = Some t →
  tmrSignature hb = TX_AIRGO_TMR_SIGNATURE →
  ∃ s',
    limReactivateHeartBeatTimer sess val1_0 s
    = Ok (if armed then limResetHBPktCount sess else sess) s'
    ∧ tx_calls (calls_made (limReactivateHeartBeatTimer sess val1_0) s)
      = [TxDeactivate (Single gLimHeartBeatTimer) (timer_deactivate hb).2;
         TxChange (Single gLimHeartBeatTimer) ticks 0 TX_SUCCESS]
        ++ (if armed
            then [TxActivate (Single gLimHeartBeatTimer) TX_SUCCESS]
            else [])
    ∧ tmrActive (limTimers s' gLimHeartBeatTimer) = armed
    ∧ initScheduleTimeInMsecs (limTimers s' gLimHeartBeatTimer)
      = ticks * SYS_TICK_DUR_MS.
Proof.
  intros hb ticks armed Ht Hsig. subst hb ticks armed.
  unfold calls_made. rewrite (reactivate_eq sess val1_0 t s Ht Hsig).
  cbv zeta.
  destruct (bool_decide (_ > 0)).
  - rewrite bind_tx_timer_activate_single.
    cbn [limTimers set_logBuf]. rewrite hb_changed_timer.
    unfold timer_activate. cbn [tmrSignature].
    rewrite (bool_decide_eq_true_2
               (TX_AIRGO_TMR_SIGNATURE = TX_AIRGO_TMR_SIGNATURE) eq_refl).
    cbn [fst snd]. rewrite bind_when_limLog.
    eexists; split; [reflexivity|].
    unfold hb_changed. calls. by rewrite fn_lookup_insert.
  - eexists; split; [reflexivity|].
    unfold hb_changed. calls. by rewrite fn_lookup_insert.
Qed.

End HeartBeatCycle.


(** X10, witness: beacon interval 100 ms and threshold 40 arm the timer
    for 4000 ms and reset the session; beacon interval 3 ms and threshold
    2, less than a tick, leave it idle. *)
Lemma heartbeat_reactivation_witness :
  let s := with_cfg (cfg_of [(WNI_CFG_HEART_BEAT_THRESHOLD, 40)]) sample_mac in
  (∃ s', @limReactivateHeartBeatTimer sample_platform (mkSession 0 100 5) 0 s
         = Ok (mkSession 0 100 0) s'
     ∧ tmrActive (limTimers s' gLimHeartBeatTimer) = true
     ∧ initScheduleTimeInMsecs (limTimers s' gLimHeartBeatTimer) = 4000)
  ∧ (∃ s', @limReactivateHeartBeatTimer sample_platform (mkSession 0 3 5) 0
             (with_cfg (cfg_of [(WNI_CFG_HEART_BEAT_THRESHOLD, 2)]) sample_mac)
           = Ok (mkSession 0 3 5) s'
       ∧ tmrActive (limTimers s' gLimHeartBeatTimer) = false).
Proof.
  intros s. split.
  - destruct (@heartbeat_reactivation sample_platform s (mkSession 0 100 5)
                0 40 eq_refl eq_refl) as (s' & E & _ & Ha & Hi).
    exists s'. repeat split; assumption.
  - destruct (@heartbeat_reactivation sample_platform
                (with_cfg (cfg_of [(WNI_CFG_HEART_BEAT_THRESHOLD, 2)])
                   sample_mac)
                (mkSession 0 3 5) 0 2 eq_refl eq_refl)
      as (s' & E & _ & Ha & Hi).
    exists s'. split; assumption.
Defined.


(** ** Per-station timers, index in range *)

Section PerStationTimers.
Context {platform : Platform}.

Lemma bind_tx_timer_deactivate_of {B} t x (k : tTxStatus → M B) s s1 :
  read_timer t s = Ok x s →
  write_timer t (timer_deactivate x).1 s = Ok tt s1 →
  bind (tx_timer_deactivate t) k s
  = k (timer_deactivate x).2
      (set_extCalls (extCalls s1 ++ [TxDeactivate t (timer_deactivate x).2]) s1).
Proof.
  intros Hr Hw. unfold tx_timer_deactivate, bind. rewrite Hr, Hw. done.
Qed.

Lemma bind_tx_timer_change_of {B} t i r x (k : tTxStatus → M B) s s1 :
  read_timer t s = Ok x s →
  write_timer t (timer_change i r x).1 s = Ok tt s1 →
  bind (tx_timer_change t i r) k s
  = k (timer_change i r x).2
      (set_extCalls (extCalls s1 ++ [TxChange t i r (timer_change i r x).2]) s1).
Proof.
  intros Hr Hw. unfold tx_timer_change, bind. rewrite Hr, Hw. done.
Qed.

Lemma bind_tx_timer_activate_of {B} t x (k : tTxStatus → M B) s s1 :
  read_timer t s = Ok x s →
  write_timer t (timer_activate x).1 s = Ok tt s1 →
  bind (tx_timer_activate t) k s
  = k (timer_activate x).2
      (set_extCalls (extCalls s1 ++ [TxActivate t (timer_activate x).2]) s1).
Proof.
  intros Hr Hw. unfold tx_timer_activate, bind. rewrite Hr, Hw. done.
Qed.

Lemma read_cnf i x s :
  gpLimCnfWaitTimer s !! i = Some x → read_timer (CnfWait i) s = Ok x s.
Proof. intros H. unfold read_timer. by rewrite H. Qed.

Lemma write_cnf i x y s :
  gpLimCnfWaitTimer s !! i = Some x →
  write_timer (CnfWait i) y s
  = Ok tt (set_gpLimCnfWaitTimer (<[i := y]> (gpLimCnfWaitTimer s)) s).
Proof. intros H. unfold write_timer. by rewrite H. Qed.

Lemma cnf_change_eq staId val0 x s :
  gpLimCnfWaitTimer s !! Z.to_nat staId = Some x →
  limDeactivateAndChangePerStaIdTimer eLIM_CNF_WAIT_TIMER staId val0 s
  = Ok tt (cnf_changed (Z.to_nat staId) x val0 s).
Proof.
  intros Hx.
  assert (Hi : (Z.to_nat staId < length (gpLimCnfWaitTimer s))%nat)
    by (by eapply lookup_lt_Some).
  unfold limDeactivateAndChangePerStaIdTimer, deactivate_or_log,
    change_or_log, cnf_changed.
  change (bind (macTrace ?c ?n ?d) ?k s)
    with (k tt (set_logBuf (logBuf s ++ [MacTrace c n d]) s)).
  cbv beta. rewrite !bind_assoc.
  erewrite bind_tx_timer_deactivate_of;
    [|by apply read_cnf|by eapply write_cnf].
  rewrite bind_when_limLog, bind_cfgGetInt_or_log.
  cbn [cfg logBuf extCalls gpLimCnfWaitTimer set_logBuf set_extCalls
       set_gpLimCnfWaitTimer].
  erewrite bind_tx_timer_change_of;
    [|apply read_cnf; cbn; by apply list_lookup_insert_eq
     |eapply write_cnf; cbn; by apply list_lookup_insert_eq].
  rewrite when_limLog.
  cbn [cfg logBuf extCalls gpLimCnfWaitTimer set_logBuf set_extCalls
       set_gpLimCnfWaitTimer].
  rewrite list_insert_insert_eq, <- !app_assoc.
  destruct s; reflexivity.
Qed.

(** X11.  For a station index inside the CNF_WAIT array,
    [limDeactivateAndChangePerStaIdTimer] deactivates that slot's timer,
    reads [WNI_CFG_WT_CNF_TIMEOUT] and changes the slot to the value in
    ticks, with a reload equal to the initial ticks.  No other slot, no
    singleton timer and no pre-auth node changes. *)
Theorem cnf_wait_reconfigure (s : tAniSirGlobal) (staId val0 : Z)
    (x : TX_TIMER) :
  let i := Z.to_nat staId in
  let v := SYS_MS_TO_TICKS (default val0 (cfg s WNI_CFG_WT_CNF_TIMEOUT)) in
  let x' := timer_change v v (timer_deactivate x).1 in
  gpLimCnfWaitTimer s !! i = Some x →
  ∃ s', limDeactivateAndChangePerStaIdTimer eLIM_CNF_WAIT_TIMER staId val0 s
        = Ok tt s'
    ∧ calls_made
        (limDeactivateAndChangePerStaIdTimer eLIM_CNF_WAIT_TIMER staId val0) s
      = [TxDeactivate (CnfWait i) (timer_deactivate x).2;
         CfgGetInt WNI_CFG_WT_CNF_TIMEOUT
           (cfg_status (cfg s WNI_CFG_WT_CNF_TIMEOUT));
         TxChange (CnfWait i) v v x'.2]
    ∧ gpLimCnfWaitTimer s' = <[i := x'.1]> (gpLimCnfWaitTimer s)
    ∧ limTimers s' = limTimers s
    ∧ gLimPreAuthTimerTable s' = gLimPreAuthTimerTable s.
Proof.
  intros i v x' Hx. subst i v x'.
  unfold calls_made. rewrite (cnf_change_eq staId val0 x s Hx).
  eexists; split; [reflexivity|].
  unfold cnf_changed, calls_between. cbn. by rewrite drop_own_length.
Qed.

Lemma read_preauth i l n s :
  pTable (gLimPreAuthTimerTable s) = Some l → l !! i = Some n →
  read_timer (PreAuth i) s = Ok (timer n) s.
Proof. intros Ht Hn. unfold read_timer. by rewrite Ht, Hn. Qed.

Lemma write_preauth i l n y s :
  pTable (gLimPreAuthTimerTable s) = Some l → l !! i = Some n →
  write_timer (PreAuth i) y s
  = Ok tt (set_gLimPreAuthTimerTable
             (mkPreAuthTable (numEntry (gLimPreAuthTimerTable s))
                (Some (<[i := mkPreAuthNode y (authNodeIdx n) (fFree n)]> l)))
             s).
Proof. intros Ht Hn. unfold write_timer. by rewrite Ht, Hn. Qed.

Lemma auth_change_eq staId val0 i l n s :
  limGetPreAuthNodeFromIndex (gLimPreAuthTimerTable s) staId = Some i →
  pTable (gLimPreAuthTimerTable s) = Some l → l !! i = Some n →
  limDeactivateAndChangePerStaIdTimer eLIM_AUTH_RSP_TIMER staId val0 s
  = Ok tt (auth_changed i l n val0 s).
Proof.
  intros Hg Ht Hn.
  assert (Hi : (i < length l)%nat) by (by eapply lookup_lt_Some).
  unfold limDeactivateAndChangePerStaIdTimer, deactivate_or_log,
    change_or_log, auth_changed.
  change (bind (macTrace ?c ?k0 ?d) ?k s)
    with (k tt (set_logBuf (logBuf s ++ [MacTrace c k0 d]) s)).
  cbv beta.
  change (bind (gets ?g) ?k ?st) with (k (g st) st).
  cbv beta. cbn [gLimPreAuthTimerTable set_logBuf]. rewrite Hg.
  rewrite !bind_assoc.
  erewrite bind_tx_timer_deactivate_of;
    [|by eapply read_preauth|by eapply write_preauth].
  rewrite bind_when_limLog, bind_cfgGetInt_or_log.
  cbn [cfg logBuf extCalls gLimPreAuthTimerTable set_logBuf set_extCalls
       set_gLimPreAuthTimerTable numEntry pTable].
  erewrite bind_tx_timer_change_of;
    [|eapply read_preauth; cbn; [reflexivity|by apply list_lookup_insert_eq]
     |eapply write_preauth; cbn; [reflexivity|by apply list_lookup_insert_eq]].
  rewrite when_limLog.
  cbn [cfg logBuf extCalls gLimPreAuthTimerTable set_logBuf set_extCalls
       set_gLimPreAuthTimerTable numEntry pTable timer authNodeIdx fFree].
  rewrite list_insert_insert_eq, <- !app_assoc.
  destruct s; reflexivity.
Qed.

(** X12.  When the pre-auth lookup finds node [i],
    [limDeactivateAndChangePerStaIdTimer] deactivates that node's timer,
    reads [WNI_CFG_AUTHENTICATE_RSP_TIMEOUT] and changes the timer to the
    value in ticks, reload 0.  The node keeps its index and its free
    flag; no other node, no singleton timer and no CNF_WAIT slot
    changes. *)
Theorem auth_rsp_reconfigure (s : tAniSirGlobal) (staId val0 : Z) (i : nat)
    (l : list tLimPreAuthNode) (n : tLimPreAuthNode) :
  let v :=
    SYS_MS_TO_TICKS (default val0 (cfg s WNI_CFG_AUTHENTICATE_RSP_TIMEOUT)) in
  let x' := timer_change v 0 (timer_deactivate (timer n)).1 in
  limGetPreAuthNodeFromIndex (gLimPreAuthTimerTable s) staId = Some i →
  pTable (gLimPreAuthTimerTable s) = Some l →
  l !! i = Some n →
  ∃ s', limDeactivateAndChangePerStaIdTimer eLIM_AUTH_RSP_TIMER staId val0 s
        = Ok tt s'
    ∧ calls_made
        (limDeactivateAndChangePerStaIdTimer eLIM_AUTH_RSP_TIMER staId val0) s
      = [TxDeactivate (PreAuth i) (timer_deactivate (timer n)).2;
         CfgGetInt WNI_CFG_AUTHENTICATE_RSP_TIMEOUT
           (cfg_status (cfg s WNI_CFG_AUTHENTICATE_RSP_TIMEOUT));
         TxChange (PreAuth i) v 0 x'.2]
    ∧ pTable (gLimPreAuthTimerTable s')
      = Some (<[i := mkPreAuthNode x'.1 (authNodeIdx n) (fFree n)]> l)
    ∧ numEntry (gLimPreAuthTimerTable s') = numEntry (gLimPreAuthTimerTable s)
    ∧ limTimers s' = limTimers s
    ∧ gpLimCnfWaitTimer s' = gpLimCnfWaitTimer s.
Proof.
  intros v x' Hg Ht Hn. subst v x'.
  unfold calls_made. rewrite (auth_change_eq staId val0 i l n s Hg Ht Hn).
  eexists; split; [reflexivity|].
  unfold auth_changed, calls_between. cbn. by rewrite drop_own_length.
Qed.

Lemma cnf_activate_eq staId sess x s :
  gpLimCnfWaitTimer s !! Z.to_nat staId = Some x →
  limActivateCnfTimer staId sess s
  = Ok tt (cnf_activated (Z.to_nat staId) x sess s).
Proof.
  intros Hx.
  assert (Hi : (Z.to_nat staId < length (gpLimCnfWaitTimer s))%nat)
    by (by eapply lookup_lt_Some).
  unfold limActivateCnfTimer, cnf_activated, with_session.
  change (bind (macTrace ?c ?n ?d) ?k s)
    with (k tt (set_logBuf (logBuf s ++ [MacTrace c n d]) s)).
  cbv beta.
  unfold bind at 1. rewrite (read_cnf _ x) by done.
  unfold bind at 1. rewrite (write_cnf _ x) by done.
  erewrite bind_tx_timer_activate_of;
    [|apply read_cnf; cbn; by apply list_lookup_insert_eq
     |eapply write_cnf; cbn; by apply list_lookup_insert_eq].
  rewrite when_limLog.
  cbn [cfg logBuf extCalls gpLimCnfWaitTimer set_logBuf set_extCalls
       set_gpLimCnfWaitTimer].
  rewrite list_insert_insert_eq, <- !app_assoc.
  destruct s; reflexivity.
Qed.

Lemma timer_activate_session x :
  sessionId (timer_activate x).1 = sessionId x.
Proof. unfold timer_activate. by destruct (bool_decide _). Qed.

(** X13.  For a station index inside the CNF_WAIT array, [limActivateCnfTimer]
    stores the session's id in that slot's timer and then activates it:
    one call to the time source.  The stored session id is there whether
    or not the activation succeeds; no other slot changes. *)
Theorem activate_cnf_timer (s : tAniSirGlobal) (staId : Z)
    (sess : tPESession) (x : TX_TIMER) :
  let i := Z.to_nat staId in
  let x1 := with_session x sess in
  gpLimCnfWaitTimer s !! i = Some x →
  ∃ s', limActivateCnfTimer staId sess s = Ok tt s'
    ∧ calls_made (limActivateCnfTimer staId sess) s
      = [TxActivate (CnfWait i) (timer_activate x1).2]
    ∧ gpLimCnfWaitTimer s' = <[i := (timer_activate x1).1]> (gpLimCnfWaitTimer s)
    ∧ sessionId (timer_activate x1).1 = peSessionId sess
    ∧ limTimers s' = limTimers s
    ∧ gLimPreAuthTimerTable s' = gLimPreAuthTimerTable s.
Proof.
  intros i x1 Hx. subst i x1.
  unfold calls_made. rewrite (cnf_activate_eq staId sess x s Hx).
  eexists; split; [reflexivity|].
  unfold cnf_activated, calls_between. cbn. rewrite drop_own_length.
  by rewrite timer_activate_session.
Qed.


End PerStationTimers.


(** X11, witness: slot 2 of four, timeout 1000 ms. *)
Lemma cnf_wait_reconfigure_witness :
  let s := with_cfg (cfg_of [(WNI_CFG_WT_CNF_TIMEOUT, 1000)]) sample_mac in
  gpLimCnfWaitTimer s !! 2%nat = Some sample_timer
  ∧ tx_changes
      (calls_made
         (@limDeactivateAndChangePerStaIdTimer sample_platform
            eLIM_CNF_WAIT_TIMER 2 0) s)
    = [(CnfWait 2, 100, 100)].
Proof.
  intros s. split; [reflexivity|].
  destruct (@cnf_wait_reconfigure sample_platform s 2 0 sample_timer eq_refl)
    as (s' & _ & Ec & _).
  rewrite Ec. reflexivity.
Defined.

(** X12, witness: node 1 of four, timeout 300 ms. *)
Lemma auth_rsp_reconfigure_witness :
  let s := with_cfg (cfg_of [(WNI_CFG_AUTHENTICATE_RSP_TIMEOUT, 300)])
             sample_mac in
  limGetPreAuthNodeFromIndex (gLimPreAuthTimerTable s) 1 = Some 1%nat
  ∧ tx_changes
      (calls_made
         (@limDeactivateAndChangePerStaIdTimer sample_platform
            eLIM_AUTH_RSP_TIMER 1 0) s)
    = [(PreAuth 1, 30, 0)].
Proof.
  intros s. split; [reflexivity|].
  destruct (@auth_rsp_reconfigure sample_platform s 1 0 1%nat
              (replicate 4 (mkPreAuthNode sample_timer 0 true))
              (mkPreAuthNode sample_timer 0 true) eq_refl eq_refl eq_refl)
    as (s' & _ & Ec & _).
  rewrite Ec. reflexivity.
Defined.

(** X13, witness: slot 3 of four, session 7. *)
Lemma activate_cnf_timer_witness :
  ∃ s', @limActivateCnfTimer sample_platform 3 (mkSession 7 100 0) sample_mac
        = Ok tt s'
    ∧ gpLimCnfWaitTimer s' !! 3%nat
      = Some (mkTimer 3735928559 (Some cb_limTimerHandler) 0 500 0 7 true).
Proof.
  destruct (@activate_cnf_timer sample_platform sample_mac 3
              (mkSession 7 100 0) sample_timer eq_refl)
    as (s' & E & _ & Ea & _).
  exists s'. split; [exact E|]. rewrite Ea. reflexivity.
Defined.



(** ** Creation: [limCreateTimers] *)

(** *** Equations and frames *)

Section CreateBasics.
Context {platform : Platform}.

Lemma bind_tx_timer_create_single {B} f name cb input i r a
    (k : tTxStatus -> M B) s :
  bind (tx_timer_create (Single f) name cb input i r a) k s =
  k (create_status (txCreateOk s (Single f)))
    (set_extCalls
       (extCalls s ++
        [TxCreate (Single f) name cb input i r a
           (create_status (txCreateOk s (Single f)))])
       (set_limTimers
          (if txCreateOk s (Single f)
           then <[f := timer_create cb input i r a (limTimers s f)]> (limTimers s)
           else limTimers s) s)).
Proof.
  unfold bind, tx_timer_create, read_timer, gets. cbn.
  destruct (txCreateOk s (Single f)); cbn; [done|].
  by destruct s.
Qed.

Lemma bind_if_modify {V B} (g : V -> tAniSirGlobal -> tAniSirGlobal)
    (b : bool) (x y : V) (a c : Z) (k : Z -> M B) s :
  bind (if b then bind (modify (g x)) (fun _ => ret a)
        else bind (modify (g y)) (fun _ => ret c)) k s =
  k (if b then a else c) (g (if b then x else y) s).
Proof. by destruct b. Qed.

Lemma cnf_creates_app l l' :
  cnf_creates (l ++ l') = cnf_creates l ++ cnf_creates l'.
Proof. apply omap_app. Qed.

Lemma pool_frame_refl s : pool_frame [] s s.
Proof.
  split; try done; exists []; by rewrite app_nil_r.
Qed.

Lemma pool_frame_trans c1 c2 s1 s2 s3 :
  pool_frame c1 s1 s2 → pool_frame c2 s2 s3 → pool_frame (c1 ++ c2) s1 s3.
Proof.
  intros [] []. split; try congruence.
  - destruct pf_log0 as (l1 & E1), pf_log1 as (l2 & E2).
    exists (l1 ++ l2). by rewrite E2, E1, app_assoc.
  - destruct pf_calls0 as (l1 & E1 & F1 & G1),
      pf_calls1 as (l2 & E2 & F2 & G2).
    exists (l1 ++ l2). rewrite E2, E1, app_assoc. split; [done|].
    by rewrite forallb_app, F1, F2, cnf_creates_app, G1, G2.
Qed.

Lemma cnfWait_body_spec c i s :
  (i < length (gpLimCnfWaitTimer s))%nat →
  ∃ s', limCreateTimers_cnfWait_body c i s = Ok tt s'
        ∧ pool_frame (cnf_plan c i 1) s s'.
Proof.
  intros Hi. destruct (lookup_lt_is_Some_2 _ _ Hi) as [x Hx].
  unfold limCreateTimers_cnfWait_body, tx_timer_create, bind, read_timer,
    write_timer, gets.
  rewrite Hx. destruct (txCreateOk s (CnfWait i)) eqn:Hok; cbn;
    rewrite ?Hx; cbn; rewrite when_limLog;
    (eexists; split; [reflexivity|]); split; cbn; try done;
    try (by eexists).
  by rewrite length_insert.
Qed.

Lemma cnfWait_loop_spec c n : ∀ i s,
  (i + n ≤ length (gpLimCnfWaitTimer s))%nat →
  ∃ s', for_loop n i (limCreateTimers_cnfWait_body c) s = Ok tt s'
        ∧ pool_frame (cnf_plan c i n) s s'.
Proof.
  induction n as [|n IH]; intros i s Hlen; cbn.
  - exists s. split; [done|apply pool_frame_refl].
  - destruct (cnfWait_body_spec c i s ltac:(lia)) as (s1 & E1 & F1).
    unfold bind at 1. rewrite E1.
    destruct (IH (S i) s1) as (s2 & E2 & F2).
    { rewrite (pf_cnf _ _ _ F1). lia. }
    exists s2. split; [done|].
    exact (pool_frame_trans _ _ _ _ _ F1 F2).
Qed.

Lemma cnfWait_spec c s :
  (Z.to_nat (maxStation s) ≤ length (gpLimCnfWaitTimer s))%nat →
  ∃ s', limCreateTimers_cnfWait c s = Ok tt s'
        ∧ pool_frame (cnf_plan c 0 (Z.to_nat (maxStation s))) s s'.
Proof.
  intros Hlen. unfold limCreateTimers_cnfWait, bind, gets.
  by apply cnfWait_loop_spec.
Qed.

Lemma preAuth_node_spec c i s l :
  pTable (gLimPreAuthTimerTable s) = Some l → (i < length l)%nat →
  ∃ s', limInitPreAuthTimerTable_node c i s = Ok tt s'
        ∧ pool_frame [] s s'.
Proof.
  intros Ht Hi. destruct (lookup_lt_is_Some_2 _ _ Hi) as [x Hx].
  unfold limInitPreAuthTimerTable_node, tx_timer_create, bind, read_timer,
    write_timer, gets, set_node_free, modify.
  rewrite Ht, Hx. destruct (txCreateOk s (PreAuth i)) eqn:Hok; cbn;
    rewrite ?Ht, ?Hx; cbn; rewrite when_limLog; cbn; rewrite ?Ht, ?Hx; cbn.
  - rewrite list_lookup_insert_eq by done.
    eexists; split; [reflexivity|]. split; cbn; try done;
      try (by eexists).
    rewrite Ht. cbn. by rewrite !length_insert.
  - eexists; split; [reflexivity|]. split; cbn; try done;
      try (by eexists).
    rewrite Ht. cbn. by rewrite !length_insert.
Qed.

Lemma preAuth_loop_spec c n : ∀ i s l,
  pTable (gLimPreAuthTimerTable s) = Some l → (i + n ≤ length l)%nat →
  ∃ s', for_loop n i (limInitPreAuthTimerTable_node c) s = Ok tt s'
        ∧ pool_frame [] s s'.
Proof.
  induction n as [|n IH]; intros i s l Ht Hlen; cbn.
  - exists s. split; [done|apply pool_frame_refl].
  - destruct (preAuth_node_spec c i s l Ht ltac:(lia)) as (s1 & E1 & F1).
    unfold bind at 1. rewrite E1.
    pose proof (pf_table _ _ _ F1) as Hl. rewrite Ht in Hl. cbn in Hl.
    destruct (pTable (gLimPreAuthTimerTable s1)) as [l1|] eqn:Ht1; [|done].
    injection Hl as Hl.
    destruct (IH (S i) s1 l1 Ht1) as (s2 & E2 & F2); [lia|].
    exists s2. split; [done|].
    exact (pool_frame_trans _ _ _ _ _ F1 F2).
Qed.

Lemma initTable_spec s l :
  pTable (gLimPreAuthTimerTable s) = Some l →
  (Z.to_nat (numEntry (gLimPreAuthTimerTable s)) ≤ length l)%nat →
  match limInitPreAuthTimerTable s with
  | Ok _ s' | Returned s' => pool_frame [] s s'
  | Crash _ => False
  end.
Proof.
  intros Ht Hlen. unfold limInitPreAuthTimerTable, wlan_cfgGetInt, bind, gets.
  cbn. destruct (cfg s WNI_CFG_AUTHENTICATE_RSP_TIMEOUT) as [v|]; cbn.
  - case_bool_decide as Hd; [by destruct Hd|].
    match goal with |- context [for_loop ?n ?i ?b ?st] =>
      destruct (preAuth_loop_spec v n i st l Ht Hlen) as (s' & E & F) end.
    rewrite E. refine (pool_frame_trans [] [] _ _ _ _ F).
    split; cbn; try done; [by exists []; rewrite app_nil_r|by eexists].
  - case_bool_decide as Hd; [|done]. cbn.
    split; cbn; try done; by eexists.
Qed.

Lemma bind_ok {A B} (m : M A) (k : A -> M B) s a s1 :
  m s = Ok a s1 → bind m k s = k a s1.
Proof. unfold bind. by intros ->. Qed.

Lemma single_creates_app l l' :
  single_creates (l ++ l') = single_creates l ++ single_creates l'.
Proof. apply omap_app. Qed.

Lemma keepalive_creates_app l l' :
  keepalive_creates (l ++ l') = keepalive_creates l ++ keepalive_creates l'.
Proof. apply omap_app. Qed.

Lemma bgscan_creates_app l l' :
  bgscan_creates (l ++ l') = bgscan_creates l ++ bgscan_creates l'.
Proof. apply omap_app. Qed.

Lemma pool_calls_omap {X} (pick : ExtCall -> option X) l :
  (∀ c, is_pool_call c = true → pick c = None) →
  forallb is_pool_call l = true → omap pick l = [].
Proof.
  intros Hp. induction l as [|c l IH]; cbn; [done|].
  intros [Hc Hl]%andb_true_iff. rewrite (Hp c Hc). by apply IH.
Qed.

Lemma pool_calls_no_single l :
  forallb is_pool_call l = true →
  single_creates l = [] ∧ keepalive_creates l = [] ∧ bgscan_creates l = [].
Proof.
  intros Hl. repeat split; apply pool_calls_omap; try done;
    intros [[]| | | | | |]; try done; cbn; by destruct k.
Qed.

Lemma bind_palAllocateMemory_pTable {B} n (k : tHalStatus -> M B) s :
  bind (palAllocateMemory_pTable n) k s =
  if palAllocOk s then
    k eHAL_STATUS_SUCCESS
      (set_extCalls (extCalls s ++ [PalAllocate n eHAL_STATUS_SUCCESS])
         (set_gLimPreAuthTimerTable
            (mkPreAuthTable (numEntry (gLimPreAuthTimerTable s))
               (Some (replicate (Z.to_nat n)
                        (mkPreAuthNode blank_timer 0 false)))) s))
  else
    k eHAL_STATUS_FAILURE
      (set_extCalls (extCalls s ++ [PalAllocate n eHAL_STATUS_FAILURE]) s).
Proof.
  unfold bind, palAllocateMemory_pTable, gets. cbn.
  destruct (palAllocOk s) eqn:E; cbn; rewrite ?E; done.
Qed.

Lemma last_app_ne {A} (l1 l2 : list A) x :
  last l2 = Some x → last (l1 ++ l2) = Some x.
Proof. intros H. by rewrite last_app, H. Qed.

Lemma last_cons_ne {A} (x0 : A) l x :
  last l = Some x → last (x0 :: l) = Some x.
Proof. intros H. by rewrite last_cons, H. Qed.

Lemma create_guard ok :
  bool_decide (create_status ok ≠ TX_SUCCESS) = negb ok.
Proof. by destruct ok. Qed.

Lemma last_when_log (Q : result unit → Prop) (b : bool) lvl msg s :
  Q (Ok tt (set_logBuf (logBuf s ++ if b then [LimLog lvl msg] else []) s)) →
  Q (when b (limLog lvl msg) s).
Proof. by rewrite when_limLog. Qed.

Lemma if_true_false (b : bool) : (if b then true else false) = b.
Proof. by destruct b. Qed.

Lemma guards_ok_frame s s' l :
  txCreateOk s' = txCreateOk s → guards_ok s' l = guards_ok s l.
Proof. unfold guards_ok. by intros ->. Qed.

Lemma prefix_after {X} (k l1 l2 : list X) :
  l1 `prefix_of` l2 → k ++ l1 `prefix_of` k ++ l2.
Proof. intros [r ->]. exists r. by rewrite app_assoc. Qed.

Lemma prefix_before {X} (l1 l2 k : list X) :
  l1 `prefix_of` l2 → l1 `prefix_of` l2 ++ k.
Proof. intros [r ->]. exists (r ++ k). by rewrite app_assoc. Qed.

End CreateBasics.


#[local] Arguments tx_timer_create : simpl never.
#[local] Arguments limCreateTimers_cnfWait : simpl never.
#[local] Arguments limInitPreAuthTimerTable : simpl never.
#[local] Arguments palAllocateMemory_pTable : simpl never.
#[local] Arguments nonAp_post : simpl never.
#[local] Arguments rest_post : simpl never.
#[local] Arguments create_post : simpl never.
#[local] Arguments cnf_plan : simpl never.
#[local] Arguments tail_guards_ok : simpl never.
#[local] Arguments nonAp_guards_ok : simpl never.
#[local] Arguments tail_bgscan_reached : simpl never.

(** *** Stepping rules

    A property of the result of a run follows from the property of the
    run continued after its first step.  The call log is kept in the form
    [pre ++ l], so that the calls added since [pre] stay an explicit
    list. *)

Section CreateSteps.
Context {platform : Platform}.
Context {A : Type} (Q : result A → Prop).

Lemma step_assoc {X Y} (m : M X) (f : X → M Y) (g : Y → M A) s :
  Q (bind m (fun a => bind (f a) g) s) → Q (bind (bind m f) g s).
Proof. by rewrite bind_assoc. Qed.

Lemma step_when_log (b : bool) lvl msg (k : unit → M A) s :
  Q (k tt (set_logBuf (logBuf s ++ if b then [LimLog lvl msg] else []) s)) →
  Q (bind (when b (limLog lvl msg)) k s).
Proof. by rewrite bind_when_limLog. Qed.

Lemma step_log lvl msg (k : unit → M A) s :
  Q (k tt (set_logBuf (logBuf s ++ [LimLog lvl msg]) s)) →
  Q (bind (limLog lvl msg) k s).
Proof. done. Qed.

Lemma step_cfg key cur msg (k : Z → M A) s pre l :
  extCalls s = pre ++ l →
  Q (k (default cur (cfg s key))
       (set_logBuf (logBuf s ++ cfg_miss_log (cfg s key) msg)
          (set_extCalls
             (pre ++ (l ++ [CfgGetInt key (cfg_status (cfg s key))])) s))) →
  Q (bind (cfgGetInt_or_log key cur msg) k s).
Proof. intros E. by rewrite bind_cfgGetInt_or_log, E, app_assoc. Qed.

Lemma step_create f name cb input i r a (k : tTxStatus → M A) s pre l :
  extCalls s = pre ++ l →
  (∀ timers,
     Q (k (create_status (txCreateOk s (Single f)))
          (set_extCalls
             (pre ++ (l ++
              [TxCreate (Single f) name cb input i r a
                 (create_status (txCreateOk s (Single f)))]))
             (set_limTimers timers s)))) →
  Q (bind (tx_timer_create (Single f) name cb input i r a) k s).
Proof.
  intros E Hk. rewrite bind_tx_timer_create_single, E, <- app_assoc.
  apply Hk.
Qed.

Lemma step_if_modify {V} (g : V → tAniSirGlobal → tAniSirGlobal)
    (b : bool) (x y : V) (a c : Z) (k : Z → M A) s :
  Q (k (if b then a else c) (g (if b then x else y) s)) →
  Q (bind (if b then bind (modify (g x)) (fun _ => ret a)
           else bind (modify (g y)) (fun _ => ret c)) k s).
Proof. by rewrite bind_if_modify. Qed.

Lemma step_gets {X} (g : tAniSirGlobal → X) (k : X → M A) s :
  Q (k (g s) s) → Q (bind (gets g) k s).
Proof. done. Qed.

Lemma step_modify (g : tAniSirGlobal → tAniSirGlobal) (k : unit → M A) s :
  Q (k tt (g s)) → Q (bind (modify g) k s).
Proof. done. Qed.

Lemma step_alloc n (k : tHalStatus → M A) s pre l :
  extCalls s = pre ++ l →
  (palAllocOk s = true →
   Q (k eHAL_STATUS_SUCCESS
        (set_extCalls (pre ++ (l ++ [PalAllocate n eHAL_STATUS_SUCCESS]))
           (set_gLimPreAuthTimerTable
              (mkPreAuthTable (numEntry (gLimPreAuthTimerTable s))
                 (Some (replicate (Z.to_nat n)
                          (mkPreAuthNode blank_timer 0 false)))) s)))) →
  (palAllocOk s = false →
   Q (k eHAL_STATUS_FAILURE
        (set_extCalls (pre ++ (l ++ [PalAllocate n eHAL_STATUS_FAILURE])) s))) →
  Q (bind (palAllocateMemory_pTable n) k s).
Proof.
  intros E H1 H2. rewrite bind_palAllocateMemory_pTable, E, <- !app_assoc.
  destruct (palAllocOk s); [by apply H1|by apply H2].
Qed.

Lemma step_cnfWait c (k : unit → M A) s :
  (Z.to_nat (maxStation s) ≤ length (gpLimCnfWaitTimer s))%nat →
  (∀ s1, pool_frame (cnf_plan c 0 (Z.to_nat (maxStation s))) s s1 →
         Q (k tt s1)) →
  Q (bind (limCreateTimers_cnfWait c) k s).
Proof.
  intros Hlen Hk. destruct (cnfWait_spec c s Hlen) as (s1 & E & F).
  rewrite (bind_ok _ k _ _ _ E). by apply Hk.
Qed.

Lemma step_initTable (k : unit → M A) s l :
  pTable (gLimPreAuthTimerTable s) = Some l →
  (Z.to_nat (numEntry (gLimPreAuthTimerTable s)) ≤ length l)%nat →
  (∀ s1, pool_frame [] s s1 → Q (k tt s1)) →
  Q (bind (call limInitPreAuthTimerTable) k s).
Proof.
  intros Ht Hlen Hk. rewrite bind_call.
  pose proof (initTable_spec s l Ht Hlen) as F.
  destruct (limInitPreAuthTimerTable s) as [[] s1|s1|]; [| |done];
    by apply Hk.
Qed.

End CreateSteps.


(** *** Tactics for the three blocks *)

Ltac is_literal l :=
  lazymatch l with
  | [] => idtac
  | _ :: ?t => is_literal t
  end.

Ltac calls_form :=
  cbn;
  first [ lazymatch goal with |- _ ++ ?l = _ => is_literal l; reflexivity end
        | exact (eq_sym (app_nil_r _)) ].

Ltac step :=
  lazymatch goal with
  | |- _ (bind (bind _ _) _ _) => apply step_assoc
  | |- _ (bind (when _ (limLog _ _)) _ _) => apply step_when_log
  | |- _ (bind (limLog _ _) _ _) => apply step_log
  | |- _ (bind (cfgGetInt_or_log _ _ _) _ _) =>
      eapply step_cfg; [calls_form|]
  | |- _ (bind (tx_timer_create (Single _) _ _ _ _ _ _) _ _) =>
      eapply step_create; [calls_form|intros ?]
  | |- _ (bind (if _ then bind (modify _) _ else _) _ _) =>
      apply step_if_modify
  | |- _ (bind (gets _) _ _) => apply step_gets
  | |- _ (bind (modify _) _ _) => apply step_modify
  | |- _ (when _ (limLog _ _) _) => apply last_when_log
  end; cbn.

Ltac steps := repeat step.

(** Split on the outcome of the guarded creation the run is stuck on. *)
Ltac split_guard :=
  lazymatch goal with
  | |- _ ((if bool_decide (create_status (?ok (Single ?f)) ≠ TX_SUCCESS)
           then _ else _) _) =>
      destruct (ok (Single f)) eqn:?; rewrite create_guard; cbn; steps
  end.

Ltac use_pool_calls :=
  repeat match goal with
  | H : forallb is_pool_call ?l = true |- _ =>
      let Hs := fresh in let Hk := fresh in let Hb := fresh in
      destruct (pool_calls_no_single l H) as (Hs & Hk & Hb);
      clear H
  end.

Ltac fin :=
  first [ done | congruence
        | eexists;
          repeat first [ reflexivity | apply last_app_ne | apply last_cons_ne ]
        | split; fin ].

(** Bring the call log and the log buffer of the final state into the
    form [initial ++ added] and cancel the initial part. *)
Ltac between :=
  unfold calls_between, log_between; cbn;
  rewrite <- ?app_assoc; rewrite ?drop_own_length, ?drop_whole; cbn.

Ltac leaf_nonAp :=
  unfold nonAp_post; cbn;
  (eexists; split; [reflexivity|]);
  between;
  repeat match goal with |- _ ∧ _ => split end;
  lazymatch goal with
  | |- block_frame _ _ => split; between; fin
  | |- ∀ v, _ =>
      let Hv := fresh in
      intros v Hv; cbn in Hv; rewrite ?Hv; cbn; unfold bgscan_ms;
      rewrite ?if_true_false; fin
  | |- _ => fin
  end.

Ltac flat_frame s1 F :=
  let R := fresh "R" in let Mx := fresh "Mx" in let C := fresh "C" in
  let T := fresh "T" in let P := fresh "P" in let K := fresh "K" in
  let B := fresh "B" in let Cr := fresh "Cr" in let L := fresh "L" in
  let N := fresh "N" in let Tb := fresh "Tb" in let l := fresh "l" in
  let ll := fresh "ll" in let XL := fresh "XL" in
  let X := fresh "X" in let Y := fresh "Y" in let Z := fresh "Z" in
  destruct s1;
  destruct F as [R Mx C T P K B Cr L N Tb (ll & XL) (l & X & Y & Z)];
  cbn in R, Mx, C, T, P, K, B, Cr, L, N, Tb, XL, X, Z; subst.

Ltac cbn_state :=
  cbn [gLimSystemRole limTimers gpLimCnfWaitTimer maxStation
       gLimPreAuthTimerTable gLimSpecMgmt
       gLimTriggerBackgroundScanDuringQuietBss gpLimMlmScanReq
       switchTimeoutValue gLimBackgroundScanDisable gLimAddtsRspTimerCount
       gLimTimersCreated keepAlive cfg limMsgQ limMsgQRoom txCreateOk
       palAllocOk extCalls logBuf
       set_limTimers set_gpLimCnfWaitTimer set_gLimPreAuthTimerTable
       set_gLimBackgroundScanDisable set_gLimAddtsRspTimerCount
       set_gLimTimersCreated set_keepAlive set_limMsgQ set_extCalls
       set_logBuf c_return modify].

Ltac between_state :=
  unfold calls_between, log_between; cbn_state;
  rewrite <- ?app_assoc; rewrite ?drop_own_length.

Ltac leaf_rest :=
  unfold rest_post;
  (eexists; split; [cbn; reflexivity|]);
  use_pool_calls;
  between_state;
  rewrite ?single_creates_app, ?keepalive_creates_app, ?bgscan_creates_app,
    ?cnf_creates_app;
  repeat match goal with
  | H : single_creates _ = [] |- _ => rewrite H
  | H : keepalive_creates _ = [] |- _ => rewrite H
  | H : bgscan_creates _ = [] |- _ => rewrite H
  | H : cnf_creates _ = _ |- _ => rewrite H
  end;
  cbn;
  repeat match goal with |- _ ∧ _ => split end;
  lazymatch goal with
  | |- block_frame _ _ => split; cbn; between_state; fin
  | |- ∀ v, _ =>
      let Hv := fresh in
      intros v Hv; cbn in Hv; rewrite ?Hv; cbn; rewrite ?app_nil_r; fin
  | |- _ => fin
  end.

Ltac leaf_create :=
  unfold create_post; cbn;
  (eexists; split; [reflexivity|]);
  between;
  split; [split; [reflexivity|split; fin]|];
  split; [|split]; intros v _; first [done | split; [reflexivity|discriminate]].


(** *** The blocks and their composition *)

Section CreateBlocks.
Context {platform : Platform}.

Lemma nonAp_spec c s :
  nonAp_post s (guards_ok s nonAp_guarded) (limCreateTimers_nonAp c s).
Proof.
  unfold limCreateTimers_nonAp.
  destruct s as [role timers cnf maxSt tbl spec trig scan sw bg addts created
                   ka cfgs q room ok alloc calls0 log0].
  cbn. steps.
  do 8 (split_guard; [|leaf_nonAp]).
  leaf_nonAp.
Qed.

Lemma rest_spec s :
  (Z.to_nat (maxStation s) ≤ length (gpLimCnfWaitTimer s))%nat →
  rest_post s (rest_guards_ok s) (limCreateTimers_rest s).
Proof.
  intros Hlen. unfold limCreateTimers_rest, rest_guards_ok.
  destruct s as [role timers cnf maxSt tbl spec trig scan sw bg addts created
                   ka cfgs q room ok alloc calls0 log0].
  cbn in Hlen |- *. steps.
  apply step_cnfWait; [cbn; exact Hlen|intros s1 F1].
  flat_frame s1 F1. cbn. steps.
  eapply step_alloc; [calls_form|intros Hpal|intros Hpal];
    cbn in Hpal; subst; cbn; steps.
  2: { leaf_rest. }
  eapply step_initTable;
    [cbn; reflexivity|cbn; rewrite length_replicate; lia|intros s2 F2].
  flat_frame s2 F2. cbn. steps.
  split_guard; [|leaf_rest].
  split_guard; leaf_rest.
Qed.

Lemma block_frame_trans s1 s2 s3 :
  block_frame s1 s2 → block_frame s2 s3 →
  block_frame s1 s3
  ∧ calls_between s1 s3 = calls_between s1 s2 ++ calls_between s2 s3
  ∧ log_between s1 s3 = log_between s1 s2 ++ log_between s2 s3.
Proof.
  intros [R1 M1 C1 T1 P1 L1 X1 Y1] [R2 M2 C2 T2 P2 L2 X2 Y2].
  assert (calls_between s1 s3 = calls_between s1 s2 ++ calls_between s2 s3)
    as Hc.
  { unfold calls_between at 1. rewrite X2, X1, <- app_assoc.
    apply drop_own_length. }
  assert (log_between s1 s3 = log_between s1 s2 ++ log_between s2 s3)
    as Hl.
  { unfold log_between at 1. rewrite Y2, Y1, <- app_assoc.
    apply drop_own_length. }
  split; [|done]. split; try congruence.
  - by rewrite Hc, app_assoc, <- X1.
  - by rewrite Hl, app_assoc, <- Y1.
Qed.

Lemma rest_guards_ok_frame s s' :
  block_frame s s' → rest_guards_ok s' = rest_guards_ok s.
Proof. intros []. unfold rest_guards_ok. congruence. Qed.

Lemma tail_spec s0 s1 c :
  (Z.to_nat (maxStation s0) ≤ length (gpLimCnfWaitTimer s0))%nat →
  block_frame s0 s1 →
  keepAlive s1 = keepAlive s0 →
  gLimBackgroundScanDisable s1 = gLimBackgroundScanDisable s0 →
  gLimTimersCreated s1 = gLimTimersCreated s0 →
  keepalive_creates (calls_between s0 s1) = [] →
  bgscan_creates (calls_between s0 s1) = [] →
  cnf_creates (calls_between s0 s1) = [] →
  single_creates (calls_between s0 s1) = head_plan →
  create_post s0 (tail_guards_ok s0) (nonAp_guards_ok s0)
    (tail_bgscan_reached s0)
    (bind (if bool_decide (gLimSystemRole s1 ≠ eLIM_AP_ROLE)
           then limCreateTimers_nonAp c else ret tt)
       (fun _ => limCreateTimers_rest) s1).
Proof.
  intros Hlen F1 K1 B1 Cr1 KA1 BG1 CN1 S1.
  pose proof F1 as [R1 M1 C1 T1 P1 L1 X1 Y1].
  unfold create_post, tail_guards_ok, nonAp_guards_ok, tail_bgscan_reached,
    creation_plan.
  rewrite <- R1, <- (rest_guards_ok_frame _ _ F1),
    <- (guards_ok_frame _ _ nonAp_guarded T1), <- C1, <- M1.
  case_bool_decide as Hrole.
  - (* not the AP role *)
    rewrite (bool_decide_eq_false_2 _ Hrole). cbn [orb negb andb].
    destruct (nonAp_spec c s1)
      as (s2 & E2 & F2 & K2 & Cr2 & KA2 & CN2 & BG2 & Sg2).
    destruct (block_frame_trans _ _ _ F1 F2) as (F12 & Hc12 & Hl12).
    destruct (guards_ok s1 nonAp_guarded).
    + rewrite (bind_ok _ _ _ _ _ E2). cbn [andb].
      destruct (rest_spec s2) as (s3 & E3 & F3 & B3 & BG3 & KA3 & CN3 & Fin3).
      { destruct F12. congruence. }
      destruct (block_frame_trans _ _ _ F12 F3) as (F13 & Hc13 & Hl13).
      rewrite (rest_guards_ok_frame _ _ F2) in E3, Fin3.
      exists s3. split; [exact E3|].
      rewrite Hc13, Hl13. rewrite Hc12.
      rewrite ?single_creates_app, ?keepalive_creates_app,
        ?bgscan_creates_app, ?cnf_creates_app.
      rewrite S1, KA1, BG1, CN1, KA2, CN2, BG3, Sg2.
      cbn [app]. rewrite ?app_nil_r.
      destruct F2 as [R2 M2 C2 _ _ _ _ _].
      rewrite R2 in Fin3. rewrite C2, M2 in CN3. rewrite C2 in KA3.
      split; [|split; [|split]].
      * destruct (rest_guards_ok s1).
        -- destruct Fin3 as [-> ->]. by rewrite <- app_assoc.
        -- destruct Fin3 as (-> & Hp & msg & Hl).
           split; [congruence|]. split.
           ++ rewrite <- app_assoc. by do 2 apply prefix_after.
           ++ exists msg. by apply last_app_ne.
      * intros v Hv. by destruct (KA3 v Hv) as [-> ->].
      * intros v Hv. destruct (BG2 v Hv) as [-> Hd].
        split; [done|]. intros _. congruence.
      * intros v Hv. by rewrite (CN3 v Hv).
    + unfold bind. rewrite E2. cbn [andb].
      exists s2. split; [done|].
      rewrite Hc12, Hl12.
      rewrite ?single_creates_app, ?keepalive_creates_app,
        ?bgscan_creates_app, ?cnf_creates_app.
      rewrite ?S1, ?KA1, ?BG1, ?CN1, ?KA2, ?CN2.
      cbn [app].
      destruct Sg2 as (Hp & msg & Hl).
      split; [|split; [|split]].
      * split; [congruence|]. split.
        -- apply prefix_after. by apply prefix_before.
        -- exists msg. by apply last_app_ne.
      * done.
      * intros v Hv. by destruct (BG2 v Hv) as [-> _].
      * done.
  - (* the AP role *)
    assert (gLimSystemRole s1 = eLIM_AP_ROLE) as Hap.
    { destruct (decide (gLimSystemRole s1 = eLIM_AP_ROLE)); [done|].
      by destruct Hrole. }
    rewrite (bool_decide_eq_true_2 _ Hap). cbn [orb andb negb].
    change (bind (ret ()) (λ _ : (), limCreateTimers_rest) s1)
      with (limCreateTimers_rest s1).
    destruct (rest_spec s1) as (s3 & E3 & F3 & B3 & BG3 & KA3 & CN3 & Fin3).
    { congruence. }
    destruct (block_frame_trans _ _ _ F1 F3) as (F13 & Hc13 & Hl13).
    exists s3. split; [exact E3|].
    rewrite Hc13, Hl13.
    rewrite ?single_creates_app, ?keepalive_creates_app,
      ?bgscan_creates_app, ?cnf_creates_app.
    rewrite S1, KA1, BG1, CN1, BG3.
    cbn [app].
    split; [|split; [|split]].
    + destruct (rest_guards_ok s1).
      * by destruct Fin3 as [-> ->].
      * destruct Fin3 as (-> & Hp & msg & Hl).
        split; [congruence|]. split.
        -- by apply (prefix_after head_plan).
        -- exists msg. by apply last_app_ne.
    + intros v Hv. by destruct (KA3 v Hv) as [-> ->].
    + done.
    + intros v Hv. by rewrite (CN3 v Hv).
Qed.

(** [limCreateTimers], from its three blocks. *)
Lemma limCreateTimers_spec c0 s :
  (Z.to_nat (maxStation s) ≤ length (gpLimCnfWaitTimer s))%nat →
  create_post s (all_guards_ok s) (common_reached s) (bgscan_reached s)
    (limCreateTimers c0 s).
Proof.
  intros Hlen.
  unfold limCreateTimers, all_guards_ok, common_reached, bgscan_reached.
  destruct s as [role timers cnf maxSt tbl spec trig scan sw bg addts created
                   ka cfgs q room ok alloc calls0 log0].
  cbn in Hlen |- *. steps.
  split_guard; [|leaf_create].
  split_guard; [|leaf_create].
  lazymatch goal with
  | |- create_post ?s0 _ _ _
         (bind (if _ then limCreateTimers_nonAp ?c else _) _ ?s1) =>
      apply (tail_spec s0 s1 c)
  end; cbn; try done; try (between; done).
  split; cbn; try done; between; done.
Qed.

Lemma cnfWait_body_crash c s :
  limCreateTimers_cnfWait_body c (length (gpLimCnfWaitTimer s)) s
  = Crash (OutOfBounds (CnfWait (length (gpLimCnfWaitTimer s)))).
Proof.
  unfold limCreateTimers_cnfWait_body, tx_timer_create, bind, read_timer.
  by rewrite lookup_ge_None_2.
Qed.

Lemma cnfWait_loop_crash c n : ∀ i s,
  (i ≤ length (gpLimCnfWaitTimer s))%nat →
  (length (gpLimCnfWaitTimer s) < i + n)%nat →
  for_loop n i (limCreateTimers_cnfWait_body c) s
  = Crash (OutOfBounds (CnfWait (length (gpLimCnfWaitTimer s)))).
Proof.
  induction n as [|n IH]; intros i s Hi Hn; [lia|]. cbn.
  destruct (decide (i = length (gpLimCnfWaitTimer s))) as [->|Hne].
  - unfold bind. by rewrite cnfWait_body_crash.
  - destruct (cnfWait_body_spec c i s ltac:(lia)) as (s1 & E1 & F1).
    unfold bind at 1. rewrite E1.
    rewrite <- (pf_cnf _ _ _ F1). apply IH; rewrite (pf_cnf _ _ _ F1); lia.
Qed.

Lemma bind_cnfWait_crash {B} c (k : unit → M B) s :
  (length (gpLimCnfWaitTimer s) < Z.to_nat (maxStation s))%nat →
  bind (limCreateTimers_cnfWait c) k s
  = Crash (OutOfBounds (CnfWait (length (gpLimCnfWaitTimer s)))).
Proof.
  intros H. unfold bind at 1, limCreateTimers_cnfWait, bind, gets.
  rewrite cnfWait_loop_crash; [done|lia|lia].
Qed.

Lemma rest_crash s :
  (length (gpLimCnfWaitTimer s) < Z.to_nat (maxStation s))%nat →
  limCreateTimers_rest s
  = Crash (OutOfBounds (CnfWait (length (gpLimCnfWaitTimer s)))).
Proof.
  intros Hlen. unfold limCreateTimers_rest.
  destruct s as [role timers cnf maxSt tbl spec trig scan sw bg addts created
                   ka cfgs q room ok alloc calls0 log0].
  cbn in Hlen |- *.
  symmetry. steps. by rewrite bind_cnfWait_crash.
Qed.

(** With fewer slots than stations the creation loop of the CNF_WAIT
    timers runs off the end of the array. *)
Lemma limCreateTimers_crash c0 s :
  common_reached s = true →
  (length (gpLimCnfWaitTimer s) < Z.to_nat (maxStation s))%nat →
  limCreateTimers c0 s
  = Crash (OutOfBounds (CnfWait (length (gpLimCnfWaitTimer s)))).
Proof.
  unfold common_reached.
  intros Hr Hlen.
  apply andb_true_iff in Hr as [Hmin Hr].
  apply andb_true_iff in Hr as [Hmax Hna].
  unfold nonAp_guards_ok, guards_ok, nonAp_guarded in Hna.
  unfold limCreateTimers.
  destruct s as [role timers cnf maxSt tbl spec trig scan sw bg addts created
                   ka cfgs q room ok alloc calls0 log0].
  cbn [gLimSystemRole txCreateOk forallb] in Hna.
  cbn in Hmin, Hmax, Hlen |- *.
  symmetry. steps.
  split_guard; [|done].
  split_guard; [|done].
  symmetry.
  destruct (decide (role = eLIM_AP_ROLE)) as [Hap|Hnap].
  - rewrite (bool_decide_eq_false_2 (role ≠ eLIM_AP_ROLE))
      by (intros H; by apply H).
    change (bind (ret ()) (λ _ : (), limCreateTimers_rest) ?s1)
      with (limCreateTimers_rest s1).
    by rewrite rest_crash.
  - rewrite (bool_decide_eq_true_2 _ Hnap).
    rewrite (bool_decide_eq_false_2 _ Hnap) in Hna. cbn [orb] in Hna.
    match goal with
    | |- bind (limCreateTimers_nonAp ?c) _ ?s1 = _ =>
        destruct (nonAp_spec c s1) as (s2 & E2 & F2 & _)
    end.
    unfold guards_ok in E2. cbn in E2. rewrite Hna in E2.
    rewrite (bind_ok _ _ _ _ _ E2).
    destruct F2 as [_ M2 _ _ _ L2 _ _]. cbn in M2, L2.
    rewrite rest_crash; [by rewrite L2|]. rewrite L2, M2. done.
Qed.

End CreateBlocks.


(** *** The properties *)

Section CreateAll.
Context {platform : Platform}.

(** The facts of [limCreateTimers_spec], over the calls and the entries
    of the run. *)
Lemma limCreateTimers_run c0 s :
  (Z.to_nat (maxStation s) ≤ length (gpLimCnfWaitTimer s))%nat →
  ∃ s',
    limCreateTimers c0 s = (if all_guards_ok s then Ok tt s' else Returned s')
    ∧ final (limCreateTimers c0 s) = Some s'
    ∧ calls_made (limCreateTimers c0) s = calls_between s s'
    ∧ entries_logged (limCreateTimers c0) s = log_between s s'
    ∧ create_post s (all_guards_ok s) (common_reached s) (bgscan_reached s)
        (if all_guards_ok s then Ok tt s' else Returned s').
Proof.
  intros Hlen. pose proof (limCreateTimers_spec c0 s Hlen) as H.
  destruct H as (s' & E & H). exists s'.
  unfold calls_made, entries_logged. rewrite E.
  repeat split; try (by destruct (all_guards_ok s)).
  exists s'. by split.
Qed.

Lemma create_post_facts s g gk gb r s' :
  create_post s g gk gb r → r = (if g then Ok tt s' else Returned s') →
  (if g
   then gLimTimersCreated s' = 1
        ∧ single_creates (calls_between s s')
          = creation_plan (gLimSystemRole s)
   else gLimTimersCreated s' = gLimTimersCreated s
        ∧ single_creates (calls_between s s')
          `prefix_of` creation_plan (gLimSystemRole s)
        ∧ ∃ msg, last (log_between s s') = Some (LimLog LOGP msg))
  ∧ (∀ v, cfg s WNI_CFG_KEEPALIVE_TIMEOUT = Some v →
       keepalive_creates (calls_between s s')
       = (if gk
          then [(ceil_to_tick (keepalive_ms v), ceil_to_tick (keepalive_ms v))]
          else [])
       ∧ (gk = true →
          keepAlive s' = (if bool_decide (v = 0) then 0 else 1)))
  ∧ (∀ v, cfg s WNI_CFG_BACKGROUND_SCAN_PERIOD = Some v →
       bgscan_creates (calls_between s s')
       = (if gb
          then [(bgscan_ms v / SYS_TICK_DUR_MS, bgscan_ms v / SYS_TICK_DUR_MS)]
          else [])
       ∧ (gb = true → gLimBackgroundScanDisable s' = bool_decide (v = 0)))
  ∧ (∀ v, cfg s WNI_CFG_WT_CNF_TIMEOUT = Some v →
       cnf_creates (calls_between s s')
       = (if gk
          then cnf_plan (SYS_MS_TO_TICKS v) 0 (Z.to_nat (maxStation s))
          else [])).
Proof.
  intros (s2 & E & H) ->.
  assert (s2 = s') as -> by (destruct g; congruence). exact H.
Qed.

Lemma creates_in_plan c0 s x :
  (Z.to_nat (maxStation s) ≤ length (gpLimCnfWaitTimer s))%nat →
  x ∈ single_creates (calls_made (limCreateTimers c0) s) →
  x ∈ creation_plan (gLimSystemRole s).
Proof.
  intros Hlen Hx.
  destruct (limCreateTimers_run c0 s Hlen) as (s' & E & _ & Ec & _ & P).
  destruct (create_post_facts _ _ _ _ _ s' P eq_refl) as (Fin & _).
  rewrite Ec in Hx.
  destruct (all_guards_ok s).
  - destruct Fin as [_ <-]. done.
  - destruct Fin as (_ & [k ->] & _). apply elem_of_app. by left.
Qed.

Ltac in_plan H :=
  unfold creation_plan, head_plan, nonAp_plan, rest_plan in H;
  rewrite !elem_of_app in H;
  destruct H as [H|[H|H]];
  [| destruct (bool_decide _) eqn:?; [by apply elem_of_nil in H|] |];
  repeat (apply elem_of_cons in H as [H|H]; [injection H as -> -> -> ->|]);
  try (by apply elem_of_nil in H).

Lemma plan_policy role f cb input a :
  (f, cb, input, a) ∈ creation_plan role → a = auto_activated role f.
Proof.
  intros H. in_plan H; try done.
  cbn. by destruct (bool_decide _).
Qed.

Lemma expiry_handler_calls cb param s :
  ∃ st, calls_made (expiry_handler cb param) s
        = [PostMsg (expiry_msg cb param) st].
Proof.
  unfold calls_made, calls_between.
  destruct (limMsgQRoom s) eqn:Hroom;
    destruct cb; cbn [expiry_handler expiry_msg];
    unfold limTimerHandler, limAddtsResponseTimerHandler,
      limAuthResponseTimerHandler, limAssocFailureTimerHandler,
      limUpdateOlbcCacheTimerHandler, limSendDisassocFrameThresholdHandler,
      limCnfWaitTmerHandler, limKeepaliveTmerHandler,
      limChannelSwitchTimerHandler, limQuietTimerHandler,
      limQuietBssTimerHandler, bind, gets, limPostMsgApi; cbn;
    rewrite ?Hroom; cbn; rewrite ?when_limLog; cbn;
    rewrite ?drop_own_length; by eexists.
Qed.

Lemma plan_wiring role f cb input a :
  (∀ m, 0 ≤ sirMsgCode m < 2 ^ 16) →
  (f, cb, input, a) ∈ creation_plan role →
  msg_type (expiry_msg cb input) = sirMsgCode (timeout_of f)
  ∧ (f = gLimAssocFailureTimer → bodyval (expiry_msg cb input) = LIM_ASSOC)
  ∧ (f = gLimReassocFailureTimer →
     bodyval (expiry_msg cb input) = LIM_REASSOC).
Proof.
  intros Hc H.
  in_plan H; cbn; (split; [|by split]);
    try done; unfold u16; by apply Z.mod_small.
Qed.

(** ** Creation *)


(** X16.  The singleton timers [limCreateTimers] creates, with their
    callbacks, parameters and activation policy, are always an initial
    segment of [creation_plan]: the two channel dwell timers, outside the
    AP role the eleven timers of the non-AP block, then the five common
    timers, in this order.  A run that ends normally creates the whole
    plan. *)
Theorem create_timers_plan (c0 : Z) (s : tAniSirGlobal) :
  (Z.to_nat (maxStation s) ≤ length (gpLimCnfWaitTimer s))%nat →
  single_creates (calls_made (limCreateTimers c0) s)
    `prefix_of` creation_plan (gLimSystemRole s)
  ∧ (all_guards_ok s = true →
     single_creates (calls_made (limCreateTimers c0) s)
     = creation_plan (gLimSystemRole s)).
Proof.
  intros Hlen.
  destruct (limCreateTimers_run c0 s Hlen) as (s' & E & _ & Ec & _ & P).
  destruct (create_post_facts _ _ _ _ _ s' P eq_refl) as (Fin & _).
  rewrite Ec. destruct (all_guards_ok s).
  - destruct Fin as [_ ->]. done.
  - destruct Fin as (_ & Hp & _). done.
Qed.

(** X17.  Of the singleton timers [limCreateTimers] creates, the
    disassociation throttle and OLBC cache timers are created running,
    the keep-alive timer is created running in the AP role only, and
    every other timer is created inactive. *)
Theorem create_timers_activation_policy (c0 : Z) (s : tAniSirGlobal)
    (f : tLimTimerField) (cb : tExpiryFunc) (input : Z) (a : bool) :
  (Z.to_nat (maxStation s) ≤ length (gpLimCnfWaitTimer s))%nat →
  (f, cb, input, a) ∈ single_creates (calls_made (limCreateTimers c0) s) →
  a = auto_activated (gLimSystemRole s) f.
Proof.
  intros Hlen Hx. eapply plan_policy. by eapply creates_in_plan.
Qed.

(** X18.  When the message codes fit 16 bits, every singleton timer created by
    [limCreateTimers] is wired to its own event: run with the parameter
    it was created with, its callback posts exactly one message, of the
    type [timeout_of] gives for the timer.  The association and
    reassociation failure timers share the type
    [SIR_LIM_ASSOC_FAIL_TIMEOUT] and are told apart by the body value,
    [LIM_ASSOC] or [LIM_REASSOC]. *)
Theorem created_timer_posts_its_message (c0 : Z) (s s1 : tAniSirGlobal)
    (f : tLimTimerField) (cb : tExpiryFunc) (input : Z) (a : bool) :
  (Z.to_nat (maxStation s) ≤ length (gpLimCnfWaitTimer s))%nat →
  (∀ m, 0 ≤ sirMsgCode m < 2 ^ 16) →
  (f, cb, input, a) ∈ single_creates (calls_made (limCreateTimers c0) s) →
  ∃ m st,
    calls_made (expiry_handler cb input) s1 = [PostMsg m st]
    ∧ msg_type m = sirMsgCode (timeout_of f)
    ∧ (f = gLimAssocFailureTimer → bodyval m = LIM_ASSOC)
    ∧ (f = gLimReassocFailureTimer → bodyval m = LIM_REASSOC).
Proof.
  intros Hlen Hc Hx.
  destruct (expiry_handler_calls cb input s1) as [st Hst].
  exists (expiry_msg cb input), st. split; [done|].
  eapply plan_wiring; [done|]. by eapply creates_in_plan.
Qed.


(** X20.  When the background scan period is configured, [limCreateTimers]
    creates the background scan timer once if it reaches the end of the
    non-AP block and not at all otherwise, never in the AP role.  The
    initial and the reload ticks are the configured period, or 5000 ms
    when it is 0; [gLimBackgroundScanDisable] is set for a configured 0
    and cleared otherwise. *)
Theorem background_scan_creation (c0 v : Z) (s : tAniSirGlobal) :
  (Z.to_nat (maxStation s) ≤ length (gpLimCnfWaitTimer s))%nat →
  cfg s WNI_CFG_BACKGROUND_SCAN_PERIOD = Some v →
  ∃ s', final (limCreateTimers c0 s) = Some s'
    ∧ bgscan_creates (calls_made (limCreateTimers c0) s)
      = (if bgscan_reached s
         then [(SYS_MS_TO_TICKS (bgscan_ms v), SYS_MS_TO_TICKS (bgscan_ms v))]
         else [])
    ∧ (bgscan_reached s = true →
       gLimBackgroundScanDisable s' = bool_decide (v = 0))
    ∧ (gLimSystemRole s = eLIM_AP_ROLE → bgscan_reached s = false).
Proof.
  intros Hlen Hv.
  destruct (limCreateTimers_run c0 s Hlen) as (s' & _ & Ef & Ec & _ & P).
  destruct (create_post_facts _ _ _ _ _ s' P eq_refl) as (_ & _ & BG & _).
  exists s'. split; [done|]. rewrite Ec.
  destruct (BG v Hv) as [-> Hd]. split; [done|]. split; [done|].
  intros Hap. unfold bgscan_reached, tail_bgscan_reached.
  rewrite (bool_decide_eq_true_2 _ Hap). cbn.
  by rewrite !andb_false_r.
Qed.

(** X21.  When the CNF wait timeout is configured and [limCreateTimers]
    reaches the common part, it creates one CNF_WAIT timer per station
    index below [maxStation], in increasing order, each with
    [limCnfWaitTmerHandler], its own index as parameter, the configured
    timeout in ticks, reload 0, not activated. *)
Theorem cnf_wait_pool_creation (c0 v : Z) (s : tAniSirGlobal) :
  (Z.to_nat (maxStation s) ≤ length (gpLimCnfWaitTimer s))%nat →
  cfg s WNI_CFG_WT_CNF_TIMEOUT = Some v →
  cnf_creates (calls_made (limCreateTimers c0) s)
  = (if common_reached s
     then cnf_plan (SYS_MS_TO_TICKS v) 0 (Z.to_nat (maxStation s))
     else []).
Proof.
  intros Hlen Hv.
  destruct (limCreateTimers_run c0 s Hlen) as (s' & _ & Ef & Ec & _ & P).
  destruct (create_post_facts _ _ _ _ _ s' P eq_refl) as (_ & _ & _ & CN).
  rewrite Ec. exact (CN v Hv).
Qed.

(** X22.  [limCreateTimers] does not check [maxStation] against the CNF_WAIT
    array: with fewer slots than stations, a run that reaches the common
    part indexes the array at its length, outside its bounds. *)
Theorem create_timers_trusts_maxStation (c0 : Z) (s : tAniSirGlobal) :
  common_reached s = true →
  (length (gpLimCnfWaitTimer s) < Z.to_nat (maxStation s))%nat →
  limCreateTimers c0 s
  = Crash (OutOfBounds (CnfWait (length (gpLimCnfWaitTimer s)))).
Proof. apply limCreateTimers_crash. Qed.

End CreateAll.



(** X16, witness: eighteen singleton timers for a station, seven for an
    access point. *)
Lemma create_timers_plan_witness :
  length (single_creates
            (calls_made (@limCreateTimers sample_platform 0)
               heartbeat_fails_mac)) = 18%nat
  ∧ length (single_creates
              (calls_made (@limCreateTimers sample_platform 0)
                 (with_role eLIM_AP_ROLE sample_mac))) = 7%nat.
Proof.
  split.
  - rewrite (proj2 (@create_timers_plan sample_platform 0 heartbeat_fails_mac
                      ltac:(vm_compute; lia)) eq_refl).
    reflexivity.
  - rewrite (proj2 (@create_timers_plan sample_platform 0
                      (with_role eLIM_AP_ROLE sample_mac)
                      ltac:(vm_compute; lia)) eq_refl).
    reflexivity.
Defined.

(** The message codes of [sample_platform] fit 16 bits. *)
Lemma sample_msg_code_16_bits m : 0 ≤ sample_msg_code m < 2 ^ 16.
Proof. destruct m; cbn; lia. Qed.

(** An access point's run creates the keep-alive timer running. *)
Lemma sample_keepalive_created :
  (gLimKeepaliveTimer, cb_limKeepaliveTmerHandler, 0, true)
  ∈ single_creates
      (calls_made (@limCreateTimers sample_platform 0)
         (with_role eLIM_AP_ROLE sample_mac)).
Proof. apply (list_elem_of_lookup_2 _ 3%nat). by vm_compute. Qed.

(** A station's run creates the reassociation failure timer with the
    association failure callback and [LIM_REASSOC]. *)
Lemma sample_reassoc_created :
  (gLimReassocFailureTimer, cb_limAssocFailureTimerHandler, 1, false)
  ∈ single_creates
      (calls_made (@limCreateTimers sample_platform 0) sample_mac).
Proof. apply (list_elem_of_lookup_2 _ 7%nat). by vm_compute. Qed.

(** X17, witness: the keep-alive timer of an access point. *)
Lemma create_timers_activation_policy_witness :
  true = @auto_activated eLIM_AP_ROLE gLimKeepaliveTimer.
Proof.
  exact (@create_timers_activation_policy sample_platform 0
           (with_role eLIM_AP_ROLE sample_mac) gLimKeepaliveTimer
           cb_limKeepaliveTmerHandler 0 true ltac:(vm_compute; lia)
           sample_keepalive_created).
Defined.

(** X18, witness: the reassociation failure timer. *)
Lemma created_timer_posts_its_message_witness :
  ∃ m st,
    calls_made (@expiry_handler sample_platform cb_limAssocFailureTimerHandler 1)
      sample_mac = [PostMsg m st]
    ∧ msg_type m = 5126 ∧ bodyval m = 1.
Proof.
  destruct (@created_timer_posts_its_message sample_platform 0 sample_mac
              sample_mac gLimReassocFailureTimer
              cb_limAssocFailureTimerHandler 1 false ltac:(vm_compute; lia)
              sample_msg_code_16_bits sample_reassoc_created)
    as (m & st & Ec & Et & _ & Eb).
  exists m, st. split; [exact Ec|]. split; [exact Et|]. exact (Eb eq_refl).
Defined.


(** X20, witness: a configured 0 gives 5000 ms, 500 ticks. *)
Lemma background_scan_creation_witness :
  let s := with_cfg (cfg_of [(WNI_CFG_BACKGROUND_SCAN_PERIOD, 0)]) sample_mac in
  ∃ s', final (@limCreateTimers sample_platform 0 s) = Some s'
    ∧ bgscan_creates (calls_made (@limCreateTimers sample_platform 0) s)
      = [(500, 500)]
    ∧ gLimBackgroundScanDisable s' = true.
Proof.
  intros s.
  destruct (@background_scan_creation sample_platform 0 0 s
              ltac:(vm_compute; lia) eq_refl) as (s' & E & Ek & Ef & _).
  exists s'. split; [exact E|]. split; [exact Ek|]. exact (Ef eq_refl).
Defined.

(** X21, witness: four stations, timeout 1000 ms. *)
Lemma cnf_wait_pool_creation_witness :
  let s := with_cfg (cfg_of [(WNI_CFG_WT_CNF_TIMEOUT, 1000)]) sample_mac in
  cnf_creates (calls_made (@limCreateTimers sample_platform 0) s)
  = [(0%nat, cb_limCnfWaitTmerHandler, 0, 100, 0, false);
     (1%nat, cb_limCnfWaitTmerHandler, 1, 100, 0, false);
     (2%nat, cb_limCnfWaitTmerHandler, 2, 100, 0, false);
     (3%nat, cb_limCnfWaitTmerHandler, 3, 100, 0, false)].
Proof.
  intros s.
  exact (@cnf_wait_pool_creation sample_platform 0 1000 s
           ltac:(vm_compute; lia) eq_refl).
Defined.

(** X22, witness: four stations and three slots. *)
Lemma create_timers_trusts_maxStation_witness :
  maxStation short_array_mac = 4
  ∧ length (gpLimCnfWaitTimer short_array_mac) = 3%nat
  ∧ @limCreateTimers sample_platform 0 short_array_mac
    = Crash (OutOfBounds (CnfWait 3)).
Proof.
  split; [reflexivity|]. split; [reflexivity|].
  exact (@create_timers_trusts_maxStation sample_platform 0 short_array_mac
           eq_refl ltac:(vm_compute; lia)).
Defined.

(** X23, witness: 295 ms on a 10 ms tick. *)
Lemma ceil_to_tick_least_witness :
  295 ≤ @ceil_to_tick sample_platform 295 * 10
  ∧ (@ceil_to_tick sample_platform 295 - 1) * 10 < 295.
Proof.
  exact (@ceil_to_tick_least sample_platform 295 ltac:(cbn; lia) ltac:(lia)
           ltac:(cbn; lia)).
Defined.
